(** * Resilient operation gateway of the CMGA agent

    A shallow embedding of the service layer under
    [backend/agents/cmga/services]: [error_handlers.py] (error classifier,
    circuit breaker, retry handler, error-handling facade), [monitoring.py]
    (performance statistics), [caching.py] (TTL and size bounded cache),
    [batching.py] (request batcher on the asyncio event loop) and the
    orchestration in [adk_service_manager.py].

    Conventions of the embedding:
    - a Python [int] is a [Z]; a Python [float], a [datetime] and a
      [timedelta] are rationals [Q] counted in seconds (floating point
      rounding is idealised away);
    - a [dict] keyed by [str] is a [gmap string _]; the cache's
      [OrderedDict] is an association list, first entry first;
    - an [async def] that is awaited without an intervening task switch is a
      state-passing function; what it reads from the outside (the clock, the
      wrapped remote operation, the random generator) lives in [World];
    - a raised exception is the [Raised] outcome of a call; the exceptions
      are the subclasses of [Exception], so that cancellation and the other
      signals below [BaseException] are outside the embedding;
    - the range of a float is modelled where leaving it raises
      ([OverflowError] of [**] and of the conversion of an [int]); [inf]
      and [nan] are outside the embedding. *)

From Stdlib Require Import ZArith QArith Qabs Qminmax Lqa Lia List String Bool.
From stdpp Require Import gmap strings.
Import ListNotations.

Local Open Scope Z_scope.

(** ** Python primitives *)

Module Py.

(** [x < y] on floats. *)
Definition Qltb (x y : Q) : bool := negb (Qle_bool y x).

(** [min(x, y)]: the first argument unless the second is strictly smaller. *)
Definition min (x y : Q) : Q := if Qltb y x then y else x.

(** [max(x, y)]: the first argument unless the second is strictly larger. *)
Definition max (x y : Q) : Q := if Qltb x y then y else x.

(** Truth value of a float: everything but zero. *)
Definition truthy (x : Q) : bool := negb (Qeq_bool x 0).

(** [x or y] where [x] is an optional float: [None] and [0.0] are falsy. *)
Definition or_else (x : option Q) (y : Q) : Q :=
  match x with
  | Some v => if truthy v then v else y
  | None => y
  end.

(** The value a test [if x:] lets through, for an optional float. *)
Definition if_truthy (x : option Q) : option Q :=
  match x with
  | Some v => if truthy v then Some v else None
  | None => None
  end.

End Py.

(** ** Values, outcomes and the outside world *)

(** A request payload: the canonical JSON text of the [data] dict. *)
Definition Data := string.

(** Identifier built by [RequestBatcher._generate_request_id]: a digest of
    the request content and the submission time stamp. *)
Record RequestId := { rid_content : string; rid_timestamp : Q }.

(** Results that travel through the gateway. [VBatch] is the dict assembled
    by [RequestBatcher._execute_batch]. *)
Inductive Value :=
| VNone
| VData (payload : Data)
| VBatch (request_id : RequestId) (processed_at : Q) (batch_size : Z) (data : Data).

(** The body of an HTTP header as [float(...)] sees it. *)
Inductive HeaderValue :=
| HvEmpty                (* the empty string, falsy *)
| HvNumber (seconds : Q) (* parses as a float *)
| HvText.                (* float() raises ValueError *)

Record Response := {
  resp_truthy : bool;
  resp_retry_after : option HeaderValue  (* headers.get('Retry-After') *)
}.

(** The exception classes that [classify_error] tests with [isinstance];
    [PlainException] stands for any other subclass of [Exception]. *)
Inductive ExcClass :=
| Unauthenticated | TooManyRequests | ResourceExhausted | ServiceUnavailable
| DeadlineExceeded | GoogleAPIError
| GoogleAuthError
| ConnectionError | Timeout | RequestException
| PlainException.

(** Why the breaker refused a call: the two messages of
    [CircuitBreakerOpenError]. *)
Inductive BreakerRefusal := IsOpen | HalfOpenLimit.

#[warnings="-register-all"]
Inductive Exception :=
| Fault (cls : ExcClass) (message : string) (response : option Response)
| CircuitBreakerOpenError (why : BreakerRefusal) (service : string)
| RetryExhaustedError (attempts : Z) (service operation : string)
                      (original_error : option Exception).

(** The built-in exceptions that the code raises by itself; to the
    classifier each is a plain subclass of [Exception]. *)
Definition OverflowError : Exception := Fault PlainException "OverflowError" None.
Definition ZeroDivisionError : Exception :=
  Fault PlainException "ZeroDivisionError" None.
Definition AttributeError : Exception := Fault PlainException "AttributeError" None.

Inductive Outcome :=
| Returned (v : Value)
| Raised (e : Exception).

(** The operations on floats that raise. *)
Module PyFloat.

(** [sys.float_info.max], that is [(2 - 2 ** -52) * 2 ** 1023]. *)
Definition max : Q := inject_Z (2 ^ 1024 - 2 ^ 971).

Definition in_range (x : Q) : bool := Qle_bool (Qabs x) max.

(** The conversion of an [int] that meets a float in a product or a
    power. *)
Definition of_int (n : Z) : Exception + Q :=
  if in_range (inject_Z n) then inr (inject_Z n) else inl OverflowError.

(** [x ** n] for a float [x] and an [int] [n]: the exponent is converted
    first. *)
Definition pow (x : Q) (n : Z) : Exception + Q :=
  match of_int n with
  | inl raised => inl raised
  | inr _ =>
      if Qeq_bool x 0 && (n <? 0) then inl ZeroDivisionError
      else if in_range (x ^ n) then inr (x ^ n)%Q
      else inl OverflowError
  end.

End PyFloat.

(** What the code observes but does not own. [rng] is the stream behind
    [random.random()]; [sleeps] logs every [asyncio.sleep] of the retry
    loop. *)
Record World := {
  clock : Q;
  invocations : nat;
  sleeps : list Q;
  rng : nat -> Q;
  draws : nat
}.

(** The wrapped remote operation: outcome and duration of its i-th run. *)
Definition Operation := nat -> Outcome * Q.

(** A callable that also threads a piece of state of type [S]. *)
Definition Callable (S : Type) := S -> World -> Outcome * S * World.

Definition invoke (func : Operation) (w : World) : Outcome * World :=
  let '(out, took) := func (invocations w) in
  (out, {| clock := clock w + took; invocations := Datatypes.S (invocations w);
           sleeps := sleeps w; rng := rng w; draws := draws w |}).

(** [await asyncio.sleep(delay)]: a non-positive delay returns at once. *)
Definition sleep (delay : Q) (w : World) : World :=
  {| clock := clock w + Py.max 0 delay; invocations := invocations w;
     sleeps := sleeps w ++ [delay]; rng := rng w; draws := draws w |}.

(** [random.uniform(a, b)] is [a + (b - a) * random.random()]. *)
Definition random_uniform (a b : Q) (w : World) : Q * World :=
  ((a + (b - a) * rng w (draws w))%Q,
   {| clock := clock w; invocations := invocations w; sleeps := sleeps w;
      rng := rng w; draws := Datatypes.S (draws w) |}).

(** Time passing between two calls of a caller. *)
Definition elapse (gap : Q) (w : World) : World :=
  {| clock := clock w + gap; invocations := invocations w;
     sleeps := sleeps w; rng := rng w; draws := draws w |}.

(** ** error_handlers.py *)

Module error_handlers.

Inductive ErrorType :=
| AUTHENTICATION | RATE_LIMIT | NETWORK | API_ERROR
| QUOTA_EXCEEDED | SERVICE_UNAVAILABLE | TIMEOUT | UNKNOWN.

Definition error_type_value (e : ErrorType) : string :=
  match e with
  | AUTHENTICATION => "authentication"
  | RATE_LIMIT => "rate_limit"
  | NETWORK => "network"
  | API_ERROR => "api_error"
  | QUOTA_EXCEEDED => "quota_exceeded"
  | SERVICE_UNAVAILABLE => "service_unavailable"
  | TIMEOUT => "timeout"
  | UNKNOWN => "unknown"
  end.

Definition all_error_types : list ErrorType :=
  [AUTHENTICATION; RATE_LIMIT; NETWORK; API_ERROR;
   QUOTA_EXCEEDED; SERVICE_UNAVAILABLE; TIMEOUT; UNKNOWN].

#[global] Instance ErrorType_eq_dec : EqDecision ErrorType.
Proof. solve_decision. Defined.

Inductive RetryStrategy :=
| EXPONENTIAL_BACKOFF | LINEAR_BACKOFF | FIXED_DELAY | NO_RETRY.

Record RetryConfig := {
  max_attempts : Z;
  base_delay : Q;
  max_delay : Q;
  backoff_factor : Q;
  jitter : bool;
  strategy : RetryStrategy;
  retryable_errors : list ErrorType
}.

Record CircuitBreakerConfig := {
  failure_threshold : Z;
  recovery_timeout : Q;
  success_threshold : Z;
  half_open_max_calls : Z
}.

Inductive CircuitBreakerState := CLOSED | OPEN | HALF_OPEN.

Record CircuitBreakerStatus := {
  state : CircuitBreakerState;
  failure_count : Z;
  success_count : Z;
  last_failure_time : option Q;
  next_attempt_time : option Q;
  half_open_calls : Z
}.

(** [CircuitBreakerStatus()] *)
Definition fresh_status : CircuitBreakerStatus :=
  {| state := CLOSED; failure_count := 0; success_count := 0;
     last_failure_time := None; next_attempt_time := None;
     half_open_calls := 0 |}.

Definition default_retryable : list ErrorType :=
  [NETWORK; TIMEOUT; SERVICE_UNAVAILABLE; RATE_LIMIT].

Definition DEFAULT_RETRY_CONFIG : RetryConfig :=
  {| max_attempts := 3; base_delay := 1; max_delay := 60;
     backoff_factor := 2; jitter := true; strategy := EXPONENTIAL_BACKOFF;
     retryable_errors := default_retryable |}.

Definition DEFAULT_CIRCUIT_BREAKER_CONFIG : CircuitBreakerConfig :=
  {| failure_threshold := 5; recovery_timeout := 60;
     success_threshold := 3; half_open_max_calls := 5 |}.

Definition RetryConfig_of (attempts : Z) (base limit : Q) (retryable : list ErrorType)
    : RetryConfig :=
  {| max_attempts := attempts; base_delay := base; max_delay := limit;
     backoff_factor := 2; jitter := true; strategy := EXPONENTIAL_BACKOFF;
     retryable_errors := retryable |}.

(** The table [SERVICE_CONFIGS]: per service, its "retry" and its
    "circuit_breaker" entry. *)
Definition SERVICE_CONFIGS : list (string * (RetryConfig * CircuitBreakerConfig)) :=
  [("vertex_ai"%string,
    (RetryConfig_of 3 2 120 [NETWORK; TIMEOUT; SERVICE_UNAVAILABLE; RATE_LIMIT],
     {| failure_threshold := 3; recovery_timeout := 120;
        success_threshold := 2; half_open_max_calls := 5 |}));
   ("vision_api"%string,
    (RetryConfig_of 2 1 30 [NETWORK; TIMEOUT; RATE_LIMIT],
     {| failure_threshold := 5; recovery_timeout := 60;
        success_threshold := 3; half_open_max_calls := 5 |}));
   ("natural_language"%string,
    (RetryConfig_of 2 1 30 [NETWORK; TIMEOUT; RATE_LIMIT],
     {| failure_threshold := 5; recovery_timeout := 60;
        success_threshold := 3; half_open_max_calls := 5 |}));
   ("storage"%string,
    (RetryConfig_of 3 0.5 10 [NETWORK; TIMEOUT; SERVICE_UNAVAILABLE],
     {| failure_threshold := 10; recovery_timeout := 30;
        success_threshold := 3; half_open_max_calls := 5 |}))].

(** The class hierarchy of google-api-core, google-auth and requests, as far
    as the classifier looks at it: [subclass c d] is [issubclass(c, d)]. *)
Definition subclass (c d : ExcClass) : bool :=
  match c, d with
  | Unauthenticated, (Unauthenticated | GoogleAPIError) => true
  | TooManyRequests, (TooManyRequests | GoogleAPIError) => true
  | ResourceExhausted, (ResourceExhausted | TooManyRequests | GoogleAPIError) => true
  | ServiceUnavailable, (ServiceUnavailable | GoogleAPIError) => true
  | DeadlineExceeded, (DeadlineExceeded | GoogleAPIError) => true
  | GoogleAPIError, GoogleAPIError => true
  | GoogleAuthError, GoogleAuthError => true
  | ConnectionError, (ConnectionError | RequestException) => true
  | Timeout, (Timeout | RequestException) => true
  | RequestException, RequestException => true
  | PlainException, PlainException => true
  | _, _ => false
  end.

Definition isinstance (error : Exception) (c : ExcClass) : bool :=
  match error with
  | Fault cls _ _ => subclass cls c
  | CircuitBreakerOpenError _ _ => subclass PlainException c
  | RetryExhaustedError _ _ _ _ => subclass PlainException c
  end.

Module ADKErrorClassifier.

Definition classify_error (error : Exception) : ErrorType :=
  if isinstance error Unauthenticated then AUTHENTICATION
  else if isinstance error TooManyRequests then RATE_LIMIT
  else if isinstance error ResourceExhausted then QUOTA_EXCEEDED
  else if isinstance error ServiceUnavailable then SERVICE_UNAVAILABLE
  else if isinstance error DeadlineExceeded then TIMEOUT
  else if isinstance error GoogleAPIError then API_ERROR
  else if isinstance error GoogleAuthError then AUTHENTICATION
  else if isinstance error ConnectionError || isinstance error Timeout then NETWORK
  else if isinstance error RequestException then NETWORK
  else UNKNOWN.

Definition is_retryable (error_type : ErrorType) (retry_config : RetryConfig) : bool :=
  bool_decide (error_type ∈ retryable_errors retry_config).

Definition get_retry_delay (error : Exception) : option Q :=
  if isinstance error TooManyRequests then
    match error with
    | Fault _ _ (Some response) =>
        if resp_truthy response then
          match resp_retry_after response with
          | Some (HvNumber seconds) => Some seconds
          | Some HvText => None
          | Some HvEmpty => None
          | None => None
          end
        else None
    | _ => None
    end
  else None.

End ADKErrorClassifier.

Module CircuitBreaker.

Record t := {
  service_name : string;
  config : CircuitBreakerConfig;
  status : CircuitBreakerStatus
}.

Definition with_status (cb : t) (st : CircuitBreakerStatus) : t :=
  {| service_name := service_name cb; config := config cb; status := st |}.

Definition _check_state (now : Q) (cb : t) : t :=
  let st := status cb in
  match state st with
  | OPEN =>
      match next_attempt_time st with
      | Some due =>
          if Qle_bool due now then
            with_status cb
              {| state := HALF_OPEN; failure_count := failure_count st;
                 success_count := success_count st;
                 last_failure_time := last_failure_time st;
                 next_attempt_time := next_attempt_time st;
                 half_open_calls := 0 |}
          else cb
      | None => cb
      end
  | _ => cb
  end.

Definition _on_success (cb : t) : t :=
  let st := status cb in
  match state st with
  | HALF_OPEN =>
      let successes := success_count st + 1 in
      if success_threshold (config cb) <=? successes then
        with_status cb
          {| state := CLOSED; failure_count := 0; success_count := 0;
             last_failure_time := last_failure_time st;
             next_attempt_time := next_attempt_time st;
             half_open_calls := half_open_calls st |}
      else
        with_status cb
          {| state := HALF_OPEN; failure_count := failure_count st;
             success_count := successes;
             last_failure_time := last_failure_time st;
             next_attempt_time := next_attempt_time st;
             half_open_calls := half_open_calls st |}
  | s =>
      with_status cb
        {| state := s; failure_count := 0;
           success_count := success_count st;
           last_failure_time := last_failure_time st;
           next_attempt_time := next_attempt_time st;
           half_open_calls := half_open_calls st |}
  end.

Definition _on_failure (now : Q) (cb : t) : t :=
  let st := status cb in
  let failures := failure_count st + 1 in
  let reopened :=
    {| state := OPEN; failure_count := failures;
       success_count := success_count st;
       last_failure_time := Some now;
       next_attempt_time := Some (now + recovery_timeout (config cb))%Q;
       half_open_calls := half_open_calls st |} in
  let counted :=
    {| state := state st; failure_count := failures;
       success_count := success_count st;
       last_failure_time := Some now;
       next_attempt_time := next_attempt_time st;
       half_open_calls := half_open_calls st |} in
  match state st with
  | HALF_OPEN => with_status cb reopened
  | CLOSED =>
      if failure_threshold (config cb) <=? failures
      then with_status cb reopened
      else with_status cb counted
  | OPEN => with_status cb counted
  end.

(** The body of [call] once the call is let through: run [func], then book the result. *)
Definition run_guarded (cb : t) (func : Operation) (w : World) : Outcome * t * World :=
  match invoke func w with
  | (Returned result, w') => (Returned result, _on_success cb, w')
  | (Raised e, w') => (Raised e, _on_failure (clock w') cb, w')
  end.

Definition call (cb : t) (func : Operation) (w : World) : Outcome * t * World :=
  let cb1 := _check_state (clock w) cb in
  let st := status cb1 in
  match state st with
  | OPEN => (Raised (CircuitBreakerOpenError IsOpen (service_name cb1)), cb1, w)
  | HALF_OPEN =>
      if half_open_max_calls (config cb1) <=? half_open_calls st then
        (Raised (CircuitBreakerOpenError HalfOpenLimit (service_name cb1)), cb1, w)
      else
        run_guarded
          (with_status cb1
             {| state := state st; failure_count := failure_count st;
                success_count := success_count st;
                last_failure_time := last_failure_time st;
                next_attempt_time := next_attempt_time st;
                half_open_calls := half_open_calls st + 1 |})
          func w
  | CLOSED => run_guarded cb1 func w
  end.

End CircuitBreaker.

Module RetryHandler.

Import ADKErrorClassifier.

(** The delay of the configured strategy before jitter and clamping; the
    power and the conversion of [attempt + 1] are where it raises. *)
Definition strategy_delay (config : RetryConfig) (attempt : Z) : Exception + Q :=
  match strategy config with
  | EXPONENTIAL_BACKOFF =>
      match PyFloat.pow (backoff_factor config) attempt with
      | inr power => inr (base_delay config * power)%Q
      | inl raised => inl raised
      end
  | LINEAR_BACKOFF =>
      match PyFloat.of_int (attempt + 1) with
      | inr n => inr (base_delay config * n)%Q
      | inl raised => inl raised
      end
  | FIXED_DELAY => inr (base_delay config)
  | NO_RETRY => inr (base_delay config)
  end.

Definition _calculate_delay (config : RetryConfig) (attempt : Z) (error : Exception)
    (w : World) : (Exception + Q) * World :=
  let suggested_delay := get_retry_delay error in
  match Py.if_truthy suggested_delay with
  | Some suggested => (inr (Py.min suggested (max_delay config)), w)
  | None =>
      match strategy_delay config attempt with
      | inl raised => (inl raised, w)
      | inr delay =>
          if jitter config then
            let jitter_range := (delay * 0.1)%Q in
            let '(u, w') := random_uniform (- jitter_range) jitter_range w in
            (inr (Py.max 0 (Py.min (delay + u) (max_delay config))), w')
          else (inr (Py.max 0 (Py.min delay (max_delay config))), w)
      end
  end.

Definition exhausted {S : Type} (config : RetryConfig) (service_name operation : string)
    (last_error : option Exception) (s : S) (w : World) : Outcome * S * World :=
  (Raised (RetryExhaustedError (max_attempts config) service_name operation last_error), s, w).

(** The [for attempt in range(max_attempts)] loop; [todo] counts the
    iterations that are left, [attempt] is the loop variable. The delay is
    computed inside the [except] block, so that what [_calculate_delay]
    raises leaves the loop as it is. *)
Fixpoint attempts {S : Type} (config : RetryConfig) (func : Callable S)
    (service_name operation : string) (todo : nat) (attempt : Z)
    (last_error : option Exception) (s : S) (w : World) : Outcome * S * World :=
  match todo with
  | O => exhausted config service_name operation last_error s w
  | Datatypes.S todo' =>
      match func s w with
      | (Returned result, s', w') => (Returned result, s', w')
      | (Raised error, s', w') =>
          let error_type := classify_error error in
          if attempt =? max_attempts config - 1 then
            exhausted config service_name operation (Some error) s' w'
          else if negb (is_retryable error_type config) then
            exhausted config service_name operation (Some error) s' w'
          else
            match _calculate_delay config attempt error w' with
            | (inr delay, w'') =>
                attempts config func service_name operation todo' (attempt + 1)
                  (Some error) s' (sleep delay w'')
            | (inl raised, w'') => (Raised raised, s', w'')
            end
      end
  end.

Definition execute_with_retry {S : Type} (config : RetryConfig) (func : Callable S)
    (service_name operation : string) (s : S) (w : World) : Outcome * S * World :=
  attempts config func service_name operation (Z.to_nat (max_attempts config)) 0 None s w.

End RetryHandler.

Module ADKErrorHandler.

Import ADKErrorClassifier.

Record t := {
  retry_configs : gmap string RetryConfig;
  circuit_breakers : gmap string CircuitBreaker.t;
  error_stats : gmap string (gmap string Z)
}.

(** [{error_type.value: 0 for error_type in ErrorType}] *)
Definition zero_stats : gmap string Z :=
  list_to_map (map (fun e => (error_type_value e, 0)) all_error_types).

(** [ADKErrorHandler()] *)
Definition init : t :=
  {| retry_configs := ∅; circuit_breakers := ∅; error_stats := ∅ |}.

Definition configure_service (h : t) (service_name : string)
    (retry_config : option RetryConfig)
    (circuit_breaker_config : option CircuitBreakerConfig) : t :=
  {| retry_configs :=
       <[service_name := default DEFAULT_RETRY_CONFIG retry_config]> (retry_configs h);
     circuit_breakers :=
       match circuit_breaker_config with
       | Some c =>
           <[service_name :=
               {| CircuitBreaker.service_name := service_name;
                  CircuitBreaker.config := c;
                  CircuitBreaker.status := fresh_status |}]> (circuit_breakers h)
       | None => circuit_breakers h
       end;
     error_stats := <[service_name := zero_stats]> (error_stats h) |}.

(** [self.error_stats[service_name][error_type.value] += 1]; the inner dict
    is always created with one key per [ErrorType]. *)
Definition _record_error (h : t) (service_name : string) (error : Exception) : t :=
  let error_type := classify_error error in
  let per_service := default zero_stats (error_stats h !! service_name) in
  let key := error_type_value error_type in
  {| retry_configs := retry_configs h;
     circuit_breakers := circuit_breakers h;
     error_stats :=
       <[service_name := <[key := default 0 (per_service !! key) + 1]> per_service]>
         (error_stats h) |}.

Definition with_breaker (h : t) (service_name : string) (cb : CircuitBreaker.t) : t :=
  {| retry_configs := retry_configs h;
     circuit_breakers := <[service_name := cb]> (circuit_breakers h);
     error_stats := error_stats h |}.

(** The unprotected callable: no breaker state to thread. *)
Definition plain (func : Operation) : Callable unit :=
  fun s w => let '(out, w') := invoke func w in (out, s, w').

(** [protected_func]: the callable routed through the service's breaker. *)
Definition protected_func (func : Operation) : Callable CircuitBreaker.t :=
  fun cb w => CircuitBreaker.call cb func w.

Definition execute_with_protection (h : t) (service_name operation : string)
    (func : Operation) (w : World) : Outcome * t * World :=
  let h :=
    match retry_configs h !! service_name with
    | Some _ => h
    | None => configure_service h service_name None None
    end in
  let retry_config := default DEFAULT_RETRY_CONFIG (retry_configs h !! service_name) in
  let '(out, h', w') :=
    match circuit_breakers h !! service_name with
    | Some circuit_breaker =>
        let '(out, cb', w') :=
          RetryHandler.execute_with_retry retry_config (protected_func func)
            service_name operation circuit_breaker w in
        (out, with_breaker h service_name cb', w')
    | None =>
        let '(out, _, w') :=
          RetryHandler.execute_with_retry retry_config (plain func)
            service_name operation tt w in
        (out, h, w')
    end in
  match out with
  | Returned result => (Returned result, h', w')
  | Raised error => (Raised error, _record_error h' service_name error, w')
  end.

(** [reset_circuit_breaker] *)
Definition reset_circuit_breaker (h : t) (service_name : string) : bool * t :=
  match circuit_breakers h !! service_name with
  | Some breaker =>
      (true,
       with_breaker h service_name (CircuitBreaker.with_status breaker fresh_status))
  | None => (false, h)
  end.

End ADKErrorHandler.

End error_handlers.

(** ** monitoring.py *)

Module monitoring.

Inductive MetricType :=
| REQUEST_COUNT | ERROR_COUNT | RESPONSE_TIME | SUCCESS_RATE
| RATE_LIMIT_HITS | CIRCUIT_BREAKER_TRIPS.

Definition metric_type_value (m : MetricType) : string :=
  match m with
  | REQUEST_COUNT => "request_count"
  | ERROR_COUNT => "error_count"
  | RESPONSE_TIME => "response_time"
  | SUCCESS_RATE => "success_rate"
  | RATE_LIMIT_HITS => "rate_limit_hits"
  | CIRCUIT_BREAKER_TRIPS => "circuit_breaker_trips"
  end.

Record ServiceMetric := {
  metric_service_name : string;
  metric_operation : string;
  metric_type : MetricType;
  value : Q;
  timestamp : Q
}.

(** A float that may be [float('inf')]. *)
Inductive Float :=
| Finite (q : Q)
| Infinity.

(** [min(a, b)] with a possibly infinite first argument. *)
Definition float_min (a : Float) (b : Q) : Float :=
  match a with
  | Finite q => Finite (Py.min q b)
  | Infinity => Finite b
  end.

Record PerformanceStats := {
  total_requests : Z;
  successful_requests : Z;
  failed_requests : Z;
  total_response_time : Q;
  min_response_time : Float;
  max_response_time : Q;
  rate_limit_hits : Z;
  circuit_breaker_trips : Z;
  last_request_time : option Q
}.

(** [PerformanceStats()] *)
Definition new_stats : PerformanceStats :=
  {| total_requests := 0; successful_requests := 0; failed_requests := 0;
     total_response_time := 0; min_response_time := Infinity;
     max_response_time := 0; rate_limit_hits := 0;
     circuit_breaker_trips := 0; last_request_time := None |}.

Definition success_rate (s : PerformanceStats) : Q :=
  if total_requests s =? 0 then 0
  else (inject_Z (successful_requests s) / inject_Z (total_requests s) * 100)%Q.

Definition average_response_time (s : PerformanceStats) : Q :=
  if successful_requests s =? 0 then 0
  else (total_response_time s / inject_Z (successful_requests s))%Q.

Definition error_rate (s : PerformanceStats) : Q :=
  if total_requests s =? 0 then 0
  else (inject_Z (failed_requests s) / inject_Z (total_requests s) * 100)%Q.

Module RequestTracker.

Record RequestInfo := {
  request_id : string;
  info_service_name : string;
  info_operation : string;
  start_time : Q;
  completed : bool;             (* status: "in_progress" or "completed" *)
  end_time : option Q;
  success : option bool;
  error : option Exception
}.

Record t := {
  max_history : nat;
  request_history : list RequestInfo   (* deque(maxlen=max_history), oldest first *)
}.

(** [RequestTracker()] *)
Definition init : t := {| max_history := 1000; request_history := [] |}.

(** [deque.append] on a bounded deque drops from the left when full. *)
Definition deque_append (maxlen : nat) (d : list RequestInfo) (x : RequestInfo)
    : list RequestInfo :=
  let d' := d ++ [x] in
  skipn (length d' - maxlen) d'.

(** [stamp] is the text of [int(time.time() * 1000000)]. *)
Definition start_request (tr : t) (service_name operation stamp : string) (now : Q)
    : string * t :=
  let request_id := (service_name +:+ "_" +:+ operation +:+ "_" +:+ stamp)%string in
  (request_id,
   {| max_history := max_history tr;
      request_history :=
        deque_append (max_history tr) (request_history tr)
          {| request_id := request_id; info_service_name := service_name;
             info_operation := operation; start_time := now;
             completed := false; end_time := None; success := None;
             error := None |} |}).

(** Update the first match of a list scanned from its head. *)
Fixpoint complete_first (request_id : string) (ok : bool) (err : option Exception)
    (now : Q) (scan : list RequestInfo) : list RequestInfo :=
  match scan with
  | [] => []
  | info :: rest =>
      if String.eqb (RequestTracker.request_id info) request_id then
        {| request_id := RequestTracker.request_id info;
           info_service_name := info_service_name info;
           info_operation := info_operation info;
           start_time := start_time info;
           completed := true; end_time := Some now; success := Some ok;
           error := if ok then None else err |} :: rest
      else info :: complete_first request_id ok err now rest
  end.

(** The loop runs over [reversed(self.request_history)]. *)
Definition complete_request (tr : t) (request_id : string) (ok : bool)
    (err : option Exception) (now : Q) : t :=
  {| max_history := max_history tr;
     request_history :=
       rev (complete_first request_id ok err now (rev (request_history tr))) |}.

End RequestTracker.

Module ADKMonitor.

(** One call of every registered alert callback. *)
Record Alert := {
  alert_service_name : string;
  alert_metric : MetricType;
  current_value : Q;
  threshold : Q
}.

Record t := {
  performance_stats : gmap string (gmap string PerformanceStats);
  metrics_history : list ServiceMetric;
  request_tracker : RequestTracker.t;
  alert_thresholds : gmap string (gmap string Q);
  alerts : list Alert      (* what the alert callbacks have been called with *)
}.

(** [ADKMonitor()] *)
Definition init : t :=
  {| performance_stats := ∅; metrics_history := [];
     request_tracker := RequestTracker.init; alert_thresholds := ∅;
     alerts := [] |}.

(** [self.performance_stats[service_name][operation]] on the nested
    [defaultdict]: a missing entry reads as [PerformanceStats()]. *)
Definition stats_of (m : t) (service_name operation : string) : PerformanceStats :=
  default new_stats
    (default ∅ (performance_stats m !! service_name) !! operation).

Definition with_stats (m : t) (service_name operation : string)
    (s : PerformanceStats) : t :=
  {| performance_stats :=
       <[service_name :=
           <[operation := s]> (default ∅ (performance_stats m !! service_name))]>
         (performance_stats m);
     metrics_history := metrics_history m;
     request_tracker := request_tracker m;
     alert_thresholds := alert_thresholds m;
     alerts := alerts m |}.

Definition set_alert_threshold (m : t) (service_name : string)
    (metric : MetricType) (limit : Q) : t :=
  {| performance_stats := performance_stats m;
     metrics_history := metrics_history m;
     request_tracker := request_tracker m;
     alert_thresholds :=
       <[service_name :=
           <[metric_type_value metric := limit]>
             (default ∅ (alert_thresholds m !! service_name))]>
         (alert_thresholds m);
     alerts := alerts m |}.

(** What a caller passes as [metric_type]: a [MetricType], or a [str]. *)
Inductive MetricArg :=
| Metric (metric : MetricType)
| Str (text : string).

(** [set_alert_threshold] on either argument: the dict of the service is
    created first, then [metric_type.value] is read, which a [str] does not
    have. *)
Definition set_alert_threshold_of (m : t) (service_name : string)
    (metric_type : MetricArg) (limit : Q) : option Exception * t :=
  match metric_type with
  | Metric metric => (None, set_alert_threshold m service_name metric limit)
  | Str _ =>
      (Some AttributeError,
       {| performance_stats := performance_stats m;
          metrics_history := metrics_history m;
          request_tracker := request_tracker m;
          alert_thresholds :=
            <[service_name := default ∅ (alert_thresholds m !! service_name)]>
              (alert_thresholds m);
          alerts := alerts m |})
  end.

Definition _record_metric (m : t) (service_name operation : string)
    (metric : MetricType) (v : Q) (now : Q) : t :=
  {| performance_stats := performance_stats m;
     metrics_history :=
       metrics_history m ++
       [{| metric_service_name := service_name; metric_operation := operation;
           metric_type := metric; value := v; timestamp := now |}];
     request_tracker := request_tracker m;
     alert_thresholds := alert_thresholds m;
     alerts := alerts m |}.

Definition _trigger_alert (m : t) (service_name : string) (metric : MetricType)
    (observed limit : Q) : t :=
  {| performance_stats := performance_stats m;
     metrics_history := metrics_history m;
     request_tracker := request_tracker m;
     alert_thresholds := alert_thresholds m;
     alerts :=
       alerts m ++
       [{| alert_service_name := service_name; alert_metric := metric;
           current_value := observed; threshold := limit |}] |}.

(** One of the three threshold tests of [_check_alerts]; [exceeds] is the
    comparison that fires the alert. *)
Definition check_one (thresholds : gmap string Q) (service_name : string)
    (metric : MetricType) (observed : Q) (exceeds : Q -> Q -> bool) (m : t) : t :=
  match thresholds !! metric_type_value metric with
  | Some limit =>
      if exceeds observed limit then _trigger_alert m service_name metric observed limit
      else m
  | None => m
  end.

Definition _check_alerts (m : t) (service_name operation : string) : t :=
  match alert_thresholds m !! service_name with
  | None => m
  | Some thresholds =>
      let stats := stats_of m service_name operation in
      let m := with_stats m service_name operation stats in
      let m := check_one thresholds service_name ERROR_COUNT (error_rate stats)
                 (fun v limit => Py.Qltb limit v) m in
      let m := check_one thresholds service_name RESPONSE_TIME
                 (average_response_time stats) (fun v limit => Py.Qltb limit v) m in
      check_one thresholds service_name SUCCESS_RATE (success_rate stats)
        (fun v limit => Py.Qltb v limit) m
  end.

Definition record_request_completion (m : t) (request_id service_name operation : string)
    (ok : bool) (response_time : Q) (err : option Exception) (now : Q) : t :=
  let m :=
    {| performance_stats := performance_stats m;
       metrics_history := metrics_history m;
       request_tracker :=
         RequestTracker.complete_request (request_tracker m) request_id ok err now;
       alert_thresholds := alert_thresholds m;
       alerts := alerts m |} in
  let stats := stats_of m service_name operation in
  let stats :=
    if ok then
      {| total_requests := total_requests stats + 1;
         successful_requests := successful_requests stats + 1;
         failed_requests := failed_requests stats;
         total_response_time := (total_response_time stats + response_time)%Q;
         min_response_time := float_min (min_response_time stats) response_time;
         max_response_time := Py.max (max_response_time stats) response_time;
         rate_limit_hits := rate_limit_hits stats;
         circuit_breaker_trips := circuit_breaker_trips stats;
         last_request_time := Some now |}
    else
      {| total_requests := total_requests stats + 1;
         successful_requests := successful_requests stats;
         failed_requests := failed_requests stats + 1;
         total_response_time := total_response_time stats;
         min_response_time := min_response_time stats;
         max_response_time := max_response_time stats;
         rate_limit_hits := rate_limit_hits stats;
         circuit_breaker_trips := circuit_breaker_trips stats;
         last_request_time := Some now |} in
  let m := with_stats m service_name operation stats in
  let m := _record_metric m service_name operation REQUEST_COUNT 1 now in
  let m := _record_metric m service_name operation RESPONSE_TIME response_time now in
  let m := if ok then m
           else _record_metric m service_name operation ERROR_COUNT 1 now in
  _check_alerts m service_name operation.

Definition record_circuit_breaker_trip (m : t) (service_name operation : string)
    (now : Q) : t :=
  let stats := stats_of m service_name operation in
  let m :=
    with_stats m service_name operation
      {| total_requests := total_requests stats;
         successful_requests := successful_requests stats;
         failed_requests := failed_requests stats;
         total_response_time := total_response_time stats;
         min_response_time := min_response_time stats;
         max_response_time := max_response_time stats;
         rate_limit_hits := rate_limit_hits stats;
         circuit_breaker_trips := circuit_breaker_trips stats + 1;
         last_request_time := last_request_time stats |} in
  let m := _record_metric m service_name operation CIRCUIT_BREAKER_TRIPS 1 now in
  _check_alerts m service_name operation.

End ADKMonitor.

End monitoring.

(** ** caching.py *)

Module caching.

Inductive CacheStrategy := LRU | TTL | LFU | HYBRID.

(** What the cache needs from [pickle], [json] and [hashlib]: the length of
    a serialised result ([None] when serialisation raises) and the first 16
    hex digits of a SHA-256 digest. *)
Record Codec := {
  pickle_len : Value -> option Z;
  json_len : Value -> option Z;
  sha256_16 : string -> string
}.

Record Metadata := {
  md_service_name : string;
  md_operation : string;
  cached_at : Q
}.

Module CacheEntry.

Record t := {
  key : string;
  value : Value;
  created_at : Q;
  last_accessed : Q;
  access_count : Z;
  ttl_seconds : option Q;
  size_bytes : Z;
  metadata : option Metadata
}.

Definition is_expired (e : t) (now : Q) : bool :=
  match ttl_seconds e with
  | None => false
  | Some ttl =>
      let age := (now - created_at e)%Q in
      Py.Qltb ttl age
  end.

Definition touch (e : t) (now : Q) : t :=
  {| key := key e; value := value e; created_at := created_at e;
     last_accessed := now; access_count := access_count e + 1;
     ttl_seconds := ttl_seconds e; size_bytes := size_bytes e;
     metadata := metadata e |}.

End CacheEntry.

Record CacheConfig := {
  max_size_mb : Q;
  default_ttl_seconds : Q;
  strategy : CacheStrategy;
  cleanup_interval_seconds : Q;
  enable_compression : bool;
  enable_persistence : bool
}.

(** [CacheConfig()] *)
Definition default_config : CacheConfig :=
  {| max_size_mb := 100; default_ttl_seconds := 3600; strategy := HYBRID;
     cleanup_interval_seconds := 300; enable_compression := true;
     enable_persistence := false |}.

(** The operations of [collections.OrderedDict] that the cache uses. *)
Module OrderedDict.

Definition t := list (string * CacheEntry.t).

Fixpoint lookup (k : string) (d : t) : option CacheEntry.t :=
  match d with
  | [] => None
  | (k', e) :: rest => if String.eqb k' k then Some e else lookup k rest
  end.

(** [del d[k]] *)
Fixpoint remove (k : string) (d : t) : t :=
  match d with
  | [] => []
  | (k', e) :: rest => if String.eqb k' k then rest else (k', e) :: remove k rest
  end.

(** [d[k] = e]: an existing key keeps its position, a new one goes last. *)
Fixpoint assign (k : string) (e : CacheEntry.t) (d : t) : t :=
  match d with
  | [] => [(k, e)]
  | (k', e') :: rest =>
      if String.eqb k' k then (k', e) :: rest else (k', e') :: assign k e rest
  end.

Definition move_to_end (k : string) (d : t) : t :=
  match lookup k d with
  | Some e => remove k d ++ [(k, e)]
  | None => d
  end.

(** [min(d.keys(), key=...)] for a measure [lt a b], "a is smaller than b":
    the first of the smallest entries. *)
Fixpoint argmin (lt : CacheEntry.t -> CacheEntry.t -> bool)
    (best : string * CacheEntry.t) (d : t) : string :=
  match d with
  | [] => fst best
  | (k, e) :: rest =>
      if lt e (snd best) then argmin lt (k, e) rest else argmin lt best rest
  end.

End OrderedDict.

Module IntelligentCache.

Record Stats := {
  hits : Z;
  misses : Z;
  evictions : Z;
  size_bytes : Z;
  entry_count : Z
}.

Record t := {
  config : CacheConfig;
  cache : OrderedDict.t;
  cache_stats : Stats
}.

(** [IntelligentCache(config)] *)
Definition init (config : CacheConfig) : t :=
  {| config := config; cache := [];
     cache_stats := {| hits := 0; misses := 0; evictions := 0;
                       size_bytes := 0; entry_count := 0 |} |}.

(** A double quote, and a member [name: text] of a JSON object. *)
Definition dquote : string := String (Ascii.ascii_of_nat 34) EmptyString.

Definition json_str (text : string) : string := (dquote +:+ text +:+ dquote)%string.

Definition json_member (name text : string) : string :=
  (json_str name +:+ ": " +:+ text)%string.

(** [json.dumps(key_data, sort_keys=True, default=str)]; a context that is
    [None] or empty adds no key. *)
Definition key_string (service_name operation : string) (data : Data)
    (additional_context : option Data) : string :=
  ("{" +:+
   match additional_context with
   | Some ctx => json_member "context" ctx +:+ ", "
   | None => EmptyString
   end +:+
   json_member "data" data +:+ ", " +:+
   json_member "operation" (json_str operation) +:+ ", " +:+
   json_member "service" (json_str service_name) +:+ "}")%string.

Definition _generate_cache_key (codec : Codec) (service_name operation : string)
    (data : Data) (additional_context : option Data) : string :=
  (service_name +:+ ":" +:+ operation +:+ ":" +:+
   sha256_16 codec (key_string service_name operation data additional_context))%string.

(** Bookkeeping shared by every removal of an entry. *)
Definition evicted (s : Stats) (entry : CacheEntry.t) : Stats :=
  {| hits := hits s; misses := misses s; evictions := evictions s + 1;
     size_bytes := size_bytes s - CacheEntry.size_bytes entry;
     entry_count := entry_count s - 1 |}.

Definition get (codec : Codec) (c : t) (service_name operation : string)
    (data : Data) (additional_context : option Data) (now : Q)
    : option Value * t :=
  let cache_key := _generate_cache_key codec service_name operation data additional_context in
  match OrderedDict.lookup cache_key (cache c) with
  | Some entry =>
      if CacheEntry.is_expired entry now then
        let s := evicted (cache_stats c) entry in
        (None,
         {| config := config c;
            cache := OrderedDict.remove cache_key (cache c);
            cache_stats :=
              {| hits := hits s; misses := misses s + 1; evictions := evictions s;
                 size_bytes := size_bytes s; entry_count := entry_count s |} |})
      else
        let entry := CacheEntry.touch entry now in
        let d := OrderedDict.assign cache_key entry (cache c) in
        let d :=
          match strategy (config c) with
          | LRU | HYBRID => OrderedDict.move_to_end cache_key d
          | _ => d
          end in
        let s := cache_stats c in
        (Some (CacheEntry.value entry),
         {| config := config c; cache := d;
            cache_stats :=
              {| hits := hits s + 1; misses := misses s; evictions := evictions s;
                 size_bytes := size_bytes s; entry_count := entry_count s |} |})
  | None =>
      let s := cache_stats c in
      (None,
       {| config := config c; cache := cache c;
          cache_stats :=
            {| hits := hits s; misses := misses s + 1; evictions := evictions s;
               size_bytes := size_bytes s; entry_count := entry_count s |} |})
  end.

Definition max_size_bytes (c : t) : Q := (max_size_mb (config c) * 1024 * 1024)%Q.

(** The key that one round of the eviction loop removes; the cache is not
    empty when this is asked. *)
Definition key_to_remove (c : t) (now : Q) : option string :=
  match cache c with
  | [] => None
  | (k, e) :: rest =>
      Some
        match strategy (config c) with
        | LRU => k
        | LFU =>
            OrderedDict.argmin
              (fun a b => CacheEntry.access_count a <? CacheEntry.access_count b)
              (k, e) rest
        | TTL =>
            OrderedDict.argmin
              (fun a b => Py.Qltb (CacheEntry.created_at a) (CacheEntry.created_at b))
              (k, e) rest
        | HYBRID =>
            match filter (fun kv => CacheEntry.is_expired (snd kv) now) (cache c) with
            | (k', _) :: _ => k'
            | [] => k
            end
        end
  end.

(** The [while] loop of [_ensure_cache_space]; every round deletes one
    entry, so [rounds] never needs to exceed the number of entries. *)
Fixpoint evict_while (rounds : nat) (required_bytes : Z) (now : Q) (c : t) : t :=
  match rounds with
  | O => c
  | S rounds' =>
      if Py.Qltb (max_size_bytes c) (inject_Z (size_bytes (cache_stats c) + required_bytes))
      then
        match key_to_remove c now with
        | Some k =>
            match OrderedDict.lookup k (cache c) with
            | Some entry =>
                evict_while rounds' required_bytes now
                  {| config := config c;
                     cache := OrderedDict.remove k (cache c);
                     cache_stats := evicted (cache_stats c) entry |}
            | None => c
            end
        | None => c
        end
      else c
  end.

Definition _ensure_cache_space (c : t) (required_bytes : Z) (now : Q) : t :=
  evict_while (length (cache c)) required_bytes now c.

Definition set (codec : Codec) (c : t) (service_name operation : string)
    (data : Data) (result : Value) (ttl_seconds : option Q)
    (additional_context : option Data) (metadata : option Metadata) (now : Q)
    : bool * t :=
  let cache_key := _generate_cache_key codec service_name operation data additional_context in
  let serialized :=
    if enable_compression (config c) then pickle_len codec result
    else json_len codec result in
  match serialized with
  | None => (false, c)
  | Some size =>
      if Py.Qltb (max_size_bytes c * 0.1) (inject_Z size) then (false, c)
      else
        let entry :=
          {| CacheEntry.key := cache_key; CacheEntry.value := result;
             CacheEntry.created_at := now; CacheEntry.last_accessed := now;
             CacheEntry.access_count := 0;
             CacheEntry.ttl_seconds :=
               Some (Py.or_else ttl_seconds (default_ttl_seconds (config c)));
             CacheEntry.size_bytes := size;
             CacheEntry.metadata := metadata |} in
        let c := _ensure_cache_space c size now in
        let s := cache_stats c in
        (true,
         {| config := config c;
            cache := OrderedDict.assign cache_key entry (cache c);
            cache_stats :=
              {| hits := hits s; misses := misses s; evictions := evictions s;
                 size_bytes := size_bytes s + size;
                 entry_count := entry_count s + 1 |} |})
  end.

(** The body of the removal loops of [invalidate] and [_periodic_cleanup]:
    [entry = self.cache[key]; del self.cache[key]] and the three counters.
    The keys were collected from the dictionary under the same lock, so
    the lookup finds them. *)
Definition remove_entry (c : t) (key : string) : t :=
  match OrderedDict.lookup key (cache c) with
  | Some entry =>
      {| config := config c; cache := OrderedDict.remove key (cache c);
         cache_stats := evicted (cache_stats c) entry |}
  | None => c
  end.

(** [if text:] for an optional [str] argument. *)
Definition str_truthy (text : option string) : bool :=
  match text with
  | Some (String _ _) => true
  | _ => false
  end.

(** [pattern in key] *)
Definition contains (pattern key : string) : bool :=
  match String.index 0 pattern key with
  | Some _ => true
  | None => false
  end.

(** The test that [invalidate] makes for every key. *)
Definition should_remove (service_name operation pattern : option string)
    (key : string) : bool :=
  if str_truthy pattern then contains (default EmptyString pattern) key
  else if str_truthy service_name && str_truthy operation then
    String.prefix
      (default EmptyString service_name +:+ ":" +:+
       default EmptyString operation +:+ ":")%string key
  else if str_truthy service_name then
    String.prefix (default EmptyString service_name +:+ ":")%string key
  else false.

Definition invalidate (c : t) (service_name operation pattern : option string) : t :=
  let keys_to_remove :=
    map fst
      (List.filter (fun kv => should_remove service_name operation pattern (fst kv))
         (cache c)) in
  fold_left remove_entry keys_to_remove c.

(** One round of [_periodic_cleanup], after its sleep. *)
Definition _periodic_cleanup (c : t) (now : Q) : t :=
  let keys_to_remove :=
    map fst (List.filter (fun kv => CacheEntry.is_expired (snd kv) now) (cache c)) in
  fold_left remove_entry keys_to_remove c.

End IntelligentCache.

Module SmartCacheManager.

Record OperationPolicy := {
  policy_ttl_seconds : option Q;       (* "ttl_seconds" *)
  policy_cache_probability : option Q  (* "cache_probability" *)
}.

Record t := {
  config : CacheConfig;
  cache : IntelligentCache.t;
  service_configs : gmap string (gmap string OperationPolicy)
}.

Definition policy_of (ttl probability : Q) : OperationPolicy :=
  {| policy_ttl_seconds := Some ttl; policy_cache_probability := Some probability |}.

(** [_configure_service_caching] *)
Definition _configure_service_caching : gmap string (gmap string OperationPolicy) :=
  {[ "vertex_ai"%string :=
       {[ "portfolio_optimization"%string := policy_of 1800 0.9;
          "credit_scoring"%string := policy_of 3600 0.8 ]};
     "vision_api"%string :=
       {[ "satellite_analysis"%string := policy_of 7200 0.95 ]};
     "natural_language"%string :=
       {[ "sentiment_analysis"%string := policy_of 1800 0.7 ]} ]}.

(** [SmartCacheManager(config)] *)
Definition init (config : CacheConfig) : t :=
  {| config := config; cache := IntelligentCache.init config;
     service_configs := _configure_service_caching |}.

Definition policy (mgr : t) (service_name operation : string) : option OperationPolicy :=
  default ∅ (service_configs mgr !! service_name) !! operation.

Definition with_cache (mgr : t) (c : IntelligentCache.t) : t :=
  {| config := config mgr; cache := c; service_configs := service_configs mgr |}.

(** [random.random()] *)
Definition random_random (w : World) : Q * World :=
  (rng w (draws w),
   {| clock := clock w; invocations := invocations w; sleeps := sleeps w;
      rng := rng w; draws := S (draws w) |}).

Definition get_cached_result (codec : Codec) (mgr : t) (service_name operation : string)
    (data : Data) (context : option Data) (w : World) : option Value * t * World :=
  let cache_probability :=
    default 1%Q (policy mgr service_name operation ≫= policy_cache_probability) in
  let '(r, w) := random_random w in
  if Py.Qltb cache_probability r then (None, mgr, w)
  else
    let '(hit, c) :=
      IntelligentCache.get codec (cache mgr) service_name operation data context (clock w) in
    (hit, with_cache mgr c, w).

Definition cache_result (codec : Codec) (mgr : t) (service_name operation : string)
    (data : Data) (result : Value) (context : option Data) (w : World) : bool * t :=
  let ttl_seconds :=
    default (default_ttl_seconds (config mgr))
      (policy mgr service_name operation ≫= policy_ttl_seconds) in
  let metadata :=
    {| md_service_name := service_name; md_operation := operation;
       cached_at := clock w |} in
  let '(ok, c) :=
    IntelligentCache.set codec (cache mgr) service_name operation data result
      (Some ttl_seconds) context (Some metadata) (clock w) in
  (ok, with_cache mgr c).

End SmartCacheManager.

End caching.

(** ** batching.py *)

Module batching.

Inductive BatchStrategy := TIME_BASED | SIZE_BASED | HYBRID.

Record BatchRequest := {
  request_id : RequestId;
  service_name : string;
  operation : string;
  data : Data;
  future : nat;          (* the asyncio.Future, by its identity *)
  created_at : Q;
  priority : Z
}.

Record BatchConfig := {
  max_batch_size : Z;
  max_wait_time_seconds : Q;
  strategy : BatchStrategy;
  enable_priority_batching : bool;
  max_concurrent_batches : Z
}.

(** [BatchConfig()] *)
Definition default_config : BatchConfig :=
  {| max_batch_size := 10; max_wait_time_seconds := 2; strategy := HYBRID;
     enable_priority_batching := true; max_concurrent_batches := 5 |}.

(** A coroutine of the batcher at the point where the event loop resumes
    it. *)
Inductive Task :=
| Submit (service_name operation : string) (data : Data) (priority : Z)
    (* a caller about to enter [add_request] *)
| BatchTimer (batch_key : string)
    (* [_batch_timer], not started yet *)
| TimerFire (batch_key : string)
    (* [_batch_timer], after its sleep *)
| ProcessBatch (batch_key : string)
    (* [_process_batch], not started yet *)
| ExecuteBatch (batch_key : string) (requests : list BatchRequest)
    (results : list Value) (todo : list BatchRequest).
    (* [_process_batch] inside [_execute_batch], asleep for the head of
       [todo] *)

(** The asyncio event loop as the batcher uses it. *)
Record Loop := {
  now : Q;
  ready : list (nat * Task);          (* runnable tasks, first in first out *)
  sleeping : list (Q * (nat * Task)); (* tasks inside asyncio.sleep *)
  next_task : nat;
  futures : gmap nat Outcome;         (* the futures that are done *)
  next_future : nat
}.

Definition idle (start : Q) : Loop :=
  {| now := start; ready := []; sleeping := []; next_task := 0;
     futures := ∅; next_future := 0 |}.

(** [asyncio.create_task(coro)] *)
Definition create_task (l : Loop) (t : Task) : nat * Loop :=
  (next_task l,
   {| now := now l; ready := ready l ++ [(next_task l, t)];
      sleeping := sleeping l; next_task := S (next_task l);
      futures := futures l; next_future := next_future l |}).

(** [task.cancel()]: the task never runs its body again. *)
Definition cancel (l : Loop) (task : nat) : Loop :=
  {| now := now l;
     ready := filter (fun it => negb (Nat.eqb (fst it) task)) (ready l);
     sleeping := filter (fun it => negb (Nat.eqb (fst (snd it)) task)) (sleeping l);
     next_task := next_task l; futures := futures l;
     next_future := next_future l |}.

(** [await asyncio.sleep(delay)] inside task [task], resumed as [t]. *)
Definition suspend (l : Loop) (delay : Q) (task : nat) (t : Task) : Loop :=
  {| now := now l; ready := ready l;
     sleeping := sleeping l ++ [((now l + Py.max 0 delay)%Q, (task, t))];
     next_task := next_task l; futures := futures l;
     next_future := next_future l |}.

(** [asyncio.Future()] *)
Definition new_future (l : Loop) : nat * Loop :=
  (next_future l,
   {| now := now l; ready := ready l; sleeping := sleeping l;
      next_task := next_task l; futures := futures l;
      next_future := S (next_future l) |}).

(** [future.set_result(result)] *)
Definition set_result (l : Loop) (fut : nat) (result : Value) : Loop :=
  {| now := now l; ready := ready l; sleeping := sleeping l;
     next_task := next_task l;
     futures := <[fut := Returned result]> (futures l);
     next_future := next_future l |}.

(** [lst[:n]] and [lst[n:]] for a Python int [n]. *)
Definition slice_to {A : Type} (n : Z) (l : list A) : list A :=
  if 0 <=? n then firstn (Z.to_nat n) l
  else firstn (Z.to_nat (Z.of_nat (length l) + n)) l.

Definition slice_from {A : Type} (n : Z) (l : list A) : list A :=
  if 0 <=? n then skipn (Z.to_nat n) l
  else skipn (Z.to_nat (Z.of_nat (length l) + n)) l.

(** [lst.sort(key=lambda x: x.priority, reverse=True)]: stable, highest
    priority first. *)
Fixpoint insert_by_priority (x : BatchRequest) (sorted : list BatchRequest)
    : list BatchRequest :=
  match sorted with
  | [] => [x]
  | y :: ys =>
      if priority y <=? priority x then x :: y :: ys
      else y :: insert_by_priority x ys
  end.

Definition sort_by_priority (l : list BatchRequest) : list BatchRequest :=
  foldr insert_by_priority [] l.

(** [min(requests, key=lambda x: x.created_at)] of a non-empty list. *)
Fixpoint oldest (best : BatchRequest) (l : list BatchRequest) : BatchRequest :=
  match l with
  | [] => best
  | r :: rest =>
      if Py.Qltb (created_at r) (created_at best) then oldest r rest
      else oldest best rest
  end.

Module RequestBatcher.

Record t := {
  config : BatchConfig;
  pending_requests : gmap string (list BatchRequest);
  batch_timers : gmap string nat;
  active_batches : gmap string Z;
  dispatched : list (list BatchRequest)
    (* trace: every [requests_to_process] that was taken off a queue *)
}.

(** [RequestBatcher(config)] *)
Definition init (config : BatchConfig) : t :=
  {| config := config; pending_requests := ∅; batch_timers := ∅;
     active_batches := ∅; dispatched := [] |}.

Definition _get_batch_key (service_name operation : string) : string :=
  (service_name +:+ ":" +:+ operation)%string.

Definition _generate_request_id (service_name operation : string) (data : Data)
    (stamp : Q) : RequestId :=
  {| rid_content := (service_name +:+ ":" +:+ operation +:+ ":" +:+ data)%string;
     rid_timestamp := stamp |}.

Definition _should_process_batch (b : t) (batch_key : string) (clock : Q) : bool :=
  match pending_requests b !! batch_key with
  | None => false
  | Some requests =>
      if max_concurrent_batches (config b) <=? default 0 (active_batches b !! batch_key)
      then false
      else if max_batch_size (config b) <=? Z.of_nat (length requests) then true
      else
        match strategy (config b), requests with
        | (TIME_BASED | HYBRID), first :: others =>
            let oldest_request := oldest first others in
            let age := (clock - created_at oldest_request)%Q in
            Qle_bool (max_wait_time_seconds (config b)) age
        | _, _ => false
        end
  end.

(** [add_request] up to [return await future]; the future it waits for is
    returned. *)
Definition add_request (b : t) (l : Loop) (service_name operation : string)
    (data : Data) (priority : Z) : nat * t * Loop :=
  let batch_key := _get_batch_key service_name operation in
  let request_id := _generate_request_id service_name operation data (now l) in
  let '(future, l) := new_future l in
  let batch_request :=
    {| request_id := request_id; batching.service_name := service_name;
       batching.operation := operation; batching.data := data;
       batching.future := future; created_at := now l;
       batching.priority := priority |} in
  let active :=
    match pending_requests b !! batch_key with
    | Some _ => active_batches b
    | None => <[batch_key := 0]> (active_batches b)
    end in
  let queue := default [] (pending_requests b !! batch_key) ++ [batch_request] in
  let queue :=
    if enable_priority_batching (config b) then sort_by_priority queue else queue in
  let b :=
    {| config := config b;
       pending_requests := <[batch_key := queue]> (pending_requests b);
       batch_timers := batch_timers b; active_batches := active;
       dispatched := dispatched b |} in
  if _should_process_batch b batch_key (now l) then
    let '(timers, l) :=
      match batch_timers b !! batch_key with
      | Some timer => (delete batch_key (batch_timers b), cancel l timer)
      | None => (batch_timers b, l)
      end in
    let '(_, l) := create_task l (ProcessBatch batch_key) in
    (future,
     {| config := config b; pending_requests := pending_requests b;
        batch_timers := timers; active_batches := active_batches b;
        dispatched := dispatched b |}, l)
  else
    match batch_timers b !! batch_key with
    | Some _ => (future, b, l)
    | None =>
        let '(timer, l) := create_task l (BatchTimer batch_key) in
        (future,
         {| config := config b; pending_requests := pending_requests b;
            batch_timers := <[batch_key := timer]> (batch_timers b);
            active_batches := active_batches b; dispatched := dispatched b |}, l)
    end.

(** [_batch_timer] after [await asyncio.sleep(max_wait_time_seconds)]. *)
Definition timer_fired (b : t) (l : Loop) (batch_key : string) : t * Loop :=
  let l :=
    match pending_requests b !! batch_key with
    | Some (_ :: _) => snd (create_task l (ProcessBatch batch_key))
    | _ => l
    end in
  ({| config := config b; pending_requests := pending_requests b;
      batch_timers := delete batch_key (batch_timers b);
      active_batches := active_batches b; dispatched := dispatched b |}, l).

(** The [finally] block of [_process_batch]. *)
Definition process_batch_finally (b : t) (l : Loop) (batch_key : string) : t * Loop :=
  let b :=
    {| config := config b; pending_requests := pending_requests b;
       batch_timers := batch_timers b;
       active_batches :=
         <[batch_key := default 0 (active_batches b !! batch_key) - 1]>
           (active_batches b);
       dispatched := dispatched b |} in
  match pending_requests b !! batch_key with
  | Some (_ :: _) =>
      if _should_process_batch b batch_key (now l)
      then (b, snd (create_task l (ProcessBatch batch_key)))
      else (b, l)
  | _ => (b, l)
  end.

(** One request of the loop in [_execute_batch], after its
    [asyncio.sleep(0.1)]. *)
Definition batch_result (requests : list BatchRequest) (request : BatchRequest)
    (clock : Q) : Value :=
  VBatch (request_id request) clock (Z.of_nat (length requests)) (data request).

(** [for request, result in zip(requests_to_process, results)] *)
Fixpoint distribute (l : Loop) (requests : list BatchRequest) (results : list Value)
    : Loop :=
  match requests, results with
  | request :: requests', result :: results' =>
      distribute (set_result l (future request) result) requests' results'
  | _, _ => l
  end.

(** [_process_batch] from its start to the first sleep of
    [_execute_batch]. *)
Definition process_batch_begin (b : t) (l : Loop) (task : nat) (batch_key : string)
    : t * Loop :=
  match pending_requests b !! batch_key with
  | None | Some [] => (b, l)
  | Some queue =>
      let requests_to_process := slice_to (max_batch_size (config b)) queue in
      let b :=
        {| config := config b;
           pending_requests :=
             <[batch_key := slice_from (max_batch_size (config b)) queue]>
               (pending_requests b);
           batch_timers := batch_timers b;
           active_batches :=
             <[batch_key := default 0 (active_batches b !! batch_key) + 1]>
               (active_batches b);
           dispatched := dispatched b ++ [requests_to_process] |} in
      match requests_to_process with
      | [] =>
          (* requests_to_process[0] raises IndexError: no future is set *)
          process_batch_finally b l batch_key
      | _ :: _ =>
          (b, suspend l 0.1 task
                (ExecuteBatch batch_key requests_to_process [] requests_to_process))
      end
  end.

(** [_process_batch] resumed inside [_execute_batch]. *)
Definition execute_batch_resume (b : t) (l : Loop) (task : nat) (batch_key : string)
    (requests : list BatchRequest) (results : list Value) (todo : list BatchRequest)
    : t * Loop :=
  match todo with
  | [] => process_batch_finally b (distribute l requests results) batch_key
  | request :: todo' =>
      let results := results ++ [batch_result requests request (now l)] in
      match todo' with
      | [] => process_batch_finally b (distribute l requests results) batch_key
      | _ :: _ => (b, suspend l 0.1 task (ExecuteBatch batch_key requests results todo'))
      end
  end.

End RequestBatcher.

(** One resumption of a task by the event loop. *)
Definition run_task (b : RequestBatcher.t) (l : Loop) (task : nat) (t : Task)
    : RequestBatcher.t * Loop :=
  match t with
  | Submit service_name operation data priority =>
      let '(_, b, l) := RequestBatcher.add_request b l service_name operation data priority in
      (b, l)
  | BatchTimer batch_key =>
      (b, suspend l (max_wait_time_seconds (RequestBatcher.config b)) task
            (TimerFire batch_key))
  | TimerFire batch_key => RequestBatcher.timer_fired b l batch_key
  | ProcessBatch batch_key => RequestBatcher.process_batch_begin b l task batch_key
  | ExecuteBatch batch_key requests results todo =>
      RequestBatcher.execute_batch_resume b l task batch_key requests results todo
  end.

(** The sleeper that wakes first (the earliest listed among equals) and the
    others. *)
Fixpoint earliest (best : Q * (nat * Task)) (before after : list (Q * (nat * Task)))
    (scan : list (Q * (nat * Task)))
    : (Q * (nat * Task)) * list (Q * (nat * Task)) :=
  match scan with
  | [] => (best, before ++ after)
  | s :: scan' =>
      if Py.Qltb (fst s) (fst best)
      then earliest s (before ++ best :: after) [] scan'
      else earliest best before (after ++ [s]) scan'
  end.

(** One turn of the loop: run the first ready task, or move on to the next
    wake-up; [None] when nothing is left to do. *)
Definition turn (b : RequestBatcher.t) (l : Loop) : option (RequestBatcher.t * Loop) :=
  match ready l with
  | (task, t) :: rest =>
      Some (run_task b
              {| now := now l; ready := rest; sleeping := sleeping l;
                 next_task := next_task l; futures := futures l;
                 next_future := next_future l |} task t)
  | [] =>
      match sleeping l with
      | [] => None
      | s :: others =>
          let '((wake, woken), still) := earliest s [] [] others in
          Some (b, {| now := Py.max (now l) wake; ready := [woken];
                      sleeping := still; next_task := next_task l;
                      futures := futures l; next_future := next_future l |})
      end
  end.

(** Run the loop for at most [turns] turns; the flag tells whether it came
    to rest. *)
Fixpoint run (turns : nat) (b : RequestBatcher.t) (l : Loop)
    : bool * RequestBatcher.t * Loop :=
  match turns with
  | O => (match ready l, sleeping l with [], [] => true | _, _ => false end, b, l)
  | S turns' =>
      match turn b l with
      | Some (b', l') => run turns' b' l'
      | None => (true, b, l)
      end
  end.

End batching.

(** ** adk_service_manager.py *)

Module adk_service_manager.

Import error_handlers monitoring caching batching.

Module ADKServiceManager.

(** [service_loggers] holds a [ContextualLogger] for each of its services;
    only which services have one matters here. *)
Record t := {
  error_handler : ADKErrorHandler.t;
  monitor : ADKMonitor.t;
  service_loggers : gset string;
  batcher : RequestBatcher.t;
  cache_manager : SmartCacheManager.t
}.

(** [self.service_loggers.get(service_name, logger).push_context(...)]:
    the fallback is the module's [logging.Logger], which has no
    [push_context]. *)
Definition push_context (m : t) (service_name : string) : option Exception :=
  if bool_decide (service_name ∈ service_loggers m) then None
  else Some AttributeError.

Definition _execute_with_protection (m : t) (service_name operation : string)
    (func : Operation) (w : World) : Outcome * t * World :=
  match push_context m service_name with
  | Some raised => (Raised raised, m, w)
  | None =>
      let '(out, handler, w) :=
        ADKErrorHandler.execute_with_protection (error_handler m)
          service_name operation func w in
      let monitor :=
        match out with
        | Raised (CircuitBreakerOpenError _ _) =>
            ADKMonitor.record_circuit_breaker_trip (monitor m) service_name operation
              (clock w)
        | Raised (RetryExhaustedError _ _ _ _) => monitor m
        | Raised _ => monitor m
        | Returned _ => monitor m
        end in
      (out,
       {| error_handler := handler; monitor := monitor;
          service_loggers := service_loggers m; batcher := batcher m;
          cache_manager := cache_manager m |}, w)
  end.

(** The three calls of [set_alert_threshold] for one service, up to the
    first that raises. *)
Fixpoint set_alert_thresholds (mon : ADKMonitor.t) (service_name : string)
    (limits : list (ADKMonitor.MetricArg * Q)) : option Exception * ADKMonitor.t :=
  match limits with
  | [] => (None, mon)
  | (metric_type, limit) :: rest =>
      match ADKMonitor.set_alert_threshold_of mon service_name metric_type limit with
      | (Some raised, mon) => (Some raised, mon)
      | (None, mon) => set_alert_thresholds mon service_name rest
      end
  end.

(** The loop of [_configure_error_handling] over the services that are
    left, up to the first step that raises. *)
Fixpoint configure_services
    (services : list (string * (RetryConfig * CircuitBreakerConfig))) (m : t)
    : option Exception * t :=
  match services with
  | [] => (None, m)
  | (service_name, (retry, circuit_breaker)) :: rest =>
      let handler :=
        ADKErrorHandler.configure_service (error_handler m) service_name
          (Some retry) (Some circuit_breaker) in
      let loggers := {[service_name]} ∪ service_loggers m in
      let '(raised, mon) :=
        set_alert_thresholds (monitor m) service_name
          [(ADKMonitor.Str "error_rate", 15%Q);
           (ADKMonitor.Str "response_time", 10%Q);
           (ADKMonitor.Str "success_rate", 85%Q)] in
      let m :=
        {| error_handler := handler; monitor := mon; service_loggers := loggers;
           batcher := batcher m; cache_manager := cache_manager m |} in
      match raised with
      | Some raised => (Some raised, m)
      | None => configure_services rest m
      end
  end.

Definition _configure_error_handling (m : t) : option Exception * t :=
  configure_services SERVICE_CONFIGS m.

Definition _get_default_batch_config : BatchConfig :=
  {| max_batch_size := 5; max_wait_time_seconds := 1;
     batching.strategy := batching.HYBRID;
     enable_priority_batching := true; max_concurrent_batches := 3 |}.

Definition _get_default_cache_config : CacheConfig :=
  {| max_size_mb := 50; default_ttl_seconds := 1800;
     caching.strategy := caching.HYBRID;
     cleanup_interval_seconds := 300; enable_compression := true;
     enable_persistence := false |}.

(** The fields as [__init__] has set them when it calls
    [_configure_error_handling]. *)
Definition fields (batch_config : option BatchConfig)
    (cache_config : option CacheConfig) : t :=
  {| error_handler := ADKErrorHandler.init;
     monitor := ADKMonitor.init;
     service_loggers := ∅;
     batcher := RequestBatcher.init (default _get_default_batch_config batch_config);
     cache_manager :=
       SmartCacheManager.init (default _get_default_cache_config cache_config) |}.

(** [ADKServiceManager(config, batch_config, cache_config)], called where
    an event loop is running and before any other component exists: the
    instance, or what [_configure_error_handling] raised. *)
Definition init (batch_config : option BatchConfig) (cache_config : option CacheConfig)
    : Exception + t :=
  match _configure_error_handling (fields batch_config cache_config) with
  | (Some raised, _) => inl raised
  | (None, m) => inr m
  end.

Definition at_time (l : Loop) (t : Q) : Loop :=
  {| now := t; ready := ready l; sleeping := sleeping l;
     next_task := next_task l; futures := futures l;
     next_future := next_future l |}.

Definition set_clock (w : World) (t : Q) : World :=
  {| clock := t; invocations := invocations w; sleeps := sleeps w;
     rng := rng w; draws := draws w |}.

(** The dispatch step of [_execute_with_batching_and_caching]. In the
    batched branch the caller waits on its future while the event loop runs
    (for at most [turns] turns); [None] means the future was not done by
    then. *)
Definition dispatch (m : t) (l : Loop) (service_name operation : string)
    (data : Data) (func : Operation) (enable_batching : bool) (priority : Z)
    (turns : nat) (w : World) : option (Outcome * t * Loop * World) :=
  if enable_batching then
    let '(future, b, l) :=
      RequestBatcher.add_request (batcher m) (at_time l (clock w))
        service_name operation data priority in
    let '(_, b, l) := batching.run turns b l in
    match futures l !! future with
    | Some out =>
        Some (out,
              {| error_handler := error_handler m; monitor := monitor m;
                 service_loggers := service_loggers m; batcher := b;
                 cache_manager := cache_manager m |},
              l, set_clock w (now l))
    | None => None
    end
  else
    let '(out, m, w) := _execute_with_protection m service_name operation func w in
    Some (out, m, l, w).

Definition with_cache_manager (m : t) (mgr : SmartCacheManager.t) : t :=
  {| error_handler := error_handler m; monitor := monitor m;
     service_loggers := service_loggers m; batcher := batcher m;
     cache_manager := mgr |}.

Definition _execute_with_batching_and_caching (codec : Codec) (m : t) (l : Loop)
    (service_name operation : string) (data : Data) (func : Operation)
    (enable_batching enable_caching : bool) (priority : Z)
    (cache_context : option Data) (turns : nat) (w : World)
    : option (Outcome * t * Loop * World) :=
  match push_context m service_name with
  | Some raised => Some (Raised raised, m, l, w)
  | None =>
      let '(cached_result, m, w) :=
        if enable_caching then
          let '(hit, mgr, w) :=
            SmartCacheManager.get_cached_result codec (cache_manager m)
              service_name operation data cache_context w in
          (hit, with_cache_manager m mgr, w)
        else (None, m, w) in
      match cached_result with
      | Some (VData _ as hit) | Some (VBatch _ _ _ _ as hit) =>
          Some (Returned hit, m, l, w)
      | Some VNone | None =>
          match dispatch m l service_name operation data func enable_batching
                  priority turns w with
          | None => None
          | Some (Raised e, m, l, w) => Some (Raised e, m, l, w)
          | Some (Returned result, m, l, w) =>
              match result with
              | VNone => Some (Returned result, m, l, w)
              | _ =>
                  if enable_caching then
                    let '(_, mgr) :=
                      SmartCacheManager.cache_result codec (cache_manager m)
                        service_name operation data result cache_context w in
                    Some (Returned result, with_cache_manager m mgr, l, w)
                  else Some (Returned result, m, l, w)
              end
          end
      end
  end.

End ADKServiceManager.

(** The rate limiter of [ADKServiceManager] ([_check_rate_limit] and
    [_record_request]) on the fields it works on. *)
Module RateLimiter.

(** [RateLimitStatus]; its [reset_time] is never assigned. *)
Record RateLimitStatus := {
  requests_made : Z;
  requests_remaining : Z;
  is_limited : bool
}.

Record t := {
  requests_per_minute : Z;          (* self.config.rate_limits.requests_per_minute *)
  _request_counts : gmap string (list Q);
  rate_limit_status : gmap string RateLimitStatus;
  request_count : gmap string Z     (* service_status[service].request_count *)
}.

(** The fields as [ADKServiceManager.__init__] leaves them. *)
Definition init (requests_per_minute : Z) : t :=
  {| requests_per_minute := requests_per_minute; _request_counts := ∅;
     rate_limit_status := ∅; request_count := ∅ |}.

(** [None] stands for the [KeyError] of [self.rate_limit_status[service]];
    the request times have been pruned by then. *)
Definition _check_rate_limit (m : t) (service : string) (now : Q) : option bool * t :=
  let m :=
    match _request_counts m !! service with
    | Some _ => m
    | None =>
        {| requests_per_minute := requests_per_minute m;
           _request_counts := <[service := []]> (_request_counts m);
           rate_limit_status :=
             <[service := {| requests_made := 0; requests_remaining := 0;
                             is_limited := false |}]> (rate_limit_status m);
           request_count := request_count m |}
    end in
  let minute_ago := (now - 60)%Q in
  let kept :=
    List.filter (fun req_time => Py.Qltb minute_ago req_time)
      (default [] (_request_counts m !! service)) in
  let counts := <[service := kept]> (_request_counts m) in
  let current_count := Z.of_nat (length kept) in
  let limit := requests_per_minute m in
  match rate_limit_status m !! service with
  | None =>
      (None,
       {| requests_per_minute := requests_per_minute m; _request_counts := counts;
          rate_limit_status := rate_limit_status m;
          request_count := request_count m |})
  | Some _ =>
      (Some (negb (limit <=? current_count)),
       {| requests_per_minute := requests_per_minute m; _request_counts := counts;
          rate_limit_status :=
            <[service := {| requests_made := current_count;
                            requests_remaining := Z.max 0 (limit - current_count);
                            is_limited := limit <=? current_count |}]>
              (rate_limit_status m);
          request_count := request_count m |})
  end.

Definition _record_request (m : t) (service : string) (now : Q) : t :=
  {| requests_per_minute := requests_per_minute m;
     _request_counts :=
       <[service := default [] (_request_counts m !! service) ++ [now]]>
         (_request_counts m);
     rate_limit_status := rate_limit_status m;
     request_count :=
       match request_count m !! service with
       | Some n => <[service := n + 1]> (request_count m)
       | None => request_count m
       end |}.

End RateLimiter.

End adk_service_manager.

(** * The specification's wording, and the scenarios of the proofs *)

Module spec.

Import error_handlers.

(** The delay formula of the specification, attempts counted from one. *)
Definition strategy_formula (config : RetryConfig) (attempt : Z) : Q :=
  match strategy config with
  | EXPONENTIAL_BACKOFF => (base_delay config * backoff_factor config ^ (attempt - 1))%Q
  | LINEAR_BACKOFF => (base_delay config * inject_Z attempt)%Q
  | FIXED_DELAY => base_delay config
  | NO_RETRY => base_delay config
  end.

(** Clamping [x] to the interval from [lo] to [hi]. *)
Definition clamp (lo hi x : Q) : Q := Qmax lo (Qmin x hi).

End spec.

Module scenario.

Import error_handlers.

(** [strategy=exponential, base_delay=1, backoff_factor=2, max_delay=10],
    no jitter. *)
Definition exponential_no_jitter : RetryConfig :=
  {| max_attempts := 6; base_delay := 1; max_delay := 10; backoff_factor := 2;
     jitter := false; strategy := EXPONENTIAL_BACKOFF;
     retryable_errors := default_retryable |}.

(** A 429 answer with the given [Retry-After] header. *)
Definition rate_limited (retry_after : option HeaderValue) : Exception :=
  Fault TooManyRequests "Rate limit exceeded"
    (Some {| resp_truthy := true; resp_retry_after := retry_after |}).

(** A 503 answer with the given [Retry-After] header. *)
Definition unavailable_until (retry_after : option HeaderValue) : Exception :=
  Fault ServiceUnavailable "Service unavailable"
    (Some {| resp_truthy := true; resp_retry_after := retry_after |}).

(** The faults that the service manager's placeholders raise. *)
Definition unauthenticated : Exception :=
  Fault Unauthenticated "Authentication failed" None.

Definition unavailable : Exception :=
  Fault ServiceUnavailable "Fraud detection service temporarily unavailable" None.

(** An operation with the same outcome on every run, taking no time. *)
Definition always (out : Outcome) : Operation := fun _ => (out, 0%Q).

(** An operation that replays a script of outcomes and then succeeds. *)
Definition script (outs : list Outcome) : Operation :=
  fun i => (nth i outs (Returned (VData "ok")), 0%Q).

(** Every run of the operation raises. *)
Definition always_fails (func : Operation) : Prop :=
  forall i : nat, exists (e : Exception) (took : Q), func i = (Raised e, took).

(** A caller that goes through the breaker once after each of the given
    waiting times. *)
Fixpoint calls (cb : CircuitBreaker.t) (func : Operation) (gaps : list Q) (w : World)
    : list Outcome * CircuitBreaker.t * World :=
  match gaps with
  | [] => ([], cb, w)
  | gap :: rest =>
      let '(out, cb', w') := CircuitBreaker.call cb func (elapse gap w) in
      let '(outs, cb'', w'') := calls cb' func rest w' in
      (out :: outs, cb'', w'')
  end.

(** The world after waiting all the given times and nothing else. *)
Definition waited (gaps : list Q) (w : World) : World :=
  fold_left (fun w gap => elapse gap w) gaps w.

(** All instants reached from [start] by the waiting times lie before
    [due]. *)
Fixpoint before (due start : Q) (gaps : list Q) : Prop :=
  match gaps with
  | [] => True
  | gap :: rest => (start + gap < due)%Q /\ before due (start + gap) rest
  end.

(** A breaker as [configure_service] creates it, with the default
    configuration. *)
Definition breaker0 : CircuitBreaker.t :=
  {| CircuitBreaker.service_name := "vertex_ai";
     CircuitBreaker.config := DEFAULT_CIRCUIT_BREAKER_CONFIG;
     CircuitBreaker.status := fresh_status |}.

(** Five failures, two successes, a failure, then successes. *)
Definition probe_script : Operation :=
  script [Raised unavailable; Raised unavailable; Raised unavailable;
          Raised unavailable; Raised unavailable;
          Returned (VData "ok"); Returned (VData "ok"); Raised unavailable].

Definition world0 : World :=
  {| clock := 0; invocations := 0; sleeps := []; rng := fun _ => 1 # 2;
     draws := 0 |}.

(** Serialised sizes for the cache: a payload is as long as its text, the
    two payloads [big] and [small] have 100 and 20 bytes. *)
Definition codec : caching.Codec :=
  {| caching.pickle_len := fun v =>
       match v with
       | VData "big" => Some 100
       | VData "small" => Some 20
       | VData text => Some (Z.of_nat (String.length text))
       | VBatch _ _ _ text => Some (64 + Z.of_nat (String.length text))
       | VNone => Some 4
       end;
     caching.json_len := fun v =>
       match v with
       | VData text => Some (Z.of_nat (String.length text))
       | VBatch _ _ _ text => Some (64 + Z.of_nat (String.length text))
       | VNone => Some 4
       end;
     caching.sha256_16 := fun text => text |}.

(** A read of the cache: the request asked for and the time of asking. *)
Record Read := {
  read_service : string;
  read_operation : string;
  read_data : Data;
  read_context : option Data;
  read_at : Q
}.

(** The cache after the given reads, one after the other. *)
Definition reads (codec : caching.Codec) (rs : list Read)
    (c : caching.IntelligentCache.t) : caching.IntelligentCache.t :=
  fold_left
    (fun c r =>
       snd (caching.IntelligentCache.get codec c (read_service r) (read_operation r)
              (read_data r) (read_context r) (read_at r)))
    rs c.

(** Every entry filed under [k] was created at [born] with TTL [ttl]. *)
Definition born_at (k : string) (born ttl : Q) (d : caching.OrderedDict.t) : Prop :=
  forall e : caching.CacheEntry.t,
    In (k, e) d ->
    caching.CacheEntry.created_at e = born
    /\ caching.CacheEntry.ttl_seconds e = Some ttl.

(** A cache of 1000 bytes: [max_size_mb = 1000 / (1024 * 1024)]. *)
Definition small_cache_config : caching.CacheConfig :=
  {| caching.max_size_mb := 1000 # 1048576; caching.default_ttl_seconds := 3600;
     caching.strategy := caching.HYBRID; caching.cleanup_interval_seconds := 300;
     caching.enable_compression := true; caching.enable_persistence := false |}.

(** Caching the given results one after the other, all for the same
    request and so under the same key, all at time 0. *)
Definition store_all (results : list Value) (c : caching.IntelligentCache.t)
    : list bool * caching.IntelligentCache.t :=
  fold_left
    (fun acc result =>
       let '(ok, c') :=
         caching.IntelligentCache.set codec (snd acc) "vertex_ai" "credit_scoring"
           "{}" result None None None 0 in
       (fst acc ++ [ok], c'))
    results ([], c).

(** [big; small] eight times over, then [big] once more. *)
Definition overwrites : list Value :=
  concat (repeat [VData "big"; VData "small"] 8) ++ [VData "big"].

(** [asyncio.gather] of the given coroutines on an idle loop: they are
    scheduled in order and nothing else is. *)
Definition gather (start : Q) (tasks : list batching.Task) : batching.Loop :=
  {| batching.now := start; batching.ready := combine (seq 0 (length tasks)) tasks; batching.sleeping := [];
     batching.next_task := length tasks; batching.futures := ∅; batching.next_future := 0 |}.

(** The queue entry that [add_request] builds. *)
Definition request_of (service_name operation : string) (priority : Z) (start : Q)
    (fut : nat) (d : Data) : batching.BatchRequest :=
  {| batching.request_id := batching.RequestBatcher._generate_request_id service_name operation d start;
     batching.service_name := service_name; batching.operation := operation; batching.data := d;
     batching.future := fut; batching.created_at := start; batching.priority := priority |}.

(** A batcher that has only ever seen the queue [batch_key]. *)
Definition batcher_at (config : batching.BatchConfig) (batch_key : string)
    (queue : list batching.BatchRequest) (timer : option nat) (active : Z)
    (log : list (list batching.BatchRequest)) : batching.RequestBatcher.t :=
  {| batching.RequestBatcher.config := config;
     batching.RequestBatcher.pending_requests := {[ batch_key := queue ]};
     batching.RequestBatcher.batch_timers :=
       match timer with Some t => {[ batch_key := t ]} | None => ∅ end;
     batching.RequestBatcher.active_batches := {[ batch_key := active ]};
     batching.RequestBatcher.dispatched := log |}.

(** [BatchConfig(max_batch_size=3)] *)
Definition batches_of_three : batching.BatchConfig :=
  {| batching.max_batch_size := 3; batching.max_wait_time_seconds := 2;
     batching.strategy := batching.HYBRID;
     batching.enable_priority_batching := true;
     batching.max_concurrent_batches := 5 |}.

(** The error handler after [configure_service] for every service of
    [SERVICE_CONFIGS], each with its "retry" and its "circuit_breaker". *)
Definition handler0 : ADKErrorHandler.t :=
  fold_left
    (fun h entry =>
       ADKErrorHandler.configure_service h (fst entry)
         (Some (fst (snd entry))) (Some (snd (snd entry))))
    SERVICE_CONFIGS ADKErrorHandler.init.

(** That handler after one call of [optimize_portfolio]'s operation whose
    three attempts all found the service unavailable. *)
Definition handler_tripped : ADKErrorHandler.t * World :=
  let '(_, h, w) :=
    ADKErrorHandler.execute_with_protection handler0
      "vertex_ai" "optimize_portfolio" (always (Raised unavailable)) world0 in
  (h, w).

(** The instance that [ADKServiceManager()] has built when its
    [_configure_error_handling] raises: every field is set, and the first
    service of [SERVICE_CONFIGS] has its retry configuration, its breaker
    and its logger. *)
Definition manager_at_failure : adk_service_manager.ADKServiceManager.t :=
  snd (adk_service_manager.ADKServiceManager._configure_error_handling
         (adk_service_manager.ADKServiceManager.fields None None)).

(** A cache holding a credit score stored for a minute and a satellite
    analysis stored for two hours, both stored at time 0. *)
Definition stored_twice (config : caching.CacheConfig) : caching.IntelligentCache.t :=
  let c := caching.IntelligentCache.init config in
  let c :=
    snd (caching.IntelligentCache.set codec c "vertex_ai" "credit_scoring" "{}"
           (VData "small") (Some 60%Q) None None 0) in
  snd (caching.IntelligentCache.set codec c "vision_api" "satellite_analysis" "{}"
         (VData "big") (Some 7200%Q) None None 0).

Definition two_entries : caching.IntelligentCache.t :=
  stored_twice caching.default_config.

(** [CacheConfig(strategy=CacheStrategy.LRU)] *)
Definition lru_config : caching.CacheConfig :=
  {| caching.max_size_mb := 100; caching.default_ttl_seconds := 3600;
     caching.strategy := caching.LRU; caching.cleanup_interval_seconds := 300;
     caching.enable_compression := true; caching.enable_persistence := false |}.

End scenario.

(** * Conditions and invariants that the properties speak of *)

Module invariants.


(** What the retry loop hands to its caller: a result, a
    [RetryExhaustedError], or a built-in error raised while the loop
    handled a fault; never the error of the breaker. *)
Definition loop_outcome (out : Outcome) : Prop :=
  match out with
  | Returned _ => True
  | Raised (RetryExhaustedError _ _ _ _) => True
  | Raised (Fault PlainException _ _) => True
  | Raised _ => False
  end.


(** Every request counted is counted once as a success or as a failure. *)
Definition balanced (m : monitoring.ADKMonitor.t) : Prop :=
  forall service_name operation : string,
    monitoring.total_requests (monitoring.ADKMonitor.stats_of m service_name operation)
    = monitoring.successful_requests
        (monitoring.ADKMonitor.stats_of m service_name operation)
      + monitoring.failed_requests
          (monitoring.ADKMonitor.stats_of m service_name operation).

(** [a <= b] for a possibly infinite [a]. *)
Definition float_le (a : monitoring.Float) (b : Q) : Prop :=
  match a with
  | monitoring.Finite q => (q <= b)%Q
  | monitoring.Infinity => False
  end.

(** The bytes that the entries of a dictionary take. *)
Definition total_size (d : caching.OrderedDict.t) : Z :=
  fold_right (fun kv acc => caching.CacheEntry.size_bytes (snd kv) + acc) 0 d.

(** The counters of the cache agree with the entries held. *)
Definition accounted (c : caching.IntelligentCache.t) : Prop :=
  caching.IntelligentCache.size_bytes (caching.IntelligentCache.cache_stats c)
  = total_size (caching.IntelligentCache.cache c)
  /\ caching.IntelligentCache.entry_count (caching.IntelligentCache.cache_stats c)
     = Z.of_nat (length (caching.IntelligentCache.cache c)).

(** A queue in which no request stands behind one of lower priority. *)
Fixpoint by_priority (queue : list batching.BatchRequest) : Prop :=
  match queue with
  | [] => True
  | r :: rest =>
      Forall (fun later => batching.priority later <= batching.priority r) rest
      /\ by_priority rest
  end.

(** The time for which [cache_result] stores a result of the operation:
    the TTL of the operation's policy, else the manager's default, and the
    cache's default when that is zero. *)
Definition cached_for (mgr : caching.SmartCacheManager.t)
    (service_name operation : string) : Q :=
  Py.or_else
    (Some (default (caching.default_ttl_seconds (caching.SmartCacheManager.config mgr))
             (caching.SmartCacheManager.policy mgr service_name operation
                ≫= caching.SmartCacheManager.policy_ttl_seconds)))
    (caching.default_ttl_seconds
       (caching.IntelligentCache.config (caching.SmartCacheManager.cache mgr))).

End invariants.


(** * Properties *)

(** ** Python primitives *)

Section PyFacts.

Lemma Qltb_lt (x y : Q) : (x < y)%Q -> Py.Qltb x y = true.
Proof.
  intros H. unfold Py.Qltb. apply negb_true_iff.
  destruct (Qle_bool y x) eqn:E; [|reflexivity].
  apply Qle_bool_iff in E. lra.
Qed.

Lemma Qltb_ge (x y : Q) : (y <= x)%Q -> Py.Qltb x y = false.
Proof.
  intros H. unfold Py.Qltb. apply negb_false_iff. now apply Qle_bool_iff.
Qed.

Lemma Qltb_spec (x y : Q) : reflect (x < y)%Q (Py.Qltb x y).
Proof.
  destruct (Qlt_le_dec x y) as [H|H].
  - rewrite (Qltb_lt _ _ H). now constructor.
  - rewrite (Qltb_ge _ _ H). constructor. lra.
Qed.

Lemma py_min_Qmin (x y : Q) : (Py.min x y == Qmin x y)%Q.
Proof.
  unfold Py.min. destruct (Qltb_spec y x) as [H|H].
  - symmetry. apply Q.min_r. lra.
  - symmetry. apply Q.min_l. lra.
Qed.

Lemma py_max_Qmax (x y : Q) : (Py.max x y == Qmax x y)%Q.
Proof.
  unfold Py.max. destruct (Qltb_spec x y) as [H|H].
  - symmetry. apply Q.max_r. lra.
  - symmetry. apply Q.max_l. lra.
Qed.

Lemma py_clamp (hi x : Q) :
  (Py.max 0 (Py.min x hi) == spec.clamp 0 hi x)%Q.
Proof.
  unfold spec.clamp. rewrite py_max_Qmax. now rewrite py_min_Qmin.
Qed.

Lemma truthy_nonzero (x : Q) : ~ (x == 0)%Q -> Py.truthy x = true.
Proof.
  intros H. unfold Py.truthy. apply negb_true_iff.
  destruct (Qeq_bool x 0) eqn:E; [|reflexivity].
  now apply Qeq_bool_iff in E.
Qed.

End PyFacts.

(** ** The retry delay *)

Section RetryDelay.

Import error_handlers error_handlers.ADKErrorClassifier error_handlers.RetryHandler.

(** Where the delay of the strategy can be computed, it is the formula of
    the specification, attempts counted from one. *)
Lemma strategy_delay_formula (config : RetryConfig) (attempt : Z) (delay : Q) :
  strategy_delay config (attempt - 1) = inr delay ->
  delay = spec.strategy_formula config attempt.
Proof.
  unfold strategy_delay, spec.strategy_formula, PyFloat.pow, PyFloat.of_int.
  replace (attempt - 1 + 1) with attempt by lia.
  destruct (strategy config);
    repeat (match goal with
            | |- context [if ?c then _ else _] => destruct c
            end; cbv beta iota);
    intros H; inversion H; reflexivity.
Qed.

(** What the computation of the strategy's delay raises. *)
Lemma strategy_delay_raises (config : RetryConfig) (attempt : Z) (raised : Exception) :
  strategy_delay config attempt = inl raised ->
  raised = OverflowError \/ raised = ZeroDivisionError.
Proof.
  unfold strategy_delay, PyFloat.pow, PyFloat.of_int.
  destruct (strategy config);
    repeat (match goal with
            | |- context [if ?c then _ else _] => destruct c
            end; cbv beta iota);
    intros H; inversion H; auto.
Qed.

Lemma _calculate_delay_raises (config : RetryConfig) (attempt : Z) (error : Exception)
    (w : World) (raised : Exception) :
  fst (_calculate_delay config attempt error w) = inl raised ->
  raised = OverflowError \/ raised = ZeroDivisionError.
Proof.
  unfold _calculate_delay. destruct (Py.if_truthy _); [discriminate|].
  destruct (strategy_delay config attempt) as [e|delay] eqn:Hd.
  - simpl. intros H. inversion H; subst. exact (strategy_delay_raises _ _ _ Hd).
  - destruct (jitter config); simpl; discriminate.
Qed.

(** Without jitter, and for a fault that suggests no delay, the delay is
    the strategy's formula clamped to between zero and [max_delay]
    wherever the formula can be computed, and the random generator is not
    consulted. *)
Lemma _calculate_delay_without_jitter (config : RetryConfig) (attempt : Z)
    (error : Exception) (w : World) (delay : Q) :
  jitter config = false ->
  Py.if_truthy (get_retry_delay error) = None ->
  strategy_delay config (attempt - 1) = inr delay ->
  exists clamped : Q,
    _calculate_delay config (attempt - 1) error w = (inr clamped, w)
    /\ (clamped
        == spec.clamp 0 (max_delay config) (spec.strategy_formula config attempt))%Q.
Proof.
  intros Hj Hnone Hd. unfold _calculate_delay. rewrite Hnone, Hd, Hj.
  eexists. split; [reflexivity|].
  rewrite <- (strategy_delay_formula _ _ _ Hd). apply py_clamp.
Qed.

(** C8: a retry-after value of zero is not honoured. A 429 answer whose
    response carries [Retry-After: 0] has the retry delay 0.0, which
    [if suggested_delay:] takes for no suggestion: under every
    configuration the delay is computed as for the 429 answer without the
    header, and with base 1, factor 2 and limit 10 (exponential, no jitter)
    the first retry waits 1 second, not [min(0, max_delay) = 0]. A value
    other than zero (here 7) is used in preference to the computed delay,
    but only on a 429: the same header on a 503 answer is not read, and the
    third attempt is followed by the computed 4 seconds. The computed
    delays are 1, 2, 4, 8 and then the limit 10, as long as the power can
    be computed: it is taken before the clamp, and after attempt 1025 it
    raises [OverflowError]. *)
Theorem C8_retry_after_of_zero_is_not_honoured (config : RetryConfig) (attempt : Z)
    (w : World) :
  let zero := scenario.rate_limited (Some (HvNumber 0)) in
  let delay_after attempt error :=
    fst (_calculate_delay scenario.exponential_no_jitter (attempt - 1) error w) in
  get_retry_delay zero = Some 0%Q
  /\ _calculate_delay config attempt zero w
     = _calculate_delay config attempt (scenario.rate_limited None) w
  /\ delay_after 1 zero = inr 1%Q
  /\ ~ (1 == Qmin 0 (max_delay scenario.exponential_no_jitter))%Q
  /\ delay_after 3 (scenario.rate_limited (Some (HvNumber 7))) = inr 7%Q
  /\ get_retry_delay (scenario.unavailable_until (Some (HvNumber 7))) = None
  /\ delay_after 3 (scenario.unavailable_until (Some (HvNumber 7))) = inr 4%Q
  /\ map (fun attempt => delay_after attempt scenario.unavailable) [1; 2; 3; 4; 5]
     = [inr 1; inr 2; inr 4; inr 8; inr 10]%Q
  /\ delay_after 1025 scenario.unavailable = inl OverflowError.
Proof.
  intros zero delay_after. subst zero delay_after. cbv beta.
  split; [reflexivity|]. split; [reflexivity|]. split; [vm_compute; reflexivity|].
  split; [vm_compute; discriminate|]. split; [vm_compute; reflexivity|].
  split; [reflexivity|]. split; [vm_compute; reflexivity|].
  split; vm_compute; reflexivity.
Qed.

End RetryDelay.

(** ** The retry loop *)

Section RetryLoop.

Import error_handlers error_handlers.ADKErrorClassifier error_handlers.RetryHandler.

Lemma attempts_outcome {S : Type} (config : RetryConfig) (func : Callable S)
    (service_name operation : string) (todo : nat) :
  forall (attempt : Z) (last_error : option Exception) (s : S) (w : World),
    invariants.loop_outcome
      (fst (fst (attempts config func service_name operation todo attempt
                   last_error s w))).
Proof.
  induction todo as [|todo IH]; intros attempt last_error s w; simpl.
  - exact I.
  - destruct (func s w) as [[[result|error] s'] w']; simpl; [exact I|].
    destruct (attempt =? max_attempts config - 1); [exact I|].
    destruct (negb _); [exact I|].
    destruct (_calculate_delay config attempt error w') as [[raised|delay] w''] eqn:Hd.
    + destruct (_calculate_delay_raises config attempt error w' raised) as [-> | ->];
        [now rewrite Hd|exact I|exact I].
    + apply IH.
Qed.

Lemma execute_with_retry_outcome {S : Type} (config : RetryConfig) (func : Callable S)
    (service_name operation : string) (s : S) (w : World) :
  invariants.loop_outcome
    (fst (fst (execute_with_retry config func service_name operation s w))).
Proof. apply attempts_outcome. Qed.

(** A first failure that is not retryable ends the loop at once, wrapped. *)
Lemma execute_with_retry_not_retryable {S : Type} (config : RetryConfig)
    (func : Callable S) (service_name operation : string) (s s' : S) (w w' : World)
    (error : Exception) :
  1 <= max_attempts config ->
  func s w = (Raised error, s', w') ->
  is_retryable (classify_error error) config = false ->
  execute_with_retry config func service_name operation s w
  = (Raised (RetryExhaustedError (max_attempts config) service_name operation
               (Some error)), s', w').
Proof.
  intros Hmax Hfunc Hretry. unfold execute_with_retry.
  destruct (Z.to_nat (max_attempts config)) as [|todo] eqn:E; [lia|].
  cbn [attempts]. rewrite Hfunc, Hretry. cbn [negb].
  now destruct (0 =? max_attempts config - 1).
Qed.

End RetryLoop.

(** ** The error-handling facade and the service manager's wrapper *)

Section Facade.

Import error_handlers error_handlers.ADKErrorClassifier monitoring.
Import adk_service_manager adk_service_manager.ADKServiceManager.

Lemma execute_with_protection_outcome (h : ADKErrorHandler.t)
    (service_name operation : string) (func : Operation) (w : World) :
  invariants.loop_outcome
    (fst (fst (ADKErrorHandler.execute_with_protection h service_name operation func w))).
Proof.
  unfold ADKErrorHandler.execute_with_protection.
  set (h1 := match ADKErrorHandler.retry_configs h !! service_name with
             | Some _ => h | None => _ end).
  set (rc := default DEFAULT_RETRY_CONFIG _).
  destruct (ADKErrorHandler.circuit_breakers h1 !! service_name) as [cb|].
  - pose proof (execute_with_retry_outcome rc (ADKErrorHandler.protected_func func)
                  service_name operation cb w) as H.
    destruct (RetryHandler.execute_with_retry rc _ service_name operation cb w)
      as [[out cb'] w']. simpl in H.
    destruct out as [v|e]; simpl; [exact I|exact H].
  - pose proof (execute_with_retry_outcome rc (ADKErrorHandler.plain func)
                  service_name operation tt w) as H.
    destruct (RetryHandler.execute_with_retry rc _ service_name operation tt w)
      as [[out u] w']. simpl in H.
    destruct out as [v|e]; simpl; [exact I|exact H].
Qed.

(** The [except CircuitBreakerOpenError] clause of the wrapper is never
    entered: the caller is not handed the error of the breaker, and the
    monitor comes back as it went in. *)
Lemma _execute_with_protection_monitor (m : ADKServiceManager.t)
    (service_name operation : string) (func : Operation) (w : World) :
  invariants.loop_outcome
    (fst (fst (_execute_with_protection m service_name operation func w)))
  /\ monitor (snd (fst (_execute_with_protection m service_name operation func w)))
     = monitor m.
Proof.
  unfold _execute_with_protection.
  destruct (push_context m service_name) as [raised|] eqn:Hpush.
  - unfold push_context in Hpush. destruct (bool_decide _); inversion Hpush.
    split; [exact I|reflexivity].
  - pose proof (execute_with_protection_outcome (error_handler m) service_name
                  operation func w) as H.
    destruct (ADKErrorHandler.execute_with_protection _ _ _ _ _) as [[out h] w'].
    simpl in *. split; [exact H|].
    destruct out as [v|e]; [reflexivity|]. now destruct e.
Qed.

(** C3: at the call of [calculate_credit_score]'s operation that raises
    [Unauthenticated], the operation runs once and nothing is slept, but the
    caller does not receive the authentication fault: it receives
    [RetryExhaustedError] carrying it, and the facade books the failure
    under "unknown", not under "authentication". *)
Theorem C3_authentication_fault_is_wrapped :
  let '(out, handler, w) :=
    ADKErrorHandler.execute_with_protection scenario.handler0
      "vertex_ai" "calculate_credit_score"
      (scenario.always (Raised scenario.unauthenticated)) scenario.world0 in
  classify_error scenario.unauthenticated = AUTHENTICATION
  /\ invocations w = 1%nat
  /\ sleeps w = []
  /\ out = Raised (RetryExhaustedError 3 "vertex_ai" "calculate_credit_score"
                     (Some scenario.unauthenticated))
  /\ out <> Raised scenario.unauthenticated
  /\ ADKErrorHandler.error_stats handler !! "vertex_ai"%string ≫= (.!! "unknown"%string)
     = Some 1
  /\ ADKErrorHandler.error_stats handler !! "vertex_ai"%string
       ≫= (.!! "authentication"%string)
     = Some 0.
Proof.
  vm_compute. repeat split; try reflexivity. discriminate.
Qed.

(** C2: with the breaker of [vertex_ai] open and its recovery time not yet
    reached, the next call through the facade does not run the operation,
    yet the caller receives [RetryExhaustedError] (carrying the breaker's
    error), and the failure is counted under "unknown" in the service's
    error statistics. On every instance of the service manager, whatever
    the service, the operation and the state of the breaker, the wrapper
    [_execute_with_protection] never hands [CircuitBreakerOpenError] to its
    caller and returns the monitor as it was: no circuit-breaker trip is
    recorded. *)
Theorem C2_open_breaker_surfaces_as_retries_exhausted :
  (let '(h, w) := scenario.handler_tripped in
   let '(out, h', w') :=
     ADKErrorHandler.execute_with_protection h "vertex_ai" "optimize_portfolio"
       (scenario.always (Returned (VData "portfolio"))) w in
   (exists cb due,
       ADKErrorHandler.circuit_breakers h !! "vertex_ai"%string = Some cb
       /\ state (CircuitBreaker.status cb) = OPEN
       /\ next_attempt_time (CircuitBreaker.status cb) = Some due
       /\ (clock w < due)%Q)
   /\ out = Raised (RetryExhaustedError 3 "vertex_ai" "optimize_portfolio"
                      (Some (CircuitBreakerOpenError IsOpen "vertex_ai")))
   /\ invocations w' = invocations w
   /\ ADKErrorHandler.error_stats h !! "vertex_ai"%string
        ≫= (.!! "unknown"%string) = Some 1
   /\ ADKErrorHandler.error_stats h' !! "vertex_ai"%string
        ≫= (.!! "unknown"%string) = Some 2)
  /\ forall (m : ADKServiceManager.t) (service_name operation : string)
            (func : Operation) (w : World),
       let '(out, m', _) := _execute_with_protection m service_name operation func w in
       (forall (why : BreakerRefusal) (service : string),
           out <> Raised (CircuitBreakerOpenError why service))
       /\ monitor m' = monitor m
       /\ circuit_breaker_trips (ADKMonitor.stats_of (monitor m') service_name operation)
          = circuit_breaker_trips (ADKMonitor.stats_of (monitor m) service_name operation).
Proof.
  split.
  - vm_compute. split.
    + eexists _, _. repeat split; reflexivity.
    + repeat split; reflexivity.
  - intros m service_name operation func w.
    destruct (_execute_with_protection_monitor m service_name operation func w)
      as [Hout Hmon].
    destruct (_execute_with_protection m service_name operation func w)
      as [[out m'] w'].
    simpl in Hout, Hmon. split; [|split; [exact Hmon|now rewrite Hmon]].
    intros why service ->. exact Hout.
Qed.

End Facade.

(** ** The circuit breaker *)

Section Breaker.

Import error_handlers error_handlers.CircuitBreaker.

Lemma _on_failure_config (now : Q) (cb : CircuitBreaker.t) :
  config (_on_failure now cb) = config cb
  /\ service_name (_on_failure now cb) = service_name cb.
Proof.
  unfold _on_failure. destruct (state (status cb)); simpl; auto.
  destruct (_ <=? _); simpl; auto.
Qed.

Lemma _check_state_closed (now : Q) (cb : CircuitBreaker.t) :
  state (status cb) = CLOSED -> _check_state now cb = cb.
Proof. intros H. unfold _check_state. now rewrite H. Qed.

(** A call on a closed breaker whose operation raises. *)
Lemma call_closed_raises (cb : CircuitBreaker.t) (func : Operation) (w w' : World)
    (e : Exception) :
  state (status cb) = CLOSED ->
  invoke func w = (Raised e, w') ->
  call cb func w = (Raised e, _on_failure (clock w') cb, w').
Proof.
  intros Hst Hinv. unfold call. rewrite (_check_state_closed _ _ Hst), Hst.
  unfold run_guarded. now rewrite Hinv.
Qed.

(** An open breaker before its recovery time refuses without running the
    operation and without changing. *)
Lemma call_open_refuses (cb : CircuitBreaker.t) (func : Operation) (w : World) (due : Q) :
  state (status cb) = OPEN ->
  next_attempt_time (status cb) = Some due ->
  (clock w < due)%Q ->
  call cb func w = (Raised (CircuitBreakerOpenError IsOpen (service_name cb)), cb, w).
Proof.
  intros Hst Hdue Hlt.
  assert (Hcheck : _check_state (clock w) cb = cb).
  { unfold _check_state. rewrite Hst, Hdue.
    destruct (Qle_bool due (clock w)) eqn:E; [|reflexivity].
    apply Qle_bool_iff in E. lra. }
  unfold call. now rewrite Hcheck, Hst.
Qed.

Lemma calls_open_refuse (cb : CircuitBreaker.t) (func : Operation) (due : Q)
    (gaps : list Q) :
  state (status cb) = OPEN ->
  next_attempt_time (status cb) = Some due ->
  forall w : World,
    scenario.before due (clock w) gaps ->
    scenario.calls cb func gaps w
    = (repeat (Raised (CircuitBreakerOpenError IsOpen (service_name cb))) (length gaps),
       cb, scenario.waited gaps w).
Proof.
  intros Hst Hdue. induction gaps as [|gap rest IH]; intros w Hbefore.
  - reflexivity.
  - destruct Hbefore as [Hlt Hrest]. cbn [scenario.calls].
    rewrite (call_open_refuses cb func (elapse gap w) due Hst Hdue Hlt).
    rewrite (IH (elapse gap w) Hrest). reflexivity.
Qed.

Lemma invoke_invocations (func : Operation) (w w' : World) (out : Outcome) :
  invoke func w = (out, w') -> invocations w' = S (invocations w).
Proof.
  unfold invoke. destruct (func (invocations w)) as [o took].
  intros H. inversion H. reflexivity.
Qed.

(** The run of failures that opens a closed breaker: it takes
    [failure_threshold - failure_count] failed calls, and at least one. *)
Lemma closed_breaker_opens (func : Operation) (gaps : list Q) :
  scenario.always_fails func ->
  forall (cb : CircuitBreaker.t) (w : World),
    state (status cb) = CLOSED ->
    gaps <> [] ->
    failure_threshold (config cb) - failure_count (status cb) <= Z.of_nat (length gaps) ->
    exists (k : nat) (outs : list Outcome) (cb' : CircuitBreaker.t) (w' : World),
      (1 <= k <= length gaps)%nat
      /\ scenario.calls cb func (firstn k gaps) w = (outs, cb', w')
      /\ invocations w' = (invocations w + k)%nat
      /\ (forall j : nat, (j < k)%nat ->
            state (status (snd (fst (scenario.calls cb func (firstn j gaps) w)))) = CLOSED)
      /\ state (status cb') = OPEN
      /\ config cb' = config cb /\ service_name cb' = service_name cb
      /\ next_attempt_time (status cb')
         = Some (clock w' + recovery_timeout (config cb))%Q.
Proof.
  intros Hfail. induction gaps as [|gap rest IH]; intros cb w Hst Hne Hlen;
    [contradiction|].
  destruct (Hfail (invocations (elapse gap w))) as (e & took & Hfunc).
  destruct (invoke func (elapse gap w)) as [out w1] eqn:Hinv.
  assert (out = Raised e) as ->.
  { unfold invoke in Hinv. rewrite Hfunc in Hinv. now inversion Hinv. }
  pose proof (call_closed_raises cb func _ _ e Hst Hinv) as Hcall.
  pose proof (invoke_invocations _ _ _ _ Hinv) as Hcount. simpl in Hcount.
  destruct (failure_threshold (config cb) <=? failure_count (status cb) + 1) eqn:Hthr.
  - (* this failure reaches the threshold *)
    exists 1%nat, [Raised e], (_on_failure (clock w1) cb), w1.
    split; [simpl; lia|].
    split; [cbn [firstn scenario.calls]; now rewrite Hcall|].
    split; [lia|].
    split.
    { intros j Hj. assert (j = 0%nat) as -> by lia. exact Hst. }
    unfold _on_failure. rewrite Hst, Hthr. simpl. auto.
  - (* still closed, one more failure counted *)
    apply Z.leb_gt in Hthr.
    set (cb1 := _on_failure (clock w1) cb) in *.
    assert (Hcb1 : state (status cb1) = CLOSED
                   /\ failure_count (status cb1) = failure_count (status cb) + 1
                   /\ config cb1 = config cb /\ service_name cb1 = service_name cb).
    { unfold cb1, _on_failure. rewrite Hst.
      destruct (_ <=? _) eqn:E; [apply Z.leb_le in E; lia|]. simpl. auto. }
    destruct Hcb1 as (Hst1 & Hfc1 & Hcfg1 & Hname1).
    simpl in Hlen.
    assert (Hne1 : rest <> []) by (destruct rest; [simpl in Hlen; lia|discriminate]).
    destruct (IH cb1 w1 Hst1 Hne1) as (k & outs & cb' & w' & Hk & Hcalls & Hinv' & Hclosed
                                        & Hopen & Hcfg & Hname & Hdue).
    { rewrite Hcfg1, Hfc1. lia. }
    exists (S k), (Raised e :: outs), cb', w'.
    split; [simpl; lia|].
    split; [cbn [firstn scenario.calls]; now rewrite Hcall, Hcalls|].
    split; [lia|].
    split.
    { intros [|j] Hj; [exact Hst|].
      cbn [firstn scenario.calls]. rewrite Hcall.
      specialize (Hclosed j ltac:(lia)).
      destruct (scenario.calls cb1 func (firstn j rest) w1) as [[outs_j cb_j] w_j].
      exact Hclosed. }
    split; [exact Hopen|].
    split; [congruence|]. split; [congruence|].
    now rewrite Hdue, Hcfg1.
Qed.

(** C4: on a closed breaker, a run of at least [failure_threshold] failed
    calls (one or more) opens it: within the run there is a call, every
    call up to it having run the operation on a closed breaker, after which
    the breaker is open; from then on every call made before
    [recovery_timeout] has elapsed since that moment is refused with the
    breaker-open error, leaves the breaker as it is and does not run the
    operation. *)
Theorem C4_breaker_opens_then_fails_fast
    (cb : CircuitBreaker.t) (func : Operation) (gaps : list Q) (w : World) :
  state (status cb) = CLOSED ->
  0 <= failure_count (status cb) ->
  scenario.always_fails func ->
  gaps <> [] ->
  failure_threshold (config cb) <= Z.of_nat (length gaps) ->
  exists (k : nat) (outs : list Outcome) (cb' : CircuitBreaker.t) (w' : World),
    (1 <= k <= length gaps)%nat
    /\ scenario.calls cb func (firstn k gaps) w = (outs, cb', w')
    /\ invocations w' = (invocations w + k)%nat
    /\ (forall j : nat, (j < k)%nat ->
          state (status (snd (fst (scenario.calls cb func (firstn j gaps) w)))) = CLOSED)
    /\ state (status cb') = OPEN
    /\ next_attempt_time (status cb')
       = Some (clock w' + recovery_timeout (config cb))%Q
    /\ forall (func' : Operation) (later : list Q),
         scenario.before (clock w' + recovery_timeout (config cb)) (clock w') later ->
         scenario.calls cb' func' later w'
         = (repeat (Raised (CircuitBreakerOpenError IsOpen (service_name cb)))
              (length later),
            cb', scenario.waited later w')
         /\ invocations (scenario.waited later w') = invocations w'.
Proof.
  intros Hst Hfc Hfail Hne Hlen.
  destruct (closed_breaker_opens func gaps Hfail cb w Hst Hne)
    as (k & outs & cb' & w' & Hk & Hcalls & Hinv & Hclosed & Hopen & Hcfg & Hname & Hdue);
    [lia|].
  exists k, outs, cb', w'. repeat (split; [assumption|]).
  intros func' later Hbefore. split.
  - rewrite <- Hname.
    now apply (calls_open_refuse cb' func'
                 (clock w' + recovery_timeout (config cb))%Q later Hopen Hdue).
  - clear. revert w'. induction later as [|gap rest IH]; intros w'; [reflexivity|].
    unfold scenario.waited in *. simpl. now rewrite IH.
Qed.

Lemma C4_breaker_opens_then_fails_fast_witness :
  state (status scenario.breaker0) = CLOSED
  /\ 0 <= failure_count (status scenario.breaker0)
  /\ [1; 1; 1; 1; 1; 1]%Q <> []
  /\ failure_threshold (config scenario.breaker0) <= Z.of_nat (length [1; 1; 1; 1; 1; 1]%Q)
  /\ exists (k : nat) (outs : list Outcome) (cb' : CircuitBreaker.t) (w' : World),
       (1 <= k <= 6)%nat
       /\ scenario.calls scenario.breaker0 (scenario.always (Raised scenario.unavailable))
            (firstn k [1; 1; 1; 1; 1; 1]%Q) scenario.world0 = (outs, cb', w')
       /\ state (status cb') = OPEN.
Proof.
  split; [reflexivity|]. split; [simpl; lia|]. split; [discriminate|].
  split; [simpl; lia|].
  destruct (C4_breaker_opens_then_fails_fast scenario.breaker0
              (scenario.always (Raised scenario.unavailable))
              [1; 1; 1; 1; 1; 1]%Q scenario.world0)
    as (k & outs & cb' & w' & Hk & Hcalls & _ & _ & Hopen & _).
  - reflexivity.
  - simpl; lia.
  - intros i. exists scenario.unavailable, 0%Q. reflexivity.
  - discriminate.
  - simpl; lia.
  - exists k, outs, cb', w'. auto.
Defined.

(** A failed probe sends a half-open breaker back to open and moves the
    recovery time to [recovery_timeout] after the failure. *)
Lemma half_open_failure_reopens (now : Q) (cb : CircuitBreaker.t) :
  state (status cb) = HALF_OPEN ->
  state (status (_on_failure now cb)) = OPEN
  /\ next_attempt_time (status (_on_failure now cb))
     = Some (now + recovery_timeout (config cb))%Q
  /\ success_count (status (_on_failure now cb)) = success_count (status cb).
Proof. intros H. unfold _on_failure. rewrite H. simpl. auto. Qed.

(** A successful probe closes the breaker as soon as the running count of
    probe successes reaches [success_threshold], and resets both counters. *)
Lemma half_open_success_counts (cb : CircuitBreaker.t) :
  state (status cb) = HALF_OPEN ->
  if success_threshold (config cb) <=? success_count (status cb) + 1
  then state (status (_on_success cb)) = CLOSED
       /\ failure_count (status (_on_success cb)) = 0
       /\ success_count (status (_on_success cb)) = 0
  else state (status (_on_success cb)) = HALF_OPEN
       /\ success_count (status (_on_success cb)) = success_count (status cb) + 1.
Proof.
  intros H. unfold _on_success. rewrite H.
  destruct (_ <=? _); simpl; auto.
Qed.

(** The move from open to half-open keeps the count of probe successes. *)
Lemma _check_state_keeps_success_count (now : Q) (cb : CircuitBreaker.t) :
  success_count (status (_check_state now cb)) = success_count (status cb).
Proof.
  unfold _check_state. destruct (state (status cb)); try reflexivity.
  destruct (next_attempt_time (status cb)); try reflexivity.
  now destruct (Qle_bool _ _).
Qed.

(** C5: with [success_threshold = 3], two probe successes, a probe failure
    (back to open, recovery time moved), and, after the recovery time, one
    single probe success close the breaker: the successes from before the
    failure are still counted. *)
Theorem C5_stale_probe_successes_close_the_breaker :
  let '(outs, cb8, w8) :=
    scenario.calls scenario.breaker0 scenario.probe_script
      [0; 0; 0; 0; 0; 60; 0; 0]%Q scenario.world0 in
  let '(out9, cb9, w9) := call cb8 scenario.probe_script (elapse 60 w8) in
  success_threshold (config scenario.breaker0) = 3
  /\ outs = [Raised scenario.unavailable; Raised scenario.unavailable;
             Raised scenario.unavailable; Raised scenario.unavailable;
             Raised scenario.unavailable;
             Returned (VData "ok"); Returned (VData "ok");
             Raised scenario.unavailable]
  /\ state (status cb8) = OPEN
  /\ success_count (status cb8) = 2
  /\ next_attempt_time (status cb8) = Some (clock w8 + 60)%Q
  /\ out9 = Returned (VData "ok")
  /\ state (status cb9) = CLOSED.
Proof. vm_compute. repeat split; reflexivity. Qed.

End Breaker.

(** ** The monitor's performance statistics *)

Section Monitor.

Import monitoring monitoring.ADKMonitor.

Lemma stats_of_with_stats (m : ADKMonitor.t) (service_name operation : string)
    (s : PerformanceStats) :
  stats_of (with_stats m service_name operation s) service_name operation = s.
Proof.
  unfold stats_of, with_stats. cbn [performance_stats].
  rewrite (lookup_insert_eq (performance_stats m)). cbn [default from_option id].
  now rewrite lookup_insert_eq.
Qed.

Lemma stats_of_with_stats_other (m : ADKMonitor.t)
    (service_name operation service_name' operation' : string) (s : PerformanceStats) :
  (service_name', operation') <> (service_name, operation) ->
  stats_of (with_stats m service_name operation s) service_name' operation'
  = stats_of m service_name' operation'.
Proof.
  intros Hne. unfold stats_of, with_stats. cbn [performance_stats].
  destruct (decide (service_name = service_name')) as [<-|Hs].
  - rewrite (lookup_insert_eq (performance_stats m)). cbn [default from_option id].
    rewrite lookup_insert_ne; [reflexivity|]. congruence.
  - now rewrite (lookup_insert_ne (performance_stats m)).
Qed.

(** Writing back what was read changes no statistics. *)
Lemma stats_of_with_stats_read (m : ADKMonitor.t)
    (service_name operation service_name' operation' : string) :
  stats_of (with_stats m service_name operation (stats_of m service_name operation))
    service_name' operation'
  = stats_of m service_name' operation'.
Proof.
  destruct (decide ((service_name', operation') = (service_name, operation))) as [E|E].
  - inversion E; subst. apply stats_of_with_stats.
  - now apply stats_of_with_stats_other.
Qed.

Lemma check_one_stats (thresholds : gmap string Q) (service_name : string)
    (metric : MetricType) (observed : Q) (exceeds : Q -> Q -> bool) (m : ADKMonitor.t) :
  performance_stats (check_one thresholds service_name metric observed exceeds m)
  = performance_stats m.
Proof.
  unfold check_one. destruct (thresholds !! _); [|reflexivity].
  now destruct (exceeds observed q).
Qed.

Lemma _check_alerts_stats (m : ADKMonitor.t) (service_name operation : string)
    (service_name' operation' : string) :
  stats_of (_check_alerts m service_name operation) service_name' operation'
  = stats_of m service_name' operation'.
Proof.
  unfold _check_alerts. destruct (alert_thresholds m !! service_name); [|reflexivity].
  unfold stats_of at 1. rewrite !check_one_stats.
  apply stats_of_with_stats_read.
Qed.

Lemma _record_metric_stats (m : ADKMonitor.t) (service_name operation : string)
    (metric : MetricType) (v now : Q) (service_name' operation' : string) :
  stats_of (_record_metric m service_name operation metric v now) service_name' operation'
  = stats_of m service_name' operation'.
Proof. reflexivity. Qed.

(** C10: recording a failed request leaves the latency aggregates of its
    statistics as they were (total, minimum and maximum response time, and
    with them the average), adds one to [total_requests] and to
    [failed_requests], stamps [last_request_time], and changes nothing else
    there nor in the statistics of any other service or operation. *)
Theorem C10_failed_request_keeps_latency_aggregates
    (m : ADKMonitor.t) (request_id service_name operation : string)
    (response_time : Q) (err : option Exception) (now : Q) :
  let before := stats_of m service_name operation in
  let m' := record_request_completion m request_id service_name operation false
              response_time err now in
  let after := stats_of m' service_name operation in
  total_response_time after = total_response_time before
  /\ min_response_time after = min_response_time before
  /\ max_response_time after = max_response_time before
  /\ average_response_time after = average_response_time before
  /\ successful_requests after = successful_requests before
  /\ rate_limit_hits after = rate_limit_hits before
  /\ circuit_breaker_trips after = circuit_breaker_trips before
  /\ total_requests after = total_requests before + 1
  /\ failed_requests after = failed_requests before + 1
  /\ last_request_time after = Some now
  /\ forall service_name' operation' : string,
       (service_name', operation') <> (service_name, operation) ->
       stats_of m' service_name' operation' = stats_of m service_name' operation'.
Proof.
  intros before m' after.
  assert (Hafter : forall s o,
             stats_of m' s o
             = stats_of
                 (with_stats
                    {| performance_stats := performance_stats m;
                       metrics_history := metrics_history m;
                       request_tracker :=
                         RequestTracker.complete_request (request_tracker m)
                           request_id false err now;
                       alert_thresholds := alert_thresholds m;
                       alerts := alerts m |}
                    service_name operation
                    {| total_requests := total_requests before + 1;
                       successful_requests := successful_requests before;
                       failed_requests := failed_requests before + 1;
                       total_response_time := total_response_time before;
                       min_response_time := min_response_time before;
                       max_response_time := max_response_time before;
                       rate_limit_hits := rate_limit_hits before;
                       circuit_breaker_trips := circuit_breaker_trips before;
                       last_request_time := Some now |}) s o).
  { intros s o. unfold m', record_request_completion.
    rewrite _check_alerts_stats. reflexivity. }
  unfold after. rewrite Hafter, stats_of_with_stats.
  unfold average_response_time. simpl.
  repeat (split; [reflexivity|]).
  intros s o Hne. rewrite Hafter, stats_of_with_stats_other by exact Hne.
  reflexivity.
Qed.

End Monitor.

(** ** The cache *)

Section Cache.

Import caching caching.IntelligentCache.

(** C6: an entry stored with [ttl_seconds = 0] gets the default TTL of one
    hour ([ttl_seconds or default_ttl_seconds]); a read one second later,
    when more than zero seconds have elapsed, returns it as a hit. *)
Theorem C6_zero_ttl_entry_is_returned_after_its_ttl :
  let c0 := IntelligentCache.init default_config in
  let '(stored, c1) :=
    IntelligentCache.set scenario.codec c0 "vertex_ai" "credit_scoring" "{}"
      (VData "score") (Some 0%Q) None None 0 in
  let '(read, c2) :=
    IntelligentCache.get scenario.codec c1 "vertex_ai" "credit_scoring" "{}" None 1 in
  stored = true
  /\ map (fun kv => (CacheEntry.created_at (snd kv), CacheEntry.ttl_seconds (snd kv)))
       (cache c1) = [(0%Q, Some 3600%Q)]
  /\ (0 < 1 - 0)%Q
  /\ read = Some (VData "score")
  /\ hits (cache_stats c2) = 1
  /\ misses (cache_stats c2) = 0
  /\ evictions (cache_stats c2) = 0.
Proof. vm_compute. repeat split; reflexivity. Qed.

(** C7: in a cache of 1000 bytes, results of 100 and 20 bytes (each at
    most a tenth of the cache) are stored in turn under one key; every
    store is accepted, the cache ends with a single entry of 100 bytes, and
    the tracked size is 1040 bytes. *)
Theorem C7_overwrites_push_tracked_size_over_max :
  let '(accepted, c) :=
    scenario.store_all scenario.overwrites
      (IntelligentCache.init scenario.small_cache_config) in
  (max_size_bytes c == 1000)%Q
  /\ accepted = repeat true 17
  /\ map (fun kv => CacheEntry.size_bytes (snd kv)) (cache c) = [100]
  /\ size_bytes (cache_stats c) = 1040
  /\ (max_size_bytes c < inject_Z (size_bytes (cache_stats c)))%Q.
Proof. vm_compute. repeat split; reflexivity. Qed.

(** *** The eviction loop *)

Lemma lookup_of_key (k : string) (d : OrderedDict.t) :
  In k (map fst d) -> exists e : CacheEntry.t, OrderedDict.lookup k d = Some e.
Proof.
  induction d as [|[k' e'] d IH]; simpl; [tauto|].
  destruct (String.eqb k' k) eqn:E; [eauto|].
  apply String.eqb_neq in E. intros [H|H]; [congruence|auto].
Qed.

Lemma length_remove (k : string) (d : OrderedDict.t) (e : CacheEntry.t) :
  OrderedDict.lookup k d = Some e ->
  S (length (OrderedDict.remove k d)) = length d.
Proof.
  induction d as [|[k' e'] d IH]; simpl; [discriminate|].
  destruct (String.eqb k' k); [reflexivity|].
  intros H. simpl. now rewrite IH.
Qed.

Lemma argmin_key (lt : CacheEntry.t -> CacheEntry.t -> bool) (d : OrderedDict.t) :
  forall best : string * CacheEntry.t,
    OrderedDict.argmin lt best d = fst best
    \/ In (OrderedDict.argmin lt best d) (map fst d).
Proof.
  induction d as [|[k e] d IH]; intros best; simpl; [now left|].
  destruct (lt e (snd best)).
  - destruct (IH (k, e)) as [H|H]; [right; left; now rewrite H|now right; right].
  - destruct (IH best) as [H|H]; [now left|now right; right].
Qed.

(** The victim of a round is a key of the cache. *)
Lemma key_to_remove_present (c : IntelligentCache.t) (now : Q) :
  cache c <> [] ->
  exists (k : string) (e : CacheEntry.t),
    key_to_remove c now = Some k /\ OrderedDict.lookup k (cache c) = Some e.
Proof.
  intros Hne. unfold key_to_remove.
  destruct (cache c) as [|[k e] rest] eqn:Hcache; [contradiction|].
  assert (Hkey : forall k' : string,
             In k' (map fst ((k, e) :: rest)) ->
             exists (k0 : string) (e0 : CacheEntry.t),
               Some k' = Some k0 /\ OrderedDict.lookup k0 ((k, e) :: rest) = Some e0).
  { intros k' Hin. destruct (lookup_of_key k' _ Hin) as [e0 He0]. eauto. }
  destruct (strategy (config c)).
  - apply Hkey. now left.
  - apply Hkey. destruct (argmin_key
                            (fun a b => Py.Qltb (CacheEntry.created_at a)
                                          (CacheEntry.created_at b)) rest (k, e));
      [left; now rewrite H|now right].
  - apply Hkey. destruct (argmin_key
                            (fun a b => CacheEntry.access_count a
                                        <? CacheEntry.access_count b) rest (k, e));
      [left; now rewrite H|now right].
  - match goal with
    | |- context [match ?f with [] => _ | _ :: _ => _ end] =>
        destruct f as [|[k' e'] others] eqn:Hf
    end.
    + apply Hkey. now left.
    + apply Hkey.
      assert (Hin : (k', e') ∈ (k', e') :: others) by left.
      rewrite <- Hf in Hin.
      apply list_elem_of_filter in Hin. destruct Hin as [_ Hin].
      apply list_elem_of_In in Hin. now apply (in_map fst) in Hin.
Qed.

(** With as many rounds as there are entries the loop runs to its exit:
    afterwards the new entry fits, or nothing is left to evict. *)
Lemma evict_while_exit (required : Z) (now : Q) (rounds : nat) :
  forall c : IntelligentCache.t,
    (length (cache c) <= rounds)%nat ->
    let c' := evict_while rounds required now c in
    (inject_Z (size_bytes (cache_stats c') + required) <= max_size_bytes c')%Q
    \/ cache c' = [].
Proof.
  induction rounds as [|rounds IH]; intros c Hlen; simpl.
  - right. destruct (cache c); [reflexivity|simpl in Hlen; lia].
  - destruct (Qltb_spec (max_size_bytes c)
                (inject_Z (size_bytes (cache_stats c) + required))) as [Hfull|Hfits].
    + destruct (cache c) as [|kv rest] eqn:Hcache.
      { unfold key_to_remove. rewrite Hcache. now right. }
      destruct (key_to_remove_present c now) as (k & e & Hk & He);
        [rewrite Hcache; discriminate|].
      rewrite Hk. rewrite Hcache in He. rewrite He.
      apply IH. simpl. rewrite <- Hcache in He.
      pose proof (length_remove _ _ _ He). rewrite Hcache in *. simpl in *. lia.
    + left. lra.
Qed.

Lemma _ensure_cache_space_exit (c : IntelligentCache.t) (required : Z) (now : Q) :
  let c' := _ensure_cache_space c required now in
  (inject_Z (size_bytes (cache_stats c') + required) <= max_size_bytes c')%Q
  \/ cache c' = [].
Proof. apply evict_while_exit. lia. Qed.

(** *** Entries with a TTL other than zero *)

Lemma lookup_In (k : string) (d : OrderedDict.t) (e : CacheEntry.t) :
  OrderedDict.lookup k d = Some e -> In (k, e) d.
Proof.
  induction d as [|[k' e'] d IH]; simpl; [discriminate|].
  destruct (String.eqb k' k) eqn:E.
  - apply String.eqb_eq in E. intros H. inversion H; subst. now left.
  - intros H. right. now apply IH.
Qed.

Lemma In_remove (k k' : string) (e : CacheEntry.t) (d : OrderedDict.t) :
  In (k', e) (OrderedDict.remove k d) -> In (k', e) d.
Proof.
  induction d as [|[k0 e0] d IH]; simpl; [tauto|].
  destruct (String.eqb k0 k); simpl; intuition.
Qed.

Lemma In_assign (k k' : string) (e e' : CacheEntry.t) (d : OrderedDict.t) :
  In (k', e') (OrderedDict.assign k e d) ->
  (k' = k /\ e' = e) \/ In (k', e') d.
Proof.
  induction d as [|[k0 e0] d IH]; simpl.
  - intros [H|[]]. inversion H. now left.
  - destruct (String.eqb k0 k) eqn:E; simpl.
    + apply String.eqb_eq in E. subst k0.
      intros [H|H]; [inversion H; now left|now right; right].
    + intros [H|H]; [now right; left|]. destruct (IH H); [now left|now right; right].
Qed.

(** After [d[k] = e] on a dict with distinct keys, [k] holds [e] only. *)
Lemma In_assign_same (k : string) (e e' : CacheEntry.t) (d : OrderedDict.t) :
  NoDup (map fst d) -> In (k, e') (OrderedDict.assign k e d) -> e' = e.
Proof.
  induction d as [|[k0 e0] d IH]; simpl; intros Hnd.
  - intros [H|[]]. now inversion H.
  - inversion Hnd as [|? ? Hnotin Hnd']; subst.
    destruct (String.eqb k0 k) eqn:E; simpl.
    + apply String.eqb_eq in E. subst k0.
      intros [H|H]; [now inversion H|].
      exfalso. apply Hnotin. apply list_elem_of_In.
      now apply (in_map fst) in H.
    + apply String.eqb_neq in E.
      intros [H|H]; [inversion H; congruence|]. now apply IH.
Qed.

Lemma In_move_to_end (k k' : string) (e : CacheEntry.t) (d : OrderedDict.t) :
  In (k', e) (OrderedDict.move_to_end k d) -> In (k', e) d.
Proof.
  unfold OrderedDict.move_to_end.
  destruct (OrderedDict.lookup k d) as [e0|] eqn:E; [|tauto].
  intros H. apply in_app_or in H. destruct H as [H|[H|[]]].
  - now apply In_remove in H.
  - inversion H; subst. now apply lookup_In.
Qed.

Lemma remove_keys_NoDup (k : string) (d : OrderedDict.t) :
  NoDup (map fst d) -> NoDup (map fst (OrderedDict.remove k d)).
Proof.
  induction d as [|[k0 e0] d IH]; simpl; intros Hnd; [constructor|].
  inversion Hnd as [|? ? Hnotin Hnd']; subst.
  destruct (String.eqb k0 k); [assumption|]. simpl. constructor; [|now apply IH].
  intros Hin. apply Hnotin. apply list_elem_of_In.
  apply list_elem_of_In, in_map_iff in Hin. destruct Hin as [[k1 e1] [<- Hin]].
  apply In_remove in Hin. now apply (in_map fst) in Hin.
Qed.

(** The eviction loop only removes entries. *)
Lemma evict_while_subset (rounds : nat) (required : Z) (now : Q) :
  forall c : IntelligentCache.t,
    NoDup (map fst (cache c)) ->
    NoDup (map fst (cache (evict_while rounds required now c)))
    /\ config (evict_while rounds required now c) = config c.
Proof.
  induction rounds as [|rounds IH]; intros c Hnd; simpl; [auto|].
  destruct (Py.Qltb _ _); [|auto].
  destruct (key_to_remove c now) as [k|]; [|auto].
  destruct (OrderedDict.lookup k (cache c)) as [entry|]; [|auto].
  destruct (IH {| config := config c; cache := OrderedDict.remove k (cache c);
                  cache_stats := evicted (cache_stats c) entry |}) as [H1 H2].
  { simpl. now apply remove_keys_NoDup. }
  split; [exact H1|exact H2].
Qed.

(** What [set] stores: one entry under the request's key, created now,
    with the TTL asked for unless that is missing or zero. *)
Lemma set_stores (codec : Codec) (c c' : IntelligentCache.t)
    (service_name operation : string) (data : Data) (result : Value)
    (ttl : option Q) (ctx : option Data) (md : option Metadata) (now : Q) :
  NoDup (map fst (cache c)) ->
  IntelligentCache.set codec c service_name operation data result ttl ctx md now
  = (true, c') ->
  scenario.born_at (_generate_cache_key codec service_name operation data ctx) now
    (Py.or_else ttl (default_ttl_seconds (config c))) (cache c').
Proof.
  intros Hnd. unfold IntelligentCache.set.
  destruct (if enable_compression (config c) then _ else _) as [size|]; [|discriminate].
  destruct (Py.Qltb _ _); [discriminate|].
  intros H. inversion H; subst; clear H. simpl.
  destruct (evict_while_subset (length (cache c)) size now c Hnd) as [Hnd' Hcfg].
  intros e Hin. unfold _ensure_cache_space in Hin.
  apply In_assign_same in Hin; [|exact Hnd']. subst e. simpl. now split.
Qed.

(** A read changes neither the creation time nor the TTL of any entry. *)
Lemma get_keeps_birth (codec : Codec) (c : IntelligentCache.t)
    (service_name operation : string) (data : Data) (ctx : option Data) (now : Q)
    (k : string) (born ttl : Q) :
  scenario.born_at k born ttl (cache c) ->
  scenario.born_at k born ttl
    (cache (snd (IntelligentCache.get codec c service_name operation data ctx now))).
Proof.
  intros Hborn. unfold IntelligentCache.get.
  set (key := _generate_cache_key codec service_name operation data ctx).
  destruct (OrderedDict.lookup key (cache c)) as [entry|] eqn:Hlook; [|exact Hborn].
  destruct (CacheEntry.is_expired entry now); simpl.
  - intros e Hin. apply Hborn. now apply In_remove in Hin.
  - intros e Hin.
    assert (Hin' : In (k, e) (OrderedDict.assign key (CacheEntry.touch entry now) (cache c))).
    { destruct (strategy (config c)); try exact Hin; now apply In_move_to_end in Hin. }
    apply In_assign in Hin'. destruct Hin' as [[-> ->]|Hin']; [|now apply Hborn].
    simpl. apply Hborn. now apply lookup_In.
Qed.

Lemma reads_keep_birth (codec : Codec) (rs : list scenario.Read) (k : string)
    (born ttl : Q) :
  forall c : IntelligentCache.t,
    scenario.born_at k born ttl (cache c) ->
    scenario.born_at k born ttl (cache (scenario.reads codec rs c)).
Proof.
  induction rs as [|r rs IH]; intros c Hborn; [exact Hborn|].
  unfold scenario.reads. simpl. apply IH. now apply get_keeps_birth.
Qed.

(** A read never returns an entry older than its TTL, and counts as a miss
    when it returns nothing. *)
Lemma get_of_outlived_entry (codec : Codec) (c : IntelligentCache.t)
    (service_name operation : string) (data : Data) (ctx : option Data)
    (now born ttl : Q) :
  scenario.born_at (_generate_cache_key codec service_name operation data ctx)
    born ttl (cache c) ->
  (ttl < now - born)%Q ->
  fst (IntelligentCache.get codec c service_name operation data ctx now) = None
  /\ misses (cache_stats (snd (IntelligentCache.get codec c service_name operation
                                 data ctx now)))
     = misses (cache_stats c) + 1.
Proof.
  intros Hborn Hold. unfold IntelligentCache.get.
  set (key := _generate_cache_key codec service_name operation data ctx) in *.
  destruct (OrderedDict.lookup key (cache c)) as [entry|] eqn:Hlook; [|now simpl].
  destruct (Hborn entry (lookup_In _ _ _ Hlook)) as [Hcreated Httl].
  assert (Hexp : CacheEntry.is_expired entry now = true).
  { unfold CacheEntry.is_expired. rewrite Httl, Hcreated. now apply Qltb_lt. }
  rewrite Hexp. now simpl.
Qed.

(** X21: an entry stored with a TTL [T] other than zero is never returned by a
    read made more than [T] after the store, however many reads came in
    between; that read is a miss. *)
Theorem nonzero_ttl_is_respected (codec : Codec) (c c' : IntelligentCache.t)
    (service_name operation : string) (data : Data) (result : Value)
    (T : Q) (ctx : option Data) (md : option Metadata) (stored_at now : Q)
    (rs : list scenario.Read) :
  NoDup (map fst (cache c)) ->
  ~ (T == 0)%Q ->
  IntelligentCache.set codec c service_name operation data result (Some T) ctx md
    stored_at = (true, c') ->
  (T < now - stored_at)%Q ->
  let c'' := scenario.reads codec rs c' in
  fst (IntelligentCache.get codec c'' service_name operation data ctx now) = None
  /\ misses (cache_stats (snd (IntelligentCache.get codec c'' service_name operation
                                 data ctx now)))
     = misses (cache_stats c'') + 1.
Proof.
  intros Hnd HT Hset Hold c''.
  pose proof (set_stores _ _ _ _ _ _ _ _ _ _ _ Hnd Hset) as Hborn.
  simpl in Hborn. rewrite (truthy_nonzero _ HT) in Hborn.
  apply get_of_outlived_entry with (born := stored_at) (ttl := T); [|exact Hold].
  now apply reads_keep_birth.
Qed.

End Cache.

(** ** Dispatch through the batcher *)

Section Gateway.

Import error_handlers monitoring caching batching.
Import adk_service_manager adk_service_manager.ADKServiceManager.

(** In the batched branch the operation plays no part: any two operations
    give the same result. *)
Lemma dispatch_batched_ignores_func (m : ADKServiceManager.t) (l : Loop)
    (service_name operation : string) (data : Data) (func func' : Operation)
    (priority : Z) (turns : nat) (w : World) :
  dispatch m l service_name operation data func true priority turns w
  = dispatch m l service_name operation data func' true priority turns w.
Proof. reflexivity. Qed.

(** The batched branch neither runs the operation nor touches the breaker,
    the retry loop or the error statistics. *)
Lemma dispatch_batched_unprotected (m m' : ADKServiceManager.t) (l l' : Loop)
    (service_name operation : string) (data : Data) (func : Operation)
    (priority : Z) (turns : nat) (w w' : World) (out : Outcome) :
  dispatch m l service_name operation data func true priority turns w
  = Some (out, m', l', w') ->
  invocations w' = invocations w
  /\ sleeps w' = sleeps w
  /\ error_handler m' = error_handler m
  /\ monitor m' = monitor m.
Proof.
  unfold dispatch.
  destruct (RequestBatcher.add_request _ _ _ _ _ _) as [[future b] l1].
  destruct (batching.run turns b l1) as [[rested b2] l2].
  destruct (futures l2 !! future); [|discriminate].
  intros H. inversion H; subst. simpl. auto.
Qed.

(** The lookup in the cache runs nothing. *)
Lemma get_cached_result_world (codec : Codec) (mgr : SmartCacheManager.t)
    (service_name operation : string) (data : Data) (ctx : option Data) (w : World) :
  let w' :=
    snd (SmartCacheManager.get_cached_result codec mgr service_name operation data
           ctx w) in
  invocations w' = invocations w /\ sleeps w' = sleeps w.
Proof.
  unfold SmartCacheManager.get_cached_result. cbn [SmartCacheManager.random_random].
  destruct (Py.Qltb _ _); [simpl; auto|].
  destruct (IntelligentCache.get _ _ _ _ _ _ _). simpl. auto.
Qed.

(** A call with batching enabled neither runs the operation nor touches
    the error handler or the monitor, whatever comes of it. *)
Lemma batched_call_unprotected (codec : Codec) (m m' : ADKServiceManager.t)
    (l l' : Loop) (service_name operation : string) (data : Data) (func : Operation)
    (enable_caching : bool) (priority : Z) (ctx : option Data) (turns : nat)
    (w w' : World) (out : Outcome) :
  _execute_with_batching_and_caching codec m l service_name operation data func
    true enable_caching priority ctx turns w = Some (out, m', l', w') ->
  invocations w' = invocations w
  /\ sleeps w' = sleeps w
  /\ error_handler m' = error_handler m
  /\ monitor m' = monitor m.
Proof.
  unfold _execute_with_batching_and_caching.
  destruct (push_context m service_name); [intros H; inversion H; subst; auto|].
  assert (Hlook : exists hit m1 w1,
             (if enable_caching
              then let '(hit, mgr, w0) :=
                     SmartCacheManager.get_cached_result codec (cache_manager m)
                       service_name operation data ctx w in
                   (hit, with_cache_manager m mgr, w0)
              else (None, m, w)) = (hit, m1, w1)
             /\ invocations w1 = invocations w /\ sleeps w1 = sleeps w
             /\ error_handler m1 = error_handler m /\ monitor m1 = monitor m).
  { destruct enable_caching; [|eexists _, _, _; split; [reflexivity|auto]].
    pose proof (get_cached_result_world codec (cache_manager m) service_name
                  operation data ctx w) as Hw.
    destruct (SmartCacheManager.get_cached_result _ _ _ _ _ _ _) as [[hit mgr] w0].
    eexists _, _, _. split; [reflexivity|]. simpl in Hw. simpl. tauto. }
  destruct Hlook as (hit & m1 & w1 & -> & Hi & Hs & Hh & Hm).
  assert (Hdispatch :
            match dispatch m1 l service_name operation data func true priority
                    turns w1 with
            | None => None
            | Some (Raised e, m, l, w) => Some (Raised e, m, l, w)
            | Some (Returned result, m, l, w) =>
                match result with
                | VNone => Some (Returned result, m, l, w)
                | _ =>
                    if enable_caching
                    then let '(_, mgr) :=
                           SmartCacheManager.cache_result codec (cache_manager m)
                             service_name operation data result ctx w in
                         Some (Returned result, with_cache_manager m mgr, l, w)
                    else Some (Returned result, m, l, w)
                end
            end = Some (out, m', l', w') ->
            invocations w' = invocations w /\ sleeps w' = sleeps w
            /\ error_handler m' = error_handler m /\ monitor m' = monitor m).
  { destruct (dispatch m1 l service_name operation data func true priority turns w1)
      as [[[[out2 m2] l2] w2]|] eqn:Hd; [|discriminate].
    apply dispatch_batched_unprotected in Hd. destruct Hd as (Hi2 & Hs2 & Hh2 & Hm2).
    assert (Hdone : invocations w2 = invocations w /\ sleeps w2 = sleeps w
                    /\ error_handler m2 = error_handler m /\ monitor m2 = monitor m)
      by (repeat split; congruence).
    destruct out2 as [result|e]; [|intros H; inversion H; subst; exact Hdone].
    destruct result; [intros H; inversion H; subst; exact Hdone| |];
      (destruct enable_caching;
       [destruct (SmartCacheManager.cache_result _ _ _ _ _ _ _ _) as [ok mgr]|];
       intros H; inversion H; subst; exact Hdone). }
  destruct hit as [[|text|rid at_ size text]|]; try exact Hdispatch;
    intros H; inversion H; subst; auto.
Qed.

(** The constructor does not return: [set_alert_threshold] is handed a
    [str], and the first threshold of the first service raises. *)
Lemma init_raises (batch_config : option BatchConfig)
    (cache_config : option CacheConfig) :
  init batch_config cache_config = inl AttributeError.
Proof. reflexivity. Qed.

(** C1: with batching enabled the operation submitted plays no part in the
    call. On every instance of the service manager, whatever the service,
    the request and the state of the cache and of the event loop, any two
    operations give the same result, and whatever the call returns, the
    operation has not been run, nothing has been slept, and the error
    handler (breakers, retry configurations, error statistics) and the
    monitor are as they were. On an instance that has a logger for
    [vertex_ai] and a batcher that has not been used, the batched call of
    [calculate_credit_score]'s operation, which raises [Unauthenticated],
    returns the placeholder result of [_execute_batch] as a success; with
    [vertex_ai] configured as in [SERVICE_CONFIGS] the same call without
    batching runs the operation once and fails. *)
Theorem C1_batched_call_never_runs_the_protected_call (codec : Codec)
    (m : ADKServiceManager.t) (l : Loop) (service_name operation : string)
    (data : Data) (func func' : Operation) (enable_caching : bool) (priority : Z)
    (ctx : option Data) (turns : nat) (w : World) :
  let batched func :=
    _execute_with_batching_and_caching codec m l service_name operation data func
      true enable_caching priority ctx turns w in
  let call batching :=
    _execute_with_batching_and_caching scenario.codec m (idle 0)
      "vertex_ai" "calculate_credit_score" "{}"
      (scenario.always (Raised scenario.unauthenticated)) batching false 0 None 20
      scenario.world0 in
  batched func = batched func'
  /\ match batched func with
     | Some (out, m', l', w') =>
         invocations w' = invocations w
         /\ sleeps w' = sleeps w
         /\ error_handler m' = error_handler m
         /\ monitor m' = monitor m
     | None => True
     end
  /\ ("vertex_ai"%string ∈ service_loggers m ->
      batcher m = RequestBatcher.init _get_default_batch_config ->
      (exists m' l' w' processed_at,
          call true
          = Some (Returned
                    (VBatch {| rid_content := "vertex_ai:calculate_credit_score:{}";
                               rid_timestamp := 0 |} processed_at 1 "{}"), m', l', w')
          /\ invocations w' = 0%nat
          /\ error_handler m' = error_handler m)
      /\ (ADKErrorHandler.retry_configs (error_handler m) !! "vertex_ai"%string
          = ADKErrorHandler.retry_configs scenario.handler0 !! "vertex_ai"%string ->
          ADKErrorHandler.circuit_breakers (error_handler m) !! "vertex_ai"%string
          = ADKErrorHandler.circuit_breakers scenario.handler0 !! "vertex_ai"%string ->
          match call false with
          | Some (out, _, _, w') =>
              out = Raised (RetryExhaustedError 3 "vertex_ai" "calculate_credit_score"
                              (Some scenario.unauthenticated))
              /\ invocations w' = 1%nat
          | None => False
          end)).
Proof.
  intros batched call. split; [reflexivity|]. split.
  - destruct (batched func) as [[[[out m'] l'] w']|] eqn:H; [|exact I].
    exact (batched_call_unprotected _ _ _ _ _ _ _ _ _ _ _ _ _ _ _ _ H).
  - intros Hlog Hbatcher. subst call.
    assert (Hpush : push_context m "vertex_ai" = None).
    { unfold push_context. now rewrite bool_decide_eq_true_2. }
    split.
    + cbv beta delta [_execute_with_batching_and_caching dispatch].
      rewrite Hpush. cbv beta iota zeta. rewrite Hbatcher. vm_compute.
      eexists _, _, _, _. split; [reflexivity|]. split; reflexivity.
    + intros Hretry Hbreaker.
      let configured :=
        eval vm_compute in
          (ADKErrorHandler.retry_configs scenario.handler0 !! "vertex_ai"%string) in
      change (ADKErrorHandler.retry_configs scenario.handler0 !! "vertex_ai"%string)
        with configured in Hretry.
      let configured :=
        eval vm_compute in
          (ADKErrorHandler.circuit_breakers scenario.handler0 !! "vertex_ai"%string) in
      change (ADKErrorHandler.circuit_breakers scenario.handler0 !! "vertex_ai"%string)
        with configured in Hbreaker.
      cbv beta delta [_execute_with_batching_and_caching dispatch
                        _execute_with_protection
                        ADKErrorHandler.execute_with_protection].
      rewrite Hpush. cbv beta iota zeta. rewrite Hpush, Hretry. cbv beta iota zeta.
      rewrite Hretry, Hbreaker. lazy. split; reflexivity.
Qed.

Lemma C1_batched_call_never_runs_the_protected_call_witness :
  let m := scenario.manager_at_failure in
  let call batching :=
    _execute_with_batching_and_caching scenario.codec m (idle 0)
      "vertex_ai" "calculate_credit_score" "{}"
      (scenario.always (Raised scenario.unauthenticated)) batching false 0 None 20
      scenario.world0 in
  "vertex_ai"%string ∈ service_loggers m
  /\ batcher m = RequestBatcher.init _get_default_batch_config
  /\ ADKErrorHandler.retry_configs (error_handler m) !! "vertex_ai"%string
     = ADKErrorHandler.retry_configs scenario.handler0 !! "vertex_ai"%string
  /\ ADKErrorHandler.circuit_breakers (error_handler m) !! "vertex_ai"%string
     = ADKErrorHandler.circuit_breakers scenario.handler0 !! "vertex_ai"%string
  /\ (exists m' l' w' processed_at,
         call true
         = Some (Returned
                   (VBatch {| rid_content := "vertex_ai:calculate_credit_score:{}";
                              rid_timestamp := 0 |} processed_at 1 "{}"), m', l', w')
         /\ invocations w' = 0%nat
         /\ error_handler m' = error_handler m)
  /\ match call false with
     | Some (out, _, _, w') =>
         out = Raised (RetryExhaustedError 3 "vertex_ai" "calculate_credit_score"
                         (Some scenario.unauthenticated))
         /\ invocations w' = 1%nat
     | None => False
     end.
Proof.
  intros m call.
  assert (Hlog : "vertex_ai"%string ∈ service_loggers m)
    by (apply (bool_decide_unpack _); vm_compute; exact I).
  assert (Hbatcher : batcher m = RequestBatcher.init _get_default_batch_config)
    by reflexivity.
  assert (Hretry : ADKErrorHandler.retry_configs (error_handler m) !! "vertex_ai"%string
                   = ADKErrorHandler.retry_configs scenario.handler0
                       !! "vertex_ai"%string)
    by (vm_compute; reflexivity).
  assert (Hbreaker : ADKErrorHandler.circuit_breakers (error_handler m)
                       !! "vertex_ai"%string
                     = ADKErrorHandler.circuit_breakers scenario.handler0
                         !! "vertex_ai"%string)
    by (vm_compute; reflexivity).
  destruct (C1_batched_call_never_runs_the_protected_call scenario.codec m (idle 0)
              "vertex_ai" "calculate_credit_score" "{}"
              (scenario.always (Raised scenario.unauthenticated))
              (scenario.always (Returned (VData "score"))) false 0 None 20
              scenario.world0) as (_ & _ & H).
  destruct (H Hlog Hbatcher) as [Hbatched Hdirect].
  split; [exact Hlog|]. split; [exact Hbatcher|]. split; [exact Hretry|].
  split; [exact Hbreaker|]. split; [exact Hbatched|].
  exact (Hdirect Hretry Hbreaker).
Defined.

End Gateway.

(** ** The batcher on the event loop *)

Section Batch.
Import batching batching.RequestBatcher.

Lemma py_max_l (x y : Q) : (y <= x)%Q -> Py.max x y = x.
Proof. intros H. unfold Py.max. now rewrite Qltb_ge. Qed.
Lemma py_max_r (x y : Q) : (x < y)%Q -> Py.max x y = y.
Proof. intros H. unfold Py.max. now rewrite Qltb_lt. Qed.

Lemma should_process_at (config : BatchConfig) (key : string) (queue : list BatchRequest)
    (timer : option nat) (active : Z) (log : list (list BatchRequest)) (clock : Q) :
  _should_process_batch (scenario.batcher_at config key queue timer active log) key clock
  = if max_concurrent_batches config <=? active then false
    else if max_batch_size config <=? Z.of_nat (length queue) then true
    else match strategy config, queue with
         | (TIME_BASED | HYBRID), first :: others =>
             Qle_bool (max_wait_time_seconds config)
               (clock - created_at (oldest first others))
         | _, _ => false
         end.
Proof.
  unfold _should_process_batch, scenario.batcher_at.
  cbn [pending_requests active_batches RequestBatcher.config].
  now rewrite !lookup_singleton_eq.
Qed.


Lemma sort_by_priority_equal (p : Z) (l : list BatchRequest) :
  Forall (fun r => priority r = p) l -> sort_by_priority l = l.
Proof.
  induction 1 as [|x xs Hx Hxs IH]; [reflexivity|].
  unfold sort_by_priority in *. cbn [foldr]. rewrite IH.
  destruct Hxs as [|y ys Hy Hys]; [reflexivity|].
  cbn [insert_by_priority]. rewrite Hx, Hy, Z.leb_refl. reflexivity.
Qed.

(** The first request ever submitted. *)
Lemma add_request_first (config : BatchConfig) (l : Loop) (s o : string)
    (d : Data) (p : Z) :
  let key := _get_batch_key s o in
  let r := scenario.request_of s o p (now l) (next_future l) d in
  let l1 := snd (new_future l) in
  add_request (init config) l s o d p
  = if _should_process_batch (scenario.batcher_at config key [r] None 0 []) key (now l)
    then (next_future l, scenario.batcher_at config key [r] None 0 [],
          snd (create_task l1 (ProcessBatch key)))
    else (next_future l, scenario.batcher_at config key [r] (Some (next_task l)) 0 [],
          snd (create_task l1 (BatchTimer key))).
Proof.
  intros key r l1. unfold add_request, init. fold key.
  cbn [new_future pending_requests batch_timers active_batches RequestBatcher.config
       dispatched now next_future next_task].
  rewrite !lookup_empty. cbn [default from_option id app].
  unfold r, l1, scenario.request_of, scenario.batcher_at, sort_by_priority.
  destruct (enable_priority_batching config);
    cbn [foldr insert_by_priority new_future snd]; rewrite !insert_empty;
    destruct (_should_process_batch _ key (now l)); reflexivity.
Qed.


(** A later request on the same queue, all priorities being equal. *)
Lemma add_request_next (config : BatchConfig) (l : Loop) (s o : string)
    (d : Data) (p : Z) (q : list BatchRequest) (timer : option nat) (a : Z)
    (log : list (list BatchRequest)) :
  Forall (fun r => priority r = p) q ->
  let key := _get_batch_key s o in
  let r := scenario.request_of s o p (now l) (next_future l) d in
  let l1 := snd (new_future l) in
  add_request (scenario.batcher_at config key q timer a log) l s o d p
  = if _should_process_batch (scenario.batcher_at config key (q ++ [r]) timer a log)
         key (now l)
    then (next_future l, scenario.batcher_at config key (q ++ [r]) None a log,
          snd (create_task
                 match timer with Some t => cancel l1 t | None => l1 end
                 (ProcessBatch key)))
    else match timer with
         | Some t => (next_future l, scenario.batcher_at config key (q ++ [r]) (Some t) a log, l1)
         | None =>
             (next_future l,
              scenario.batcher_at config key (q ++ [r]) (Some (next_task l)) a log,
              snd (create_task l1 (BatchTimer key)))
         end.
Proof.
  intros Hq key r l1.
  assert (Hsort : sort_by_priority (q ++ [r]) = q ++ [r]).
  { apply (sort_by_priority_equal p). apply Forall_app. split; [assumption|].
    now constructor. }
  unfold add_request, scenario.batcher_at. fold key.
  cbn [new_future pending_requests batch_timers active_batches RequestBatcher.config
       dispatched now next_future next_task].
  rewrite !lookup_singleton_eq. cbn [default from_option id].
  change {| request_id := _generate_request_id s o d (now l); service_name := s;
            operation := o; data := d; future := next_future l;
            created_at := now l; priority := p |} with r.
  replace (if enable_priority_batching config
           then sort_by_priority (q ++ [r]) else q ++ [r])
    with (q ++ [r])
    by (destruct (enable_priority_batching config); [now rewrite Hsort|reflexivity]).
  rewrite !insert_singleton_eq.
  destruct timer as [t|].
  - rewrite !lookup_singleton_eq, delete_singleton_eq.
    destruct (_should_process_batch _ key (now l)); reflexivity.
  - rewrite !lookup_empty.
    destruct (_should_process_batch _ key (now l)); reflexivity.
Qed.

Lemma process_batch_begin_at (config : BatchConfig) (key : string)
    (q : list BatchRequest) (timer : option nat) (a : Z)
    (log : list (list BatchRequest)) (l : Loop) (task : nat)
    (first : BatchRequest) (rest : list BatchRequest) :
  slice_to (max_batch_size config) q = first :: rest ->
  process_batch_begin (scenario.batcher_at config key q timer a log) l task key
  = (scenario.batcher_at config key (slice_from (max_batch_size config) q) timer (a + 1)
       (log ++ [first :: rest]),
     suspend l 0.1 task (ExecuteBatch key (first :: rest) [] (first :: rest))).
Proof.
  intros Hslice. unfold process_batch_begin, scenario.batcher_at.
  cbn [pending_requests batch_timers active_batches RequestBatcher.config dispatched].
  rewrite !lookup_singleton_eq. cbn [default from_option id].
  destruct q as [|x q].
  { exfalso. unfold slice_to in Hslice.
    destruct (0 <=? max_batch_size config); rewrite firstn_nil in Hslice;
      discriminate. }
  rewrite Hslice, !insert_singleton_eq. reflexivity.
Qed.

Lemma process_batch_begin_empty (config : BatchConfig) (key : string)
    (timer : option nat) (a : Z) (log : list (list BatchRequest)) (l : Loop)
    (task : nat) :
  process_batch_begin (scenario.batcher_at config key [] timer a log) l task key
  = (scenario.batcher_at config key [] timer a log, l).
Proof.
  unfold process_batch_begin, scenario.batcher_at. cbn [pending_requests].
  now rewrite lookup_singleton_eq.
Qed.

Lemma process_batch_finally_empty (config : BatchConfig) (key : string)
    (timer : option nat) (a : Z) (log : list (list BatchRequest)) (l : Loop) :
  process_batch_finally (scenario.batcher_at config key [] timer a log) l key
  = (scenario.batcher_at config key [] timer (a - 1) log, l).
Proof.
  unfold process_batch_finally, scenario.batcher_at.
  cbn [pending_requests batch_timers active_batches RequestBatcher.config dispatched].
  rewrite !lookup_singleton_eq. cbn [default from_option id].
  now rewrite insert_singleton_eq.
Qed.


Lemma run_turn (turns : nat) (b b' : RequestBatcher.t) (l l' : Loop) :
  turn b l = Some (b', l') -> run (S turns) b l = run turns b' l'.
Proof. intros H. cbn [run]. now rewrite H. Qed.

Lemma run_rest (turns : nat) (b : RequestBatcher.t) (l : Loop) :
  ready l = [] -> sleeping l = [] -> run turns b l = (true, b, l).
Proof.
  intros Hr Hs. destruct turns as [|turns]; cbn [run].
  - now rewrite Hr, Hs.
  - unfold turn. now rewrite Hr, Hs.
Qed.

End Batch.

Section BatchRun.
Import batching batching.RequestBatcher.

Local Opaque scenario.request_of RequestBatcher._get_batch_key
  Py.Qltb Py.max Qle_bool Qplus Qminus.
Local Arguments lookup : simpl never.
Local Arguments insert : simpl never.
Local Arguments delete : simpl never.
Local Arguments scenario.batcher_at : simpl never.

Lemma request_of_fields (s o : string) (p : Z) (start : Q) (fut : nat) (d : Data) :
  created_at (scenario.request_of s o p start fut d) = start
  /\ priority (scenario.request_of s o p start fut d) = p
  /\ future (scenario.request_of s o p start fut d) = fut
  /\ data (scenario.request_of s o p start fut d) = d.
Proof. repeat split. Qed.

Ltac fields :=
  repeat match goal with
  | |- context [created_at (scenario.request_of ?s ?o ?p ?t ?f ?d)] =>
      change (created_at (scenario.request_of s o p t f d)) with t
  | |- context [future (scenario.request_of ?s ?o ?p ?t ?f ?d)] =>
      change (future (scenario.request_of s o p t f d)) with f
  end.

Ltac q_cmp :=
  repeat match goal with
  | |- context [Py.max ?a ?b] =>
      first [ rewrite (py_max_l a b) by lra | rewrite (py_max_r a b) by lra ]
  | |- context [Py.Qltb ?a ?b] =>
      first [ rewrite (Qltb_lt a b) by lra | rewrite (Qltb_ge a b) by lra ]
  end.

Ltac equal_priorities := repeat constructor.

Ltac rewrite_step :=
  first
    [ rewrite add_request_first
    | rewrite add_request_next by equal_priorities
    | rewrite process_batch_begin_empty
    | erewrite process_batch_begin_at by reflexivity
    | rewrite process_batch_finally_empty
    | idtac ].

Ltac settle :=
  repeat (progress
            (simpl; fields; q_cmp; rewrite ?filter_nil;
             repeat match goal with
             | H : (_ <=? 0) = false |- _ => rewrite H
             | H : _ = match _ with SIZE_BASED => _ | _ => _ end |- _ => rewrite <- H
             end)).

Ltac turn_tac :=
  erewrite run_turn;
  [| unfold turn; simpl; rewrite_step;
     try rewrite should_process_at; settle; reflexivity ].

(** C9: five requests for one (service, operation), all with the same
    priority, are submitted together to a fresh batcher with
    [max_batch_size = 3] (and room for at least one batch at a time). Given
    enough turns the event loop comes to rest; exactly two groups were
    taken off the queue, the first three requests and then the last two, in
    submission order; the queue is left empty; and the future of every
    request holds the result that [_execute_batch] built for that very
    request within its group. *)
Theorem C9_five_requests_dispatch_as_three_and_two
    (config : BatchConfig) (service_name operation : string)
    (d1 d2 d3 d4 d5 : Data) (priority : Z) (start : Q) (turns : nat) :
  max_batch_size config = 3 ->
  1 <= max_concurrent_batches config ->
  (20 <= turns)%nat ->
  let submit d := Submit service_name operation d priority in
  let req := scenario.request_of service_name operation priority start in
  exists (b : RequestBatcher.t) (l : Loop),
    run turns (RequestBatcher.init config)
      (scenario.gather start [submit d1; submit d2; submit d3; submit d4; submit d5])
    = (true, b, l)
    /\ dispatched b
       = [[req 0%nat d1; req 1%nat d2; req 2%nat d3]; [req 3%nat d4; req 4%nat d5]]
    /\ pending_requests b !! _get_batch_key service_name operation = Some []
    /\ Forall
         (fun group =>
            Forall
              (fun r =>
                 exists processed_at : Q,
                   futures l !! future r
                   = Some (Returned (batch_result group r processed_at)))
              group)
         (dispatched b).
Proof.
  intros Hsize Hmc Hturns submit req.
  destruct config as [mbs mw st pb mc]. cbn in Hsize, Hmc. subst mbs.
  set (config := {| max_batch_size := 3; max_wait_time_seconds := mw;
                    strategy := st; enable_priority_batching := pb;
                    max_concurrent_batches := mc |}).
  assert (Hmc0 : (mc <=? 0) = false) by (apply Z.leb_gt; lia).
  do 20 (destruct turns as [|turns]; [lia|]). clear Hturns.
  unfold scenario.gather, submit. cbn [length seq combine]. clear submit.
  remember (match st with SIZE_BASED => false | _ => Qle_bool mw (start - start) end)
    as aged eqn:Haged.
  destruct aged.
  - do 20 turn_tac.
    eexists _, _. split; [apply run_rest; reflexivity|].
    split; [reflexivity|]. split.
    { unfold scenario.batcher_at. cbn [pending_requests]. apply lookup_singleton_eq. }
    unfold set_result. cbn [futures dispatched scenario.batcher_at].
    repeat constructor; eexists; fields; simplify_map_eq; reflexivity.
  - do 18 turn_tac.
    eexists _, _. split; [apply run_rest; reflexivity|].
    split; [reflexivity|]. split.
    { unfold scenario.batcher_at. cbn [pending_requests]. apply lookup_singleton_eq. }
    unfold set_result. cbn [futures dispatched scenario.batcher_at].
    repeat constructor; eexists; fields; simplify_map_eq; reflexivity.
Qed.

Lemma C9_five_requests_dispatch_as_three_and_two_witness :
  max_batch_size scenario.batches_of_three = 3
  /\ 1 <= max_concurrent_batches scenario.batches_of_three
  /\ (20 <= 30)%nat
  /\ exists (b : RequestBatcher.t) (l : Loop),
       run 30 (RequestBatcher.init scenario.batches_of_three)
         (scenario.gather 0
            (map (fun d => Submit "vertex_ai" "credit_scoring" d 0)
               ["a"; "b"; "c"; "d"; "e"]%string))
       = (true, b, l)
       /\ map (map data) (dispatched b) = [["a"; "b"; "c"]; ["d"; "e"]]%string.
Proof.
  split; [reflexivity|]. split; [cbn; lia|]. split; [lia|].
  destruct (C9_five_requests_dispatch_as_three_and_two scenario.batches_of_three
              "vertex_ai" "credit_scoring" "a" "b" "c" "d" "e" 0 0 30)
    as (b & l & Hrun & Hlog & _).
  - reflexivity.
  - cbn; lia.
  - lia.
  - exists b, l. split; [exact Hrun|]. now rewrite Hlog.
Defined.

End BatchRun.

(** * Further properties of the code *)

(** ** The retry loop *)

Section RetryLoopMore.

Import error_handlers error_handlers.ADKErrorClassifier error_handlers.RetryHandler.



Lemma _calculate_delay_world (config : RetryConfig) (attempt : Z) (error : Exception)
    (w : World) :
  invocations (snd (_calculate_delay config attempt error w)) = invocations w
  /\ sleeps (snd (_calculate_delay config attempt error w)) = sleeps w
  /\ clock (snd (_calculate_delay config attempt error w)) = clock w.
Proof.
  unfold _calculate_delay. destruct (Py.if_truthy _); [auto|].
  destruct (strategy_delay config attempt); [auto|].
  destruct (jitter config); simpl; auto.
Qed.

Lemma attempts_bounded (config : RetryConfig) (func : Operation)
    (service_name operation : string) (todo : nat) :
  forall (attempt : Z) (last_error : option Exception) (w w' : World)
         (out : Outcome) (u : unit),
    attempt + Z.of_nat todo = max_attempts config ->
    attempts config (ADKErrorHandler.plain func) service_name operation
      todo attempt last_error tt w = (out, u, w') ->
    (invocations w' <= invocations w + todo)%nat
    /\ (length (sleeps w') <= length (sleeps w) + (todo - 1))%nat.
Proof.
  induction todo as [|todo IH]; intros attempt last_error w w' out u Hleft;
    cbn [attempts].
  - intros H. inversion H. lia.
  - unfold ADKErrorHandler.plain at 1.
    destruct (invoke func w) as [out1 w1] eqn:Hinv.
    assert (Hw1 : invocations w1 = S (invocations w) /\ sleeps w1 = sleeps w).
    { unfold invoke in Hinv. destruct (func (invocations w)). inversion Hinv. auto. }
    destruct Hw1 as [Hi Hs].
    assert (Hstop : forall e, exhausted config service_name operation e tt w1
                              = (out, u, w') ->
                    (invocations w' <= invocations w + S todo)%nat
                    /\ (length (sleeps w') <= length (sleeps w) + (S todo - 1))%nat).
    { intros e H. inversion H; subst. rewrite Hi, Hs. lia. }
    destruct out1 as [result|error].
    { intros H. inversion H; subst. rewrite Hi, Hs. lia. }
    destruct (attempt =? max_attempts config - 1) eqn:Hlast; [apply Hstop|].
    apply Z.eqb_neq in Hlast.
    destruct (negb _); [apply Hstop|].
    destruct (_calculate_delay config attempt error w1) as [[raised|delay] w2] eqn:Hd;
      pose proof (_calculate_delay_world config attempt error w1) as Hw2;
      rewrite Hd in Hw2; simpl in Hw2; destruct Hw2 as (Hi2 & Hs2 & _).
    + intros H. inversion H; subst. rewrite Hi2, Hs2, Hi, Hs. lia.
    + intros H. apply IH in H; [|lia]. simpl in H.
      rewrite length_app, Hi2, Hs2, Hi, Hs in H. simpl in H.
      destruct H as [H1 H2]. split; [lia|]. destruct todo; simpl in *; lia.
Qed.

(** X2: the retry loop runs the operation at most [max_attempts] times and
    sleeps at most [max_attempts - 1] times (not at all when
    [max_attempts] is below one). *)
Theorem retry_loop_is_bounded (config : RetryConfig) (func : Operation)
    (service_name operation : string) (w : World) :
  let w' := snd (execute_with_retry config (ADKErrorHandler.plain func)
                   service_name operation tt w) in
  (invocations w' <= invocations w + Z.to_nat (max_attempts config))%nat
  /\ (length (sleeps w')
      <= length (sleeps w) + (Z.to_nat (max_attempts config) - 1))%nat.
Proof.
  intros w'. subst w'. unfold execute_with_retry.
  destruct (Z_le_gt_dec (max_attempts config) 0) as [Hnone|Hsome].
  - replace (Z.to_nat (max_attempts config)) with 0%nat by lia. simpl. lia.
  - destruct (attempts _ _ _ _ _ _ _ _ _) as [[out u] w'] eqn:H.
    destruct u. apply attempts_bounded in H; [exact H|lia].
Qed.

(** X3: with [max_attempts] at zero or below the callable is never called: the
    loop raises [RetryExhaustedError] with no original error, leaving state
    and world untouched. *)
Theorem retry_loop_without_attempts {S : Type} (config : RetryConfig)
    (func : Callable S) (service_name operation : string) (s : S) (w : World) :
  max_attempts config <= 0 ->
  execute_with_retry config func service_name operation s w
  = (Raised (RetryExhaustedError (max_attempts config) service_name operation None),
     s, w).
Proof.
  intros H. unfold execute_with_retry.
  replace (Z.to_nat (max_attempts config)) with 0%nat by lia. reflexivity.
Qed.

Lemma retry_loop_without_attempts_witness :
  max_attempts
    {| max_attempts := 0; base_delay := 1; max_delay := 60; backoff_factor := 2;
       jitter := true; strategy := EXPONENTIAL_BACKOFF;
       retryable_errors := default_retryable |} <= 0
  /\ invocations
       (snd (execute_with_retry
               {| max_attempts := 0; base_delay := 1; max_delay := 60;
                  backoff_factor := 2; jitter := true;
                  strategy := EXPONENTIAL_BACKOFF;
                  retryable_errors := default_retryable |}
               (ADKErrorHandler.plain (scenario.always (Returned (VData "ok"))))
               "storage" "upload" tt scenario.world0)) = 0%nat.
Proof.
  split; [simpl; lia|].
  rewrite (retry_loop_without_attempts
             {| max_attempts := 0; base_delay := 1; max_delay := 60;
                backoff_factor := 2; jitter := true;
                strategy := EXPONENTIAL_BACKOFF;
                retryable_errors := default_retryable |}
             (ADKErrorHandler.plain (scenario.always (Returned (VData "ok"))))
             "storage" "upload" tt scenario.world0); [reflexivity|simpl; lia].
Defined.







(** X6: no exception is ever classified as [QUOTA_EXCEEDED]: a
    [ResourceExhausted] is a [TooManyRequests], which is tested first, so
    it is classified as [RATE_LIMIT] and retried under the default
    configuration. *)
Theorem classify_error_never_quota_exceeded (error : Exception) :
  classify_error error <> QUOTA_EXCEEDED
  /\ forall (message : string) (response : option Response),
       classify_error (Fault ResourceExhausted message response) = RATE_LIMIT
       /\ is_retryable (classify_error (Fault ResourceExhausted message response))
            DEFAULT_RETRY_CONFIG = true.
Proof.
  split.
  - destruct error as [cls message response| |]; [destruct cls|..]; discriminate.
  - intros message response. split; reflexivity.
Qed.

End RetryLoopMore.

(** ** The facade and the breaker *)

Section FacadeMore.

Import error_handlers error_handlers.ADKErrorClassifier.

(** X7: for a configured service the facade books every failure of
    [execute_with_protection] under "unknown", whatever fault the
    operation raised, and books nothing on success: the counters of the
    other error types and of the other services never move. *)
Theorem facade_counts_every_failure_as_unknown (h : ADKErrorHandler.t)
    (service_name operation : string) (func : Operation) (w : World)
    (retry_config : RetryConfig) :
  ADKErrorHandler.retry_configs h !! service_name = Some retry_config ->
  let per_service :=
    default ADKErrorHandler.zero_stats (ADKErrorHandler.error_stats h !! service_name) in
  let '(out, h', _) :=
    ADKErrorHandler.execute_with_protection h service_name operation func w in
  ADKErrorHandler.error_stats h'
  = match out with
    | Returned _ => ADKErrorHandler.error_stats h
    | Raised _ =>
        <[service_name :=
            <["unknown"%string := default 0 (per_service !! "unknown"%string) + 1]>
              per_service]> (ADKErrorHandler.error_stats h)
    end.
Proof.
  intros Hcfg per_service.
  pose proof (execute_with_protection_outcome h service_name operation func w) as Hout.
  unfold ADKErrorHandler.execute_with_protection in *. rewrite Hcfg in *.
  destruct (ADKErrorHandler.circuit_breakers h !! service_name) as [cb|].
  - destruct (RetryHandler.execute_with_retry _ _ service_name operation cb w)
      as [[out cb'] w'].
    destruct out as [v|e]; [reflexivity|]. simpl in Hout.
    destruct e as [cls message response| |]; [destruct cls| |];
      try contradiction; reflexivity.
  - destruct (RetryHandler.execute_with_retry _ _ service_name operation tt w)
      as [[out u] w'].
    destruct out as [v|e]; [reflexivity|]. simpl in Hout.
    destruct e as [cls message response| |]; [destruct cls| |];
      try contradiction; reflexivity.
Qed.

Lemma facade_counts_every_failure_as_unknown_witness :
  ADKErrorHandler.retry_configs scenario.handler0 !! "storage"%string
  = Some (RetryConfig_of 3 0.5 10 [NETWORK; TIMEOUT; SERVICE_UNAVAILABLE])
  /\ ADKErrorHandler.error_stats
       (snd (fst (ADKErrorHandler.execute_with_protection scenario.handler0
                    "storage" "upload" (scenario.always (Returned (VData "ok")))
                    scenario.world0)))
     = ADKErrorHandler.error_stats scenario.handler0.
Proof.
  split; [reflexivity|].
  pose proof (facade_counts_every_failure_as_unknown scenario.handler0
                "storage" "upload" (scenario.always (Returned (VData "ok")))
                scenario.world0 _ eq_refl) as H.
  destruct (ADKErrorHandler.execute_with_protection _ _ _ _ _) as [[out h'] w'] eqn:E.
  assert (Hout : out = Returned (VData "ok")).
  { apply (f_equal (fun r => fst (fst r))) in E. vm_compute in E. congruence. }
  subst out. exact H.
Defined.

End FacadeMore.

Section BreakerMore.

Import error_handlers error_handlers.CircuitBreaker.

Lemma call_half_open_spent (cb : CircuitBreaker.t) (func : Operation) (w : World) :
  state (status cb) = HALF_OPEN ->
  half_open_max_calls (config cb) <= half_open_calls (status cb) ->
  call cb func w
  = (Raised (CircuitBreakerOpenError HalfOpenLimit (service_name cb)), cb, w).
Proof.
  intros Hst Hspent. unfold call, _check_state. rewrite Hst. cbn zeta. rewrite Hst.
  replace (half_open_max_calls (config cb) <=? half_open_calls (status cb)) with true
    by (symmetry; apply Z.leb_le; lia).
  reflexivity.
Qed.

(** X8: a half-open breaker that has let through [half_open_max_calls] probes
    refuses every further call without running the operation, and stays as
    it is however much time passes between the calls. *)
Theorem half_open_budget_spent_refuses_for_good (cb : CircuitBreaker.t)
    (func : Operation) (gaps : list Q) (w : World) :
  state (status cb) = HALF_OPEN ->
  half_open_max_calls (config cb) <= half_open_calls (status cb) ->
  scenario.calls cb func gaps w
  = (repeat (Raised (CircuitBreakerOpenError HalfOpenLimit (service_name cb)))
       (length gaps),
     cb, scenario.waited gaps w).
Proof.
  intros Hst Hspent. revert w.
  induction gaps as [|gap rest IH]; intros w; [reflexivity|].
  cbn [scenario.calls].
  rewrite (call_half_open_spent cb func (elapse gap w) Hst Hspent).
  rewrite (IH (elapse gap w)). reflexivity.
Qed.

Lemma half_open_budget_spent_refuses_for_good_witness :
  let cb :=
    {| service_name := "vision_api";
       config := {| failure_threshold := 5; recovery_timeout := 60;
                    success_threshold := 3; half_open_max_calls := 2 |};
       status := {| state := HALF_OPEN; failure_count := 5; success_count := 2;
                    last_failure_time := Some 0%Q; next_attempt_time := Some 60%Q;
                    half_open_calls := 2 |} |} in
  state (status cb) = HALF_OPEN
  /\ half_open_max_calls (config cb) <= half_open_calls (status cb)
  /\ scenario.calls cb (scenario.always (Returned (VData "ok"))) [100; 1000]%Q
       scenario.world0
     = ([Raised (CircuitBreakerOpenError HalfOpenLimit "vision_api");
         Raised (CircuitBreakerOpenError HalfOpenLimit "vision_api")],
        cb, scenario.waited [100; 1000]%Q scenario.world0).
Proof.
  intros cb. split; [reflexivity|]. split; [simpl; lia|].
  apply (half_open_budget_spent_refuses_for_good cb
           (scenario.always (Returned (VData "ok"))) [100; 1000]%Q scenario.world0);
    [reflexivity|simpl; lia].
Defined.

(** X9: resetting the breaker of a service makes it closed with fresh counters,
    so that the next call runs the operation whatever state the breaker was
    in; for a service without a breaker the reset answers [False] and
    changes nothing. *)
Theorem reset_circuit_breaker_reopens_the_service (h : ADKErrorHandler.t)
    (service_name : string) (func : Operation) (w : World) :
  match ADKErrorHandler.circuit_breakers h !! service_name with
  | None => ADKErrorHandler.reset_circuit_breaker h service_name = (false, h)
  | Some _ =>
      exists cb : CircuitBreaker.t,
        fst (ADKErrorHandler.reset_circuit_breaker h service_name) = true
        /\ ADKErrorHandler.circuit_breakers
             (snd (ADKErrorHandler.reset_circuit_breaker h service_name)) !! service_name
           = Some cb
        /\ status cb = fresh_status
        /\ invocations (snd (call cb func w)) = S (invocations w)
  end.
Proof.
  unfold ADKErrorHandler.reset_circuit_breaker.
  destruct (ADKErrorHandler.circuit_breakers h !! service_name) as [breaker|];
    [|reflexivity].
  exists (with_status breaker fresh_status). split; [reflexivity|].
  split; [apply (lookup_insert_eq (ADKErrorHandler.circuit_breakers h))|].
  split; [reflexivity|].
  unfold call, _check_state. simpl. unfold run_guarded.
  destruct (invoke func w) as [[v|e] w'] eqn:Hinv; simpl;
    now apply invoke_invocations in Hinv.
Qed.

End BreakerMore.

(** ** The monitor and its request tracker *)

Section MonitorMore.

Import monitoring monitoring.ADKMonitor.

(** The statistics after [record_request_completion]: those of the
    request's own service and operation are updated, all others kept. *)
Lemma record_request_completion_stats (m : ADKMonitor.t)
    (request_id service_name operation : string) (ok : bool) (response_time : Q)
    (err : option Exception) (now : Q) (s o : string) :
  stats_of (record_request_completion m request_id service_name operation ok
              response_time err now) s o
  = if decide ((s, o) = (service_name, operation)) then
      let stats := stats_of m service_name operation in
      if ok then
        {| total_requests := total_requests stats + 1;
           successful_requests := successful_requests stats + 1;
           failed_requests := failed_requests stats;
           total_response_time := (total_response_time stats + response_time)%Q;
           min_response_time := float_min (min_response_time stats) response_time;
           max_response_time := Py.max (max_response_time stats) response_time;
           rate_limit_hits := rate_limit_hits stats;
           circuit_breaker_trips := circuit_breaker_trips stats;
           last_request_time := Some now |}
      else
        {| total_requests := total_requests stats + 1;
           successful_requests := successful_requests stats;
           failed_requests := failed_requests stats + 1;
           total_response_time := total_response_time stats;
           min_response_time := min_response_time stats;
           max_response_time := max_response_time stats;
           rate_limit_hits := rate_limit_hits stats;
           circuit_breaker_trips := circuit_breaker_trips stats;
           last_request_time := Some now |}
    else stats_of m s o.
Proof.
  unfold record_request_completion. rewrite _check_alerts_stats.
  assert (Hmetrics : forall m0 : ADKMonitor.t,
             stats_of (if ok then m0
                       else _record_metric m0 service_name operation ERROR_COUNT 1 now)
               s o = stats_of m0 s o) by (intros m0; now destruct ok).
  rewrite Hmetrics, !_record_metric_stats.
  destruct (decide ((s, o) = (service_name, operation))) as [E|E].
  - inversion E; subst. rewrite stats_of_with_stats. reflexivity.
  - rewrite stats_of_with_stats_other by exact E. reflexivity.
Qed.

(** X10: recording a completed request, successful or not, keeps the count of
    requests equal to successes plus failures for every service and
    operation; a fresh monitor starts that way. *)
Theorem record_request_completion_keeps_counts_balanced (m : ADKMonitor.t)
    (request_id service_name operation : string) (ok : bool) (response_time : Q)
    (err : option Exception) (now : Q) :
  invariants.balanced m ->
  invariants.balanced
    (record_request_completion m request_id service_name operation ok
       response_time err now).
Proof.
  intros Hm s o. rewrite record_request_completion_stats.
  destruct (decide _) as [E|E]; [|apply Hm].
  specialize (Hm service_name operation). destruct ok; simpl; lia.
Qed.

Lemma record_request_completion_keeps_counts_balanced_witness :
  invariants.balanced ADKMonitor.init
  /\ invariants.balanced
       (record_request_completion ADKMonitor.init "r1" "vertex_ai" "optimize_portfolio"
          true 0.05 None 1).
Proof.
  assert (H : invariants.balanced ADKMonitor.init).
  { intros s o. unfold stats_of, ADKMonitor.init. cbn [performance_stats].
    rewrite lookup_empty. cbn [default from_option]. rewrite lookup_empty. reflexivity. }
  split; [exact H|].
  now apply record_request_completion_keeps_counts_balanced.
Defined.

(** X11: after a successful request is recorded, its response time lies between
    the minimum and the maximum of its statistics, the minimum has not
    grown, the maximum has not shrunk, and the total has grown by exactly
    the response time. *)
Theorem successful_request_is_within_min_and_max (m : ADKMonitor.t)
    (request_id service_name operation : string) (response_time : Q)
    (err : option Exception) (now : Q) :
  let before := stats_of m service_name operation in
  let after :=
    stats_of (record_request_completion m request_id service_name operation true
                response_time err now) service_name operation in
  invariants.float_le (min_response_time after) response_time
  /\ (response_time <= max_response_time after)%Q
  /\ (forall q : Q, min_response_time before = Finite q ->
        invariants.float_le (min_response_time after) q)
  /\ (max_response_time before <= max_response_time after)%Q
  /\ total_response_time after = (total_response_time before + response_time)%Q
  /\ successful_requests after = successful_requests before + 1.
Proof.
  intros before after. unfold after. rewrite record_request_completion_stats.
  rewrite decide_True by reflexivity. simpl. fold before.
  assert (Hmax : forall a b : Q, (a <= Py.max a b)%Q /\ (b <= Py.max a b)%Q).
  { intros a b. rewrite py_max_Qmax. split; [apply Q.le_max_l|apply Q.le_max_r]. }
  assert (Hmin : forall a b : Q, (Py.min a b <= a)%Q /\ (Py.min a b <= b)%Q).
  { intros a b. rewrite py_min_Qmin. split; [apply Q.le_min_l|apply Q.le_min_r]. }
  split.
  { destruct (min_response_time before); simpl; [apply Hmin|lra]. }
  split; [apply Hmax|]. split.
  { intros q Hq. rewrite Hq. simpl. apply Hmin. }
  split; [apply Hmax|]. split; reflexivity.
Qed.

(** X12: checking the alert thresholds changes no statistics and no recorded
    metric; all it can do is call the alert callbacks. *)
Theorem _check_alerts_only_raises_alerts (m : ADKMonitor.t)
    (service_name operation : string) :
  (forall s o : string,
      stats_of (_check_alerts m service_name operation) s o = stats_of m s o)
  /\ metrics_history (_check_alerts m service_name operation) = metrics_history m
  /\ request_tracker (_check_alerts m service_name operation) = request_tracker m
  /\ alert_thresholds (_check_alerts m service_name operation) = alert_thresholds m
  /\ exists fired : list Alert,
       alerts (_check_alerts m service_name operation) = alerts m ++ fired
       /\ Forall (fun a => alert_service_name a = service_name) fired.
Proof.
  split; [intros s o; apply _check_alerts_stats|].
  unfold _check_alerts.
  destruct (alert_thresholds m !! service_name) as [thresholds|].
  2:{ repeat split. exists []. split; [now rewrite app_nil_r|constructor]. }
  assert (Hone : forall metric observed exceeds (m0 : ADKMonitor.t),
             metrics_history (check_one thresholds service_name metric observed exceeds m0)
             = metrics_history m0
             /\ request_tracker (check_one thresholds service_name metric observed exceeds m0)
                = request_tracker m0
             /\ alert_thresholds (check_one thresholds service_name metric observed exceeds m0)
                = alert_thresholds m0
             /\ exists fired : list Alert,
                  alerts (check_one thresholds service_name metric observed exceeds m0)
                  = alerts m0 ++ fired
                  /\ Forall (fun a => alert_service_name a = service_name) fired).
  { intros metric observed exceeds m0. unfold check_one.
    destruct (thresholds !! metric_type_value metric) as [limit|].
    - destruct (exceeds observed limit); simpl.
      + repeat split. eexists. split; [reflexivity|]. now repeat constructor.
      + repeat split. exists []. split; [now rewrite app_nil_r|constructor].
    - repeat split. exists []. split; [now rewrite app_nil_r|constructor]. }
  set (m1 := with_stats m service_name operation (stats_of m service_name operation)).
  set (s1 := stats_of m service_name operation).
  destruct (Hone ERROR_COUNT (error_rate s1) (fun v limit => Py.Qltb limit v) m1)
    as (Ha1 & Hb1 & Hc1 & f1 & Hd1 & He1).
  set (m2 := check_one thresholds service_name ERROR_COUNT (error_rate s1) _ m1) in *.
  destruct (Hone RESPONSE_TIME (average_response_time s1)
              (fun v limit => Py.Qltb limit v) m2)
    as (Ha2 & Hb2 & Hc2 & f2 & Hd2 & He2).
  set (m3 := check_one thresholds service_name RESPONSE_TIME _ _ m2) in *.
  destruct (Hone SUCCESS_RATE (success_rate s1) (fun v limit => Py.Qltb v limit) m3)
    as (Ha3 & Hb3 & Hc3 & f3 & Hd3 & He3).
  split; [now rewrite Ha3, Ha2, Ha1|].
  split; [now rewrite Hb3, Hb2, Hb1|].
  split; [now rewrite Hc3, Hc2, Hc1|].
  exists (f1 ++ f2 ++ f3). split.
  - rewrite Hd3, Hd2, Hd1. unfold m1. simpl. now rewrite <- !app_assoc.
  - now repeat (apply Forall_app; split).
Qed.

Lemma deque_append_last (maxlen : nat) (d : list RequestTracker.RequestInfo)
    (x : RequestTracker.RequestInfo) :
  (1 <= maxlen)%nat ->
  RequestTracker.deque_append maxlen d x
  = skipn (length d + 1 - maxlen) d ++ [x]
  /\ (length (RequestTracker.deque_append maxlen d x) <= Nat.max maxlen (length d))%nat.
Proof.
  intros Hmax. unfold RequestTracker.deque_append.
  rewrite length_app. simpl length.
  rewrite skipn_app.
  replace (length d + 1 - maxlen - length d)%nat with 0%nat by lia.
  split; [reflexivity|]. simpl. rewrite length_app, length_skipn. simpl. lia.
Qed.

(** X13: a request that is started and then completed under the identifier that
    [start_request] returned is the newest entry of the history, marked as
    completed with the reported outcome; the entries before it are the
    newest of the old history, in their order, and a history that was
    within its bound stays within it. *)
Theorem tracker_completes_the_request_it_started (tr : RequestTracker.t)
    (service_name operation stamp : string) (ok : bool) (err : option Exception)
    (started finished : Q) :
  (1 <= RequestTracker.max_history tr)%nat ->
  (length (RequestTracker.request_history tr) <= RequestTracker.max_history tr)%nat ->
  let '(request_id, tr1) :=
    RequestTracker.start_request tr service_name operation stamp started in
  let tr2 := RequestTracker.complete_request tr1 request_id ok err finished in
  (length (RequestTracker.request_history tr2) <= RequestTracker.max_history tr)%nat
  /\ exists (dropped older : list RequestTracker.RequestInfo)
            (info : RequestTracker.RequestInfo),
       RequestTracker.request_history tr = dropped ++ older
       /\ RequestTracker.request_history tr2 = older ++ [info]
       /\ RequestTracker.request_id info = request_id
       /\ RequestTracker.completed info = true
       /\ RequestTracker.success info = Some ok
       /\ RequestTracker.start_time info = started
       /\ RequestTracker.end_time info = Some finished.
Proof.
  intros Hmax Hlen. unfold RequestTracker.start_request, RequestTracker.complete_request.
  cbn [RequestTracker.request_history RequestTracker.max_history].
  set (id := (service_name +:+ "_" +:+ operation +:+ "_" +:+ stamp)%string).
  set (info := {| RequestTracker.request_id := id |}).
  destruct (deque_append_last (RequestTracker.max_history tr)
              (RequestTracker.request_history tr) info Hmax) as [Happ Hbound].
  rewrite Happ.
  set (k := (length (RequestTracker.request_history tr) + 1
             - RequestTracker.max_history tr)%nat) in *.
  rewrite rev_app_distr. cbn [rev app RequestTracker.complete_first].
  change (RequestTracker.request_id info) with id. rewrite String.eqb_refl.
  cbn [rev]. rewrite rev_involutive. split.
  - rewrite length_app, length_skipn. simpl. lia.
  - exists (firstn k (RequestTracker.request_history tr)),
      (skipn k (RequestTracker.request_history tr)).
    eexists. split; [now rewrite firstn_skipn|]. split; [reflexivity|].
    simpl. repeat split.
Qed.

Lemma tracker_completes_the_request_it_started_witness :
  (1 <= RequestTracker.max_history RequestTracker.init)%nat
  /\ (length (RequestTracker.request_history RequestTracker.init)
      <= RequestTracker.max_history RequestTracker.init)%nat
  /\ exists (dropped older : list RequestTracker.RequestInfo)
            (info : RequestTracker.RequestInfo),
       RequestTracker.request_history RequestTracker.init = dropped ++ older
       /\ RequestTracker.request_history
            (RequestTracker.complete_request
               (snd (RequestTracker.start_request RequestTracker.init "vertex_ai"
                       "optimize_portfolio" "1700000000000000" 5))
               "vertex_ai_optimize_portfolio_1700000000000000" false None 6)
          = older ++ [info]
       /\ RequestTracker.success info = Some false
       /\ RequestTracker.end_time info = Some 6%Q.
Proof.
  split; [simpl; lia|]. split; [simpl; lia|].
  destruct (tracker_completes_the_request_it_started RequestTracker.init
              "vertex_ai" "optimize_portfolio" "1700000000000000" false None 5 6)
    as [_ (dropped & older & info & H0 & H1 & _ & _ & H2 & _ & H3)];
    [simpl; lia|simpl; lia|].
  exists dropped, older, info. repeat split; assumption.
Defined.

End MonitorMore.

(** ** The cache *)

Section CacheMore.

Import caching caching.IntelligentCache.
Import invariants.

Lemma lookup_assign_same (k : string) (e : CacheEntry.t) (d : OrderedDict.t) :
  OrderedDict.lookup k (OrderedDict.assign k e d) = Some e.
Proof.
  induction d as [|[k' e'] d IH]; simpl.
  - now rewrite String.eqb_refl.
  - destruct (String.eqb k' k) eqn:E; simpl; now rewrite E.
Qed.

Lemma remove_assign_same (k : string) (e : CacheEntry.t) (d : OrderedDict.t) :
  OrderedDict.remove k (OrderedDict.assign k e d) = OrderedDict.remove k d.
Proof.
  induction d as [|[k' e'] d IH]; simpl.
  - now rewrite String.eqb_refl.
  - destruct (String.eqb k' k) eqn:E; simpl; rewrite E; [reflexivity|now rewrite IH].
Qed.

Lemma assign_absent (k : string) (e : CacheEntry.t) (d : OrderedDict.t) :
  OrderedDict.lookup k d = None -> OrderedDict.assign k e d = d ++ [(k, e)].
Proof.
  induction d as [|[k' e'] d IH]; simpl; [reflexivity|].
  destruct (String.eqb k' k); [discriminate|]. intros H. now rewrite IH.
Qed.

Lemma lookup_remove_absent (k k' : string) (d : OrderedDict.t) :
  OrderedDict.lookup k d = None -> OrderedDict.lookup k (OrderedDict.remove k' d) = None.
Proof.
  induction d as [|[k0 e0] d IH]; simpl; [reflexivity|].
  destruct (String.eqb k0 k) eqn:E; [discriminate|]. intros H.
  destruct (String.eqb k0 k'); [exact H|]. simpl. rewrite E. now apply IH.
Qed.

Lemma total_size_app (d d' : OrderedDict.t) :
  total_size (d ++ d') = total_size d + total_size d'.
Proof. induction d as [|kv d IH]; simpl; [reflexivity|]. rewrite IH. lia. Qed.

Lemma total_size_remove (k : string) (d : OrderedDict.t) (e : CacheEntry.t) :
  OrderedDict.lookup k d = Some e ->
  total_size (OrderedDict.remove k d) = total_size d - CacheEntry.size_bytes e.
Proof.
  induction d as [|[k' e'] d IH]; simpl; [discriminate|].
  destruct (String.eqb k' k).
  - intros H. inversion H; subst. lia.
  - intros H. simpl. rewrite (IH H). lia.
Qed.

Lemma total_size_assign_same (k : string) (e e0 : CacheEntry.t) (d : OrderedDict.t) :
  OrderedDict.lookup k d = Some e0 ->
  total_size (OrderedDict.assign k e d)
  = total_size d - CacheEntry.size_bytes e0 + CacheEntry.size_bytes e
  /\ length (OrderedDict.assign k e d) = length d.
Proof.
  induction d as [|[k' e'] d IH]; simpl; [discriminate|].
  destruct (String.eqb k' k).
  - intros H. inversion H; subst. simpl. split; [lia|reflexivity].
  - intros H. simpl. destruct (IH H) as [-> ->]. split; [lia|reflexivity].
Qed.

(** Dropping an entry with its bookkeeping keeps the counters right. *)
Lemma accounted_remove (c : IntelligentCache.t) (k : string) (e : CacheEntry.t) :
  accounted c ->
  OrderedDict.lookup k (cache c) = Some e ->
  accounted {| config := config c; cache := OrderedDict.remove k (cache c);
               cache_stats := evicted (cache_stats c) e |}.
Proof.
  intros [Hsize Hcount] Hlook. split; simpl.
  - rewrite (total_size_remove _ _ _ Hlook). lia.
  - pose proof (length_remove _ _ _ Hlook). lia.
Qed.

Lemma evict_while_accounted (rounds : nat) (required : Z) (now : Q) (k : string) :
  forall c : IntelligentCache.t,
    accounted c ->
    OrderedDict.lookup k (cache c) = None ->
    let c' := evict_while rounds required now c in
    accounted c' /\ OrderedDict.lookup k (cache c') = None /\ config c' = config c.
Proof.
  induction rounds as [|rounds IH]; intros c Hacc Hk; simpl; [auto|].
  destruct (Py.Qltb _ _); [|auto].
  destruct (key_to_remove c now) as [k'|]; [|auto].
  destruct (OrderedDict.lookup k' (cache c)) as [entry|] eqn:Hlook; [|auto].
  destruct (IH {| config := config c; cache := OrderedDict.remove k' (cache c);
                  cache_stats := evicted (cache_stats c) entry |}) as (H1 & H2 & H3).
  { now apply accounted_remove. }
  { simpl. now apply lookup_remove_absent. }
  auto.
Qed.

(** The read that follows a store of the same request, within the TTL. *)
Lemma get_after_set (codec : Codec) (c c' : IntelligentCache.t)
    (service_name operation : string) (data : Data) (result : Value)
    (ttl : option Q) (ctx : option Data) (md : option Metadata) (stored_at now : Q) :
  IntelligentCache.set codec c service_name operation data result ttl ctx md stored_at
  = (true, c') ->
  (now - stored_at <= Py.or_else ttl (default_ttl_seconds (config c)))%Q ->
  exists c'' : IntelligentCache.t,
    IntelligentCache.get codec c' service_name operation data ctx now
    = (Some result, c'')
    /\ hits (cache_stats c'') = hits (cache_stats c') + 1
    /\ misses (cache_stats c'') = misses (cache_stats c').
Proof.
  unfold IntelligentCache.set.
  destruct (if enable_compression (config c) then _ else _) as [size|]; [|discriminate].
  destruct (Py.Qltb _ _); [discriminate|].
  intros H Hage. inversion H; subst; clear H.
  unfold IntelligentCache.get. cbn [cache config cache_stats].
  rewrite lookup_assign_same.
  unfold CacheEntry.is_expired. cbn [CacheEntry.ttl_seconds CacheEntry.created_at].
  rewrite Qltb_ge by exact Hage.
  eexists. split; [reflexivity|]. simpl. auto.
Qed.

(** X14: a result that [set] has stored is what [get] returns for the same
    request as long as no more than the entry's TTL has passed: the TTL
    asked for, or the configured default when that is missing or zero. The
    read counts as a hit. *)
Theorem set_then_get_returns_the_result (codec : Codec) (c c' : IntelligentCache.t)
    (service_name operation : string) (data : Data) (result : Value)
    (ttl : option Q) (ctx : option Data) (md : option Metadata) (stored_at now : Q) :
  IntelligentCache.set codec c service_name operation data result ttl ctx md stored_at
  = (true, c') ->
  (now - stored_at <= Py.or_else ttl (default_ttl_seconds (config c)))%Q ->
  let '(hit, c'') := IntelligentCache.get codec c' service_name operation data ctx now in
  hit = Some result
  /\ hits (cache_stats c'') = hits (cache_stats c') + 1
  /\ misses (cache_stats c'') = misses (cache_stats c').
Proof.
  intros Hset Hage.
  destruct (get_after_set _ _ _ _ _ _ _ _ _ _ _ _ Hset Hage) as (c'' & -> & Hh & Hm).
  auto.
Qed.

Lemma set_then_get_returns_the_result_witness :
  let c := IntelligentCache.init default_config in
  let stored :=
    IntelligentCache.set scenario.codec c "vertex_ai" "credit_scoring" "{}"
      (VData "small") (Some 60%Q) None None 0 in
  fst stored = true
  /\ (60 - 0 <= Py.or_else (Some 60%Q) (default_ttl_seconds (config c)))%Q
  /\ fst (IntelligentCache.get scenario.codec (snd stored) "vertex_ai" "credit_scoring"
            "{}" None 60)
     = Some (VData "small").
Proof.
  intros c stored.
  assert (Hset : IntelligentCache.set scenario.codec c "vertex_ai" "credit_scoring" "{}"
                   (VData "small") (Some 60%Q) None None 0 = (true, snd stored))
    by (vm_compute; reflexivity).
  assert (Hage : (60 - 0 <= Py.or_else (Some 60%Q) (default_ttl_seconds (config c)))%Q)
    by (vm_compute; discriminate).
  split; [vm_compute; reflexivity|]. split; [exact Hage|].
  pose proof (set_then_get_returns_the_result scenario.codec c (snd stored)
                "vertex_ai" "credit_scoring" "{}" (VData "small") (Some 60%Q)
                None None 0 60 Hset Hage) as H.
  destruct (IntelligentCache.get scenario.codec (snd stored) "vertex_ai" "credit_scoring"
              "{}" None 60) as [hit c''].
  exact (proj1 H).
Defined.

(** X15: a read keeps the counters in agreement with the entries held, whether
    it hits, misses or drops an expired entry. *)
Theorem get_keeps_the_counters_right (codec : Codec) (c : IntelligentCache.t)
    (service_name operation : string) (data : Data) (ctx : option Data) (now : Q) :
  accounted c ->
  accounted (snd (IntelligentCache.get codec c service_name operation data ctx now)).
Proof.
  intros Hacc. unfold IntelligentCache.get.
  set (key := _generate_cache_key codec service_name operation data ctx).
  destruct (OrderedDict.lookup key (cache c)) as [entry|] eqn:Hlook; [|exact Hacc].
  destruct (CacheEntry.is_expired entry now).
  - exact (accounted_remove c key entry Hacc Hlook).
  - destruct Hacc as [Hsize Hcount].
    destruct (total_size_assign_same key (CacheEntry.touch entry now) entry (cache c) Hlook)
      as [Htotal Hlen].
    assert (Hmove : forall d, total_size (OrderedDict.move_to_end key d) = total_size d
                              /\ length (OrderedDict.move_to_end key d) = length d).
    { intros d. unfold OrderedDict.move_to_end.
      destruct (OrderedDict.lookup key d) as [e|] eqn:He; [|auto].
      rewrite total_size_app, length_app, (total_size_remove _ _ _ He).
      pose proof (length_remove _ _ _ He). simpl. split; lia. }
    split; cbn [snd cache cache_stats size_bytes entry_count].
    + destruct (strategy (config c)); rewrite ?(proj1 (Hmove _)), Htotal; simpl; lia.
    + destruct (strategy (config c)); rewrite ?(proj2 (Hmove _)), Hlen; lia.
Qed.

Lemma get_keeps_the_counters_right_witness :
  accounted (IntelligentCache.init default_config)
  /\ accounted
       (snd (IntelligentCache.get scenario.codec (IntelligentCache.init default_config)
               "vertex_ai" "credit_scoring" "{}" None 0)).
Proof.
  assert (H : accounted (IntelligentCache.init default_config)) by (split; reflexivity).
  split; [exact H|].
  exact (get_keeps_the_counters_right scenario.codec _ "vertex_ai" "credit_scoring"
           "{}" None 0 H).
Defined.

(** X16: storing a result under a key that the cache does not hold keeps the
    counters in agreement with the entries, and the tracked size within
    the configured maximum. *)
Theorem set_of_a_new_key_stays_within_max_size (codec : Codec)
    (c c' : IntelligentCache.t) (service_name operation : string) (data : Data)
    (result : Value) (ttl : option Q) (ctx : option Data) (md : option Metadata)
    (now : Q) :
  accounted c ->
  (0 <= max_size_mb (config c))%Q ->
  OrderedDict.lookup (_generate_cache_key codec service_name operation data ctx) (cache c)
  = None ->
  IntelligentCache.set codec c service_name operation data result ttl ctx md now
  = (true, c') ->
  accounted c'
  /\ (inject_Z (size_bytes (cache_stats c')) <= max_size_bytes c')%Q.
Proof.
  intros Hacc Hmax Hfresh. unfold IntelligentCache.set.
  set (key := _generate_cache_key codec service_name operation data ctx) in *.
  destruct (if enable_compression (config c) then _ else _) as [size|]; [|discriminate].
  destruct (Qltb_spec (max_size_bytes c * 0.1) (inject_Z size)) as [|Hsmall];
    [discriminate|].
  intros H. inversion H; subst; clear H.
  unfold _ensure_cache_space.
  destruct (evict_while_accounted (length (cache c)) size now key c Hacc Hfresh)
    as ([Hsize Hcount] & Hfresh' & Hcfg).
  pose proof (evict_while_exit size now (length (cache c)) c (Nat.le_refl _)) as Hexit.
  cbv zeta in Hexit.
  set (c1 := evict_while (length (cache c)) size now c) in *.
  split.
  - split; cbn [cache cache_stats size_bytes entry_count].
    + rewrite (assign_absent _ _ _ Hfresh'), total_size_app. simpl. lia.
    + rewrite (assign_absent _ _ _ Hfresh'), length_app. simpl. lia.
  - unfold max_size_bytes in *. cbn [config cache_stats size_bytes].
    rewrite Hcfg in *.
    destruct Hexit as [Hfits|Hempty]; [exact Hfits|].
    rewrite Hsize, Hempty. simpl total_size. rewrite Z.add_0_l.
    assert (0 <= max_size_mb (config c) * 1024 * 1024)%Q by nra.
    lra.
Qed.

Lemma set_of_a_new_key_stays_within_max_size_witness :
  let c := IntelligentCache.init default_config in
  let stored :=
    IntelligentCache.set scenario.codec c "vertex_ai" "credit_scoring" "{}"
      (VData "small") None None None 0 in
  accounted c
  /\ (0 <= max_size_mb (config c))%Q
  /\ fst stored = true
  /\ accounted (snd stored)
  /\ (inject_Z (size_bytes (cache_stats (snd stored))) <= max_size_bytes (snd stored))%Q.
Proof.
  intros c stored.
  assert (Hacc : accounted c) by (split; reflexivity).
  assert (Hmax : (0 <= max_size_mb (config c))%Q) by (vm_compute; discriminate).
  assert (Hset : IntelligentCache.set scenario.codec c "vertex_ai" "credit_scoring" "{}"
                   (VData "small") None None None 0 = (true, snd stored))
    by (vm_compute; reflexivity).
  split; [exact Hacc|]. split; [exact Hmax|]. split; [vm_compute; reflexivity|].
  exact (set_of_a_new_key_stays_within_max_size scenario.codec c (snd stored)
           "vertex_ai" "credit_scoring" "{}" (VData "small") None None None 0
           Hacc Hmax eq_refl Hset).
Defined.

Lemma lookup_app_absent (k : string) (pre d : OrderedDict.t) :
  ~ In k (map fst pre) ->
  OrderedDict.lookup k (pre ++ d) = OrderedDict.lookup k d
  /\ OrderedDict.remove k (pre ++ d) = pre ++ OrderedDict.remove k d.
Proof.
  induction pre as [|[k' e'] pre IH]; simpl; intros Hnot; [auto|].
  destruct (String.eqb k' k) eqn:E.
  - apply String.eqb_eq in E. tauto.
  - destruct IH as [-> ->]; [tauto|]. auto.
Qed.

(** The counters after the entries [removed] have been dropped. *)
Lemma fold_evicted (removed : list CacheEntry.t) :
  forall s : Stats,
    let s' := fold_left evicted removed s in
    hits s' = hits s /\ misses s' = misses s
    /\ evictions s' = evictions s + Z.of_nat (length removed)
    /\ entry_count s' = entry_count s - Z.of_nat (length removed)
    /\ size_bytes s'
       = size_bytes s - fold_right (fun e acc => CacheEntry.size_bytes e + acc) 0 removed.
Proof.
  induction removed as [|e removed IH]; intros s; simpl; [repeat split; lia|].
  destruct (IH (evicted s e)) as (H1 & H2 & H3 & H4 & H5).
  rewrite H1, H2, H3, H4, H5. simpl. repeat split; lia.
Qed.

(** The removal loop run on the keys that a test [p] selects, for a
    dictionary whose keys are distinct. *)
Lemma remove_selected (p : string * CacheEntry.t -> bool) (cfg : CacheConfig) :
  forall (d pre : OrderedDict.t) (s : Stats),
    List.NoDup (map fst (pre ++ d)) ->
    fold_left remove_entry (map fst (List.filter p d))
      {| config := cfg; cache := pre ++ d; cache_stats := s |}
    = {| config := cfg; cache := pre ++ List.filter (fun kv => negb (p kv)) d;
         cache_stats := fold_left evicted (map snd (List.filter p d)) s |}.
Proof.
  induction d as [|[k e] d IH]; intros pre s Hnd; simpl; [reflexivity|].
  destruct (p (k, e)) eqn:Hp; simpl.
  - assert (Hnot : ~ In k (map fst pre)).
    { rewrite map_app in Hnd. simpl in Hnd. apply List.NoDup_remove_2 in Hnd.
      intros Hin. apply Hnd. apply in_or_app. now left. }
    unfold remove_entry at 2. cbn [cache config cache_stats].
    destruct (lookup_app_absent k pre ((k, e) :: d) Hnot) as [-> ->].
    simpl. rewrite String.eqb_refl. apply IH.
    rewrite map_app in *. simpl in Hnd. now apply List.NoDup_remove_1 in Hnd.
  - replace (pre ++ (k, e) :: d) with ((pre ++ [(k, e)]) ++ d)
      by (now rewrite <- app_assoc).
    rewrite IH by (now rewrite <- app_assoc). now rewrite <- app_assoc.
Qed.

Lemma total_size_filter (p : string * CacheEntry.t -> bool) (d : OrderedDict.t) :
  total_size d
  = total_size (List.filter (fun kv => negb (p kv)) d)
    + fold_right (fun e acc => CacheEntry.size_bytes e + acc) 0
        (map snd (List.filter p d))
  /\ length d
     = (length (List.filter (fun kv => negb (p kv)) d)
        + length (map snd (List.filter p d)))%nat.
Proof.
  induction d as [|kv d [IH1 IH2]]; simpl; [auto|].
  destruct (p kv); simpl; rewrite IH1, IH2; split; lia.
Qed.

(** X17: one round of the periodic cleanup removes exactly the entries that
    have expired: the others stay, in their order; every removal counts as
    an eviction, hits and misses are untouched, and counters that agreed
    with the entries still do. *)
Theorem periodic_cleanup_removes_exactly_the_expired (c : IntelligentCache.t) (now : Q) :
  NoDup (map fst (cache c)) ->
  let expired := List.filter (fun kv => CacheEntry.is_expired (snd kv) now) (cache c) in
  let c' := IntelligentCache._periodic_cleanup c now in
  cache c' = List.filter (fun kv => negb (CacheEntry.is_expired (snd kv) now)) (cache c)
  /\ evictions (cache_stats c') = evictions (cache_stats c) + Z.of_nat (length expired)
  /\ hits (cache_stats c') = hits (cache_stats c)
  /\ misses (cache_stats c') = misses (cache_stats c)
  /\ config c' = config c
  /\ (accounted c -> accounted c').
Proof.
  intros Hnd expired c'. subst c'. unfold IntelligentCache._periodic_cleanup.
  apply NoDup_ListNoDup in Hnd.
  destruct c as [cfg d s]. cbn [cache config cache_stats] in *.
  rewrite (remove_selected _ cfg d [] s Hnd). cbn [app cache config cache_stats].
  destruct (fold_evicted (map snd expired) s) as (H1 & H2 & H3 & H4 & H5).
  fold expired. rewrite length_map in *.
  repeat split; try assumption.
  - cbn [cache_stats cache]. destruct H as [Hs _].
    destruct (total_size_filter (fun kv => CacheEntry.is_expired (snd kv) now) d)
      as [Ht _].
    fold expired in Ht. cbn [cache_stats cache] in Hs. lia.
  - cbn [cache_stats cache]. destruct H as [_ Hn].
    destruct (total_size_filter (fun kv => CacheEntry.is_expired (snd kv) now) d)
      as [_ Hl].
    fold expired in Hl. rewrite length_map in Hl. cbn [cache_stats cache] in Hn. lia.
Qed.

(** X18: [invalidate] removes exactly the keys that its test selects (the
    pattern when one is given, else the service and operation prefix, else
    the service prefix) and keeps every other entry in its order; every
    removal counts as an eviction, and counters that agreed with the
    entries still do. *)
Theorem invalidate_removes_exactly_the_selected (c : IntelligentCache.t)
    (service_name operation pattern : option string) :
  NoDup (map fst (cache c)) ->
  let selected kv := should_remove service_name operation pattern (fst kv) in
  let c' := IntelligentCache.invalidate c service_name operation pattern in
  cache c' = List.filter (fun kv => negb (selected kv)) (cache c)
  /\ evictions (cache_stats c')
     = evictions (cache_stats c) + Z.of_nat (length (List.filter selected (cache c)))
  /\ hits (cache_stats c') = hits (cache_stats c)
  /\ misses (cache_stats c') = misses (cache_stats c)
  /\ config c' = config c
  /\ (accounted c -> accounted c').
Proof.
  intros Hnd selected c'. subst c'. apply NoDup_ListNoDup in Hnd.
  destruct c as [cfg d s]. cbn [cache config cache_stats] in *.
  assert (Hrm : IntelligentCache.invalidate {| config := cfg; cache := d; cache_stats := s |}
                  service_name operation pattern
                = {| config := cfg; cache := List.filter (fun kv => negb (selected kv)) d;
                     cache_stats :=
                       fold_left evicted (map snd (List.filter selected d)) s |})
    by exact (remove_selected selected cfg d [] s Hnd).
  rewrite Hrm. cbn [cache config cache_stats].
  destruct (fold_evicted (map snd (List.filter selected d)) s) as (H1 & H2 & H3 & H4 & H5).
  rewrite length_map in *.
  destruct (total_size_filter selected d) as [Ht Hl]. rewrite length_map in Hl.
  repeat split; try assumption.
  - cbn [cache_stats cache]. destruct H as [Hs _]. cbn [cache_stats cache] in Hs. lia.
  - cbn [cache_stats cache]. destruct H as [_ Hn]. cbn [cache_stats cache] in Hn. lia.
Qed.

(** X19: without a service name and without a pattern [invalidate] removes
    nothing, whatever operation is named; an empty string counts as no
    argument. *)
Theorem invalidate_needs_a_service_or_a_pattern (c : IntelligentCache.t)
    (service_name operation pattern : option string) :
  str_truthy service_name = false ->
  str_truthy pattern = false ->
  IntelligentCache.invalidate c service_name operation pattern = c.
Proof.
  intros Hs Hp. unfold IntelligentCache.invalidate, should_remove. rewrite Hs, Hp. simpl.
  replace (List.filter (fun _ => false) (cache c)) with (@nil (string * CacheEntry.t));
    [reflexivity|].
  induction (cache c) as [|kv d IH]; simpl; auto.
Qed.

Lemma two_entries_distinct : NoDup (map fst (cache scenario.two_entries)).
Proof.
  apply NoDup_ListNoDup. vm_compute.
  repeat constructor; simpl; intuition discriminate.
Defined.

Lemma periodic_cleanup_removes_exactly_the_expired_witness :
  NoDup (map fst (cache scenario.two_entries))
  /\ map (fun kv => CacheEntry.value (snd kv)) (cache (IntelligentCache._periodic_cleanup scenario.two_entries 100))
     = [VData "big"]
  /\ evictions (cache_stats (IntelligentCache._periodic_cleanup scenario.two_entries 100)) = 1.
Proof.
  split; [exact two_entries_distinct|].
  destruct (periodic_cleanup_removes_exactly_the_expired scenario.two_entries 100
              two_entries_distinct) as (Hcache & Hev & _).
  rewrite Hcache, Hev. split; vm_compute; reflexivity.
Defined.

Lemma invalidate_removes_exactly_the_selected_witness :
  NoDup (map fst (cache scenario.two_entries))
  /\ map (fun kv => CacheEntry.value (snd kv))
       (cache (IntelligentCache.invalidate scenario.two_entries (Some "vertex_ai"%string) None None))
     = [VData "big"].
Proof.
  split; [exact two_entries_distinct|].
  destruct (invalidate_removes_exactly_the_selected scenario.two_entries
              (Some "vertex_ai"%string) None None two_entries_distinct) as (Hcache & _).
  rewrite Hcache. vm_compute. reflexivity.
Defined.

Lemma invalidate_needs_a_service_or_a_pattern_witness :
  str_truthy None = false
  /\ str_truthy (Some EmptyString) = false
  /\ IntelligentCache.invalidate scenario.two_entries None (Some "credit_scoring"%string) (Some EmptyString)
     = scenario.two_entries.
Proof.
  split; [reflexivity|]. split; [reflexivity|].
  apply invalidate_needs_a_service_or_a_pattern; reflexivity.
Defined.

Lemma remove_not_in (k : string) (d : OrderedDict.t) :
  NoDup (map fst d) -> ~ In k (map fst (OrderedDict.remove k d)).
Proof.
  induction d as [|[k0 e0] d IH]; simpl; intros Hnd; [tauto|].
  inversion Hnd as [|? ? Hnotin Hnd']; subst.
  destruct (String.eqb k0 k) eqn:E.
  - apply String.eqb_eq in E. subst k0. intros Hin. apply Hnotin.
    now apply list_elem_of_In.
  - apply String.eqb_neq in E. simpl. intros [H|H]; [congruence|]. now apply IH.
Qed.

(** X20: under the LRU strategy a hit makes the entry the most recently
    used: it moves behind every other entry, with its access count raised
    and its last access set to the time of the read, and as long as the
    cache holds another entry the next eviction takes that other one. *)
Theorem lru_hit_moves_the_entry_last (codec : Codec) (c : IntelligentCache.t)
    (service_name operation : string) (data : Data) (ctx : option Data) (now later : Q)
    (entry : CacheEntry.t) :
  let key := _generate_cache_key codec service_name operation data ctx in
  strategy (config c) = LRU ->
  NoDup (map fst (cache c)) ->
  (2 <= length (cache c))%nat ->
  OrderedDict.lookup key (cache c) = Some entry ->
  CacheEntry.is_expired entry now = false ->
  let c' := snd (IntelligentCache.get codec c service_name operation data ctx now) in
  cache c' = OrderedDict.remove key (cache c) ++ [(key, CacheEntry.touch entry now)]
  /\ exists victim : string, key_to_remove c' later = Some victim /\ victim <> key.
Proof.
  intros key Hlru Hnd Hlen Hlook Hfresh c'. subst c'.
  unfold IntelligentCache.get. fold key. rewrite Hlook, Hfresh, Hlru.
  cbn [snd cache]. unfold OrderedDict.move_to_end.
  rewrite lookup_assign_same, remove_assign_same. split; [reflexivity|].
  unfold key_to_remove. cbn [cache config]. rewrite Hlru.
  pose proof (length_remove _ _ _ Hlook) as Hrem.
  pose proof (remove_not_in key (cache c) Hnd) as Hnot.
  destruct (OrderedDict.remove key (cache c)) as [|[k' e'] rest]; [simpl in Hrem; lia|].
  simpl. exists k'. split; [reflexivity|]. intros ->. apply Hnot. now left.
Qed.

Lemma lru_hit_moves_the_entry_last_witness :
  let c := scenario.stored_twice scenario.lru_config in
  strategy (config c) = LRU
  /\ NoDup (map fst (cache c))
  /\ (2 <= length (cache c))%nat
  /\ map (fun kv => CacheEntry.value (snd kv))
       (cache (snd (IntelligentCache.get scenario.codec c "vertex_ai" "credit_scoring"
                      "{}" None 30)))
     = [VData "big"; VData "small"].
Proof.
  intros c.
  assert (Hnd : NoDup (map fst (cache c))).
  { apply NoDup_ListNoDup. vm_compute.
    repeat constructor; simpl; intuition discriminate. }
  assert (Hlen : (2 <= length (cache c))%nat) by (vm_compute; lia).
  split; [reflexivity|]. split; [exact Hnd|]. split; [exact Hlen|].
  set (key := _generate_cache_key scenario.codec "vertex_ai" "credit_scoring" "{}" None).
  let o := eval vm_compute in (OrderedDict.lookup key (cache c)) in
  match o with
  | Some ?e =>
      assert (Hlook : OrderedDict.lookup key (cache c) = Some e)
        by (vm_compute; reflexivity);
      destruct (lru_hit_moves_the_entry_last scenario.codec c "vertex_ai"
                  "credit_scoring" "{}" None 30 40 e eq_refl Hnd Hlen Hlook eq_refl)
        as [Hcache _]
  end.
  rewrite Hcache. vm_compute. reflexivity.
Defined.

Lemma nonzero_ttl_is_respected_witness :
  let c := IntelligentCache.init default_config in
  let stored :=
    IntelligentCache.set scenario.codec c "vertex_ai" "credit_scoring" "{}"
      (VData "small") (Some 60%Q) None None 0 in
  NoDup (map fst (cache c))
  /\ ~ (60 == 0)%Q
  /\ fst stored = true
  /\ (60 < 100 - 0)%Q
  /\ fst (IntelligentCache.get scenario.codec (snd stored) "vertex_ai" "credit_scoring"
            "{}" None 100) = None.
Proof.
  intros c stored.
  assert (Hnd : NoDup (map fst (cache c))) by constructor.
  assert (HT : ~ (60 == 0)%Q) by (intros H; vm_compute in H; discriminate).
  assert (Hset : IntelligentCache.set scenario.codec c "vertex_ai" "credit_scoring" "{}"
                   (VData "small") (Some 60%Q) None None 0 = (true, snd stored))
    by (vm_compute; reflexivity).
  assert (Hold : (60 < 100 - 0)%Q) by (vm_compute; reflexivity).
  split; [exact Hnd|]. split; [exact HT|]. split; [vm_compute; reflexivity|].
  split; [exact Hold|].
  exact (proj1 (nonzero_ttl_is_respected scenario.codec c (snd stored) "vertex_ai"
                  "credit_scoring" "{}" (VData "small") 60 None None 0 100 []
                  Hnd HT Hset Hold)).
Defined.

End CacheMore.

(** ** The batcher's queues *)

Section BatchMore.
Import batching batching.RequestBatcher.
Import invariants.

Lemma slice_partition {A : Type} (n : Z) (l : list A) :
  slice_to n l ++ slice_from n l = l.
Proof. unfold slice_to, slice_from. destruct (0 <=? n); apply firstn_skipn. Qed.

Lemma slice_to_length {A : Type} (n : Z) (l : list A) :
  0 <= n -> length (slice_to n l) = Nat.min (Z.to_nat n) (length l).
Proof.
  intros Hn. unfold slice_to. apply Z.leb_le in Hn. rewrite Hn. apply length_firstn.
Qed.

Lemma process_batch_finally_keeps (b : RequestBatcher.t) (l : Loop) (key : string) :
  pending_requests (fst (process_batch_finally b l key)) = pending_requests b
  /\ dispatched (fst (process_batch_finally b l key)) = dispatched b.
Proof.
  unfold process_batch_finally. cbn [pending_requests].
  destruct (pending_requests b !! key) as [[|r q]|]; [auto| |auto].
  destruct (_should_process_batch _ key (now l)); auto.
Qed.

(** X22: [_process_batch] takes the requests at the head of the queue, at
    most [max_batch_size] of them, and leaves the others queued in their
    order: no request is lost or handled twice, and no other queue is
    touched. *)
Theorem process_batch_takes_the_head_of_the_queue (b : RequestBatcher.t) (l : Loop)
    (task : nat) (batch_key : string) (r : BatchRequest) (q : list BatchRequest) :
  pending_requests b !! batch_key = Some (r :: q) ->
  let b' := fst (process_batch_begin b l task batch_key) in
  exists batch rest : list BatchRequest,
    dispatched b' = dispatched b ++ [batch]
    /\ pending_requests b' !! batch_key = Some rest
    /\ batch ++ rest = r :: q
    /\ (0 <= max_batch_size (config b) ->
        length batch = Nat.min (Z.to_nat (max_batch_size (config b))) (S (length q)))
    /\ forall other : string,
         other <> batch_key -> pending_requests b' !! other = pending_requests b !! other.
Proof.
  intros Hq b'. subst b'. unfold process_batch_begin. rewrite Hq.
  exists (slice_to (max_batch_size (config b)) (r :: q)),
    (slice_from (max_batch_size (config b)) (r :: q)).
  set (b1 := {| config := config b;
                pending_requests := <[batch_key := _]> (pending_requests b) |}).
  assert (H1 : dispatched b1
               = dispatched b ++ [slice_to (max_batch_size (config b)) (r :: q)])
    by reflexivity.
  assert (H2 : pending_requests b1
               = <[batch_key := slice_from (max_batch_size (config b)) (r :: q)]>
                   (pending_requests b)) by reflexivity.
  assert (H : forall b2 : RequestBatcher.t,
             pending_requests b2 = pending_requests b1 /\ dispatched b2 = dispatched b1 ->
             dispatched b2 = dispatched b ++ [slice_to (max_batch_size (config b)) (r :: q)]
             /\ pending_requests b2 !! batch_key
                = Some (slice_from (max_batch_size (config b)) (r :: q))
             /\ slice_to (max_batch_size (config b)) (r :: q)
                ++ slice_from (max_batch_size (config b)) (r :: q) = r :: q
             /\ (0 <= max_batch_size (config b) ->
                 length (slice_to (max_batch_size (config b)) (r :: q))
                 = Nat.min (Z.to_nat (max_batch_size (config b))) (S (length q)))
             /\ forall other : string,
                  other <> batch_key ->
                  pending_requests b2 !! other = pending_requests b !! other).
  { intros b2 [Hp Hd]. rewrite Hp, Hd, H1, H2. split; [reflexivity|].
    split; [apply lookup_insert_eq|]. split; [apply slice_partition|].
    split; [intros Hn; now rewrite slice_to_length|].
    intros other Hne. now apply lookup_insert_ne. }
  destruct (slice_to (max_batch_size (config b)) (r :: q)) eqn:Hslice.
  - apply H. apply process_batch_finally_keeps.
  - apply H. split; reflexivity.
Qed.

Lemma process_batch_takes_the_head_of_the_queue_witness :
  let b :=
    scenario.batcher_at scenario.batches_of_three "vertex_ai:credit_scoring"
      (map (scenario.request_of "vertex_ai" "credit_scoring" 0 0 0)
         ["a"; "b"; "c"; "d"]%string) None 0 [] in
  pending_requests b !! "vertex_ai:credit_scoring"%string
  = Some (map (scenario.request_of "vertex_ai" "credit_scoring" 0 0 0)
            ["a"; "b"; "c"; "d"]%string)
  /\ exists batch rest : list BatchRequest,
       dispatched (fst (process_batch_begin b (idle 0) 0 "vertex_ai:credit_scoring"))
       = [batch]
       /\ (length batch = 3)%nat /\ (length rest = 1)%nat.
Proof.
  intros b.
  assert (Hq : pending_requests b !! "vertex_ai:credit_scoring"%string
               = Some (map (scenario.request_of "vertex_ai" "credit_scoring" 0 0 0)
                         ["a"; "b"; "c"; "d"]%string))
    by (apply lookup_singleton_eq).
  split; [exact Hq|].
  destruct (process_batch_takes_the_head_of_the_queue b (idle 0) 0
              "vertex_ai:credit_scoring" _ _ Hq)
    as (batch & rest & Hd & _ & Hsplit & Hlen & _).
  exists batch, rest. split; [exact Hd|].
  assert (Hb : (length batch = 3)%nat) by (apply Hlen; simpl; lia).
  split; [exact Hb|].
  apply (f_equal (@length _)) in Hsplit. rewrite length_app in Hsplit.
  simpl in Hsplit. lia.
Defined.

Lemma insert_by_priority_head (x : BatchRequest) (l : list BatchRequest) :
  Forall (fun later => priority later <= priority x) l ->
  insert_by_priority x l = x :: l.
Proof.
  destruct 1 as [|y ys Hy _]; [reflexivity|]. simpl.
  apply Z.leb_le in Hy. now rewrite Hy.
Qed.

Lemma insert_by_priority_sorted (x : BatchRequest) (l : list BatchRequest) :
  by_priority l ->
  by_priority (insert_by_priority x l)
  /\ forall bound : Z,
       priority x <= bound -> Forall (fun later => priority later <= bound) l ->
       Forall (fun later => priority later <= bound) (insert_by_priority x l).
Proof.
  induction l as [|y ys IH]; simpl.
  - intros _. split; [auto|]. intros bound Hx _. now constructor.
  - intros [Hall Hsorted]. destruct (Z.leb_spec (priority y) (priority x)) as [Hle|Hlt].
    + split.
      * simpl. split; [|auto]. constructor; [exact Hle|].
        eapply List.Forall_impl; [|exact Hall]. simpl. intros z Hz. lia.
      * intros bound Hx Hb. now constructor.
    + destruct (IH Hsorted) as [IH1 IH2]. split.
      * simpl. split; [|exact IH1]. apply IH2; [lia|exact Hall].
      * intros bound Hx Hb. inversion Hb; subst. constructor; [assumption|].
        now apply IH2.
Qed.

Lemma sort_by_priority_sorted (l : list BatchRequest) : by_priority (sort_by_priority l).
Proof.
  induction l as [|x l IH]; simpl; [exact I|].
  now apply insert_by_priority_sorted.
Qed.

Lemma filter_none_below (p : Z) (q : list BatchRequest) :
  Forall (fun later => priority later < p) q ->
  List.filter (fun x => p <=? priority x) q = []
  /\ List.filter (fun x => priority x <? p) q = q.
Proof.
  induction 1 as [|z q Hz _ [IH1 IH2]]; simpl; [auto|].
  replace (p <=? priority z) with false by (symmetry; apply Z.leb_gt; lia).
  replace (priority z <? p) with true by (symmetry; apply Z.ltb_lt; lia).
  now rewrite IH1, IH2.
Qed.

(** Sorting an ordered queue with one request appended. *)
Lemma sort_by_priority_append (r : BatchRequest) (q : list BatchRequest) :
  by_priority q ->
  sort_by_priority (q ++ [r])
  = List.filter (fun x => priority r <=? priority x) q
    ++ r :: List.filter (fun x => priority x <? priority r) q.
Proof.
  induction q as [|y q IH]; [reflexivity|].
  intros [Hall Hsorted]. unfold sort_by_priority in *. cbn [app foldr List.filter].
  rewrite (IH Hsorted).
  destruct (Z.leb_spec (priority r) (priority y)) as [Hle|Hlt].
  - replace (priority y <? priority r) with false by (symmetry; apply Z.ltb_ge; lia).
    rewrite <- app_comm_cons. apply insert_by_priority_head.
    rewrite List.Forall_forall in Hall.
    apply Forall_app. split.
    + apply List.Forall_forall. intros z Hz. apply filter_In in Hz. apply Hall. tauto.
    + constructor; [exact Hle|].
      apply List.Forall_forall. intros z Hz. apply filter_In in Hz. apply Hall. tauto.
  - replace (priority y <? priority r) with true by (symmetry; apply Z.ltb_lt; lia).
    destruct (filter_none_below (priority r) q) as [Hnone Hbelow].
    { eapply List.Forall_impl; [|exact Hall]. simpl. intros z Hz. lia. }
    rewrite Hnone, Hbelow. cbn [app insert_by_priority].
    replace (priority r <=? priority y) with false by (symmetry; apply Z.leb_gt; lia).
    f_equal. now apply insert_by_priority_head.
Qed.

Lemma add_request_queue (b : RequestBatcher.t) (l : Loop) (s o : string) (d : Data)
    (p : Z) :
  let key := _get_batch_key s o in
  let r := scenario.request_of s o p (now l) (next_future l) d in
  let queue := default [] (pending_requests b !! key) ++ [r] in
  fst (fst (add_request b l s o d p)) = next_future l
  /\ pending_requests (snd (fst (add_request b l s o d p))) !! key
     = Some (if enable_priority_batching (config b) then sort_by_priority queue
             else queue)
  /\ forall other : string,
       other <> key ->
       pending_requests (snd (fst (add_request b l s o d p))) !! other
       = pending_requests b !! other.
Proof.
  intros key r queue. unfold add_request. fold key.
  cbn [new_future now next_future].
  change {| request_id := _generate_request_id s o d (now l); service_name := s;
            operation := o; data := d; future := next_future l;
            created_at := now l; priority := p |} with r.
  fold queue.
  set (sorted := if enable_priority_batching (config b) then sort_by_priority queue
                 else queue).
  set (b1 := {| config := config b;
                pending_requests := <[key := sorted]> (pending_requests b) |}).
  assert (Hp : pending_requests b1 = <[key := sorted]> (pending_requests b))
    by reflexivity.
  destruct (_should_process_batch b1 key (now l));
    destruct (batch_timers b1 !! key); cbn [create_task fst snd pending_requests];
    rewrite ?Hp;
    (split; [reflexivity|]); (split; [apply lookup_insert_eq|]);
    intros other Hne; now apply lookup_insert_ne.
Qed.

(** X23: with priority batching on, [add_request] queues the new request
    behind every waiting request of the same or a higher priority and
    ahead of those of lower priority, whose order it keeps; the queue
    stays ordered by priority, and the other queues are untouched. *)
Theorem add_request_queues_by_priority (b : RequestBatcher.t) (l : Loop)
    (service_name operation : string) (d : Data) (p : Z) (q : list BatchRequest) :
  let batch_key := _get_batch_key service_name operation in
  enable_priority_batching (config b) = true ->
  default [] (pending_requests b !! batch_key) = q ->
  by_priority q ->
  let b' := snd (fst (add_request b l service_name operation d p)) in
  let r := scenario.request_of service_name operation p (now l) (next_future l) d in
  pending_requests b' !! batch_key
  = Some (List.filter (fun x => p <=? priority x) q
          ++ r :: List.filter (fun x => priority x <? p) q)
  /\ by_priority (default [] (pending_requests b' !! batch_key))
  /\ forall other : string,
       other <> batch_key -> pending_requests b' !! other = pending_requests b !! other.
Proof.
  intros key Hon Hq Hsorted b' r. subst b'.
  destruct (add_request_queue b l service_name operation d p) as (_ & Hqueue & Hother).
  cbv zeta in Hqueue, Hother. fold key r in Hqueue, Hother.
  rewrite Hon, Hq in Hqueue. rewrite Hqueue. split; [|split].
  - f_equal. exact (sort_by_priority_append r q Hsorted).
  - apply sort_by_priority_sorted.
  - exact Hother.
Qed.

Lemma add_request_queues_by_priority_witness :
  let low := scenario.request_of "vertex_ai" "credit_scoring" 1 0 0 "low" in
  let high := scenario.request_of "vertex_ai" "credit_scoring" 5 0 1 "high" in
  let b :=
    scenario.batcher_at scenario.batches_of_three "vertex_ai:credit_scoring"
      [high; low] None 0 [] in
  enable_priority_batching (config b) = true
  /\ by_priority [high; low]
  /\ map data
       (default []
          (pending_requests
             (snd (fst (add_request b (idle 0) "vertex_ai" "credit_scoring" "urgent" 5)))
           !! "vertex_ai:credit_scoring"%string))
     = ["high"; "urgent"; "low"]%string.
Proof.
  intros low high b.
  assert (Hsorted : by_priority [high; low])
    by (simpl; repeat split; repeat constructor; simpl; lia).
  assert (Hq : default [] (pending_requests b
                           !! _get_batch_key "vertex_ai" "credit_scoring")
               = [high; low]) by reflexivity.
  split; [reflexivity|]. split; [exact Hsorted|].
  destruct (add_request_queues_by_priority b (idle 0) "vertex_ai" "credit_scoring"
              "urgent" 5 [high; low] eq_refl Hq Hsorted) as [Hqueue _].
  change (_get_batch_key "vertex_ai" "credit_scoring")
    with "vertex_ai:credit_scoring"%string in Hqueue.
  rewrite Hqueue. reflexivity.
Defined.

End BatchMore.

(** ** The batch timer *)

Section BatchTimer.
Import batching batching.RequestBatcher.

Lemma slice_whole {A : Type} (n : Z) (l : list A) :
  Z.of_nat (length l) <= n -> slice_to n l = l /\ slice_from n l = [].
Proof.
  intros Hn. unfold slice_to, slice_from.
  replace (0 <=? n) with true by (symmetry; apply Z.leb_le; lia).
  split; [apply firstn_all2; lia|apply skipn_all2; lia].
Qed.

(** A queue shorter than a batch goes out whole. *)
Lemma process_batch_begin_whole (config : BatchConfig) (key : string)
    (r : BatchRequest) (q : list BatchRequest) (timer : option nat) (a : Z)
    (log : list (list BatchRequest)) (l : Loop) (task : nat) :
  Z.of_nat (length (r :: q)) <= max_batch_size config ->
  process_batch_begin (scenario.batcher_at config key (r :: q) timer a log) l task key
  = (scenario.batcher_at config key [] timer (a + 1) (log ++ [r :: q]),
     suspend l 0.1 task (ExecuteBatch key (r :: q) [] (r :: q))).
Proof.
  intros Hlen. destruct (slice_whole _ _ Hlen) as [Hto Hfrom].
  rewrite (process_batch_begin_at config key (r :: q) timer a log l task r q Hto).
  now rewrite Hfrom.
Qed.

Lemma timer_fired_at (config : BatchConfig) (key : string) (r : BatchRequest)
    (q : list BatchRequest) (timer : option nat) (a : Z)
    (log : list (list BatchRequest)) (l : Loop) :
  timer_fired (scenario.batcher_at config key (r :: q) timer a log) l key
  = (scenario.batcher_at config key (r :: q) None a log,
     snd (create_task l (ProcessBatch key))).
Proof.
  unfold timer_fired, scenario.batcher_at.
  cbn [pending_requests batch_timers active_batches RequestBatcher.config dispatched].
  rewrite lookup_singleton_eq.
  destruct timer; [rewrite delete_singleton_eq|rewrite delete_empty]; reflexivity.
Qed.

(** A queue that is short and young, with a batch slot free, waits. *)
Lemma young_queue_waits (config : BatchConfig) (key : string) (r : BatchRequest)
    (timer : option nat) (a : Z) (log : list (list BatchRequest)) (clock : Q) :
  a < max_concurrent_batches config ->
  2 <= max_batch_size config ->
  (clock - created_at r < max_wait_time_seconds config)%Q ->
  _should_process_batch (scenario.batcher_at config key [r] timer a log) key clock
  = false.
Proof.
  intros Hslot Hsize Hyoung. rewrite should_process_at.
  replace (max_concurrent_batches config <=? a) with false
    by (symmetry; apply Z.leb_gt; lia).
  replace (max_batch_size config <=? Z.of_nat (length [r])) with false
    by (symmetry; apply Z.leb_gt; simpl; lia).
  assert (Hage : Qle_bool (max_wait_time_seconds config) (clock - created_at r) = false).
  { destruct (Qle_bool _ _) eqn:E; [|reflexivity].
    apply Qle_bool_iff in E. lra. }
  cbn [oldest]. rewrite Hage. now destruct (strategy config).
Qed.

Local Opaque scenario.request_of RequestBatcher._get_batch_key
  Py.Qltb Py.max Qle_bool Qplus Qminus.
Local Arguments lookup : simpl never.
Local Arguments insert : simpl never.
Local Arguments delete : simpl never.
Local Arguments scenario.batcher_at : simpl never.
Local Arguments run : simpl never.

Ltac timer_q_cmp :=
  repeat match goal with
  | |- context [Py.max ?a ?b] =>
      first [ rewrite (py_max_l a b) by lra | rewrite (py_max_r a b) by lra ]
  | |- context [Py.Qltb ?a ?b] =>
      first [ rewrite (Qltb_lt a b) by lra | rewrite (Qltb_ge a b) by lra ]
  end.

(** X24: a single request, too few for a batch, is dispatched by the batch
    timer: [max_wait_time_seconds] after it was submitted it goes out as a
    group of one, and a tenth of a second later its future holds the result
    that [_execute_batch] built for it; the queue is then empty, no timer is
    left, and the event loop is at rest. *)
Theorem lone_request_is_dispatched_by_the_timer
    (config : BatchConfig) (service_name operation : string) (d : Data)
    (priority : Z) (start : Q) (turns : nat) :
  2 <= max_batch_size config ->
  1 <= max_concurrent_batches config ->
  (0 < max_wait_time_seconds config)%Q ->
  (7 <= turns)%nat ->
  let batch_key := _get_batch_key service_name operation in
  let r := scenario.request_of service_name operation priority start 0%nat d in
  exists (b : RequestBatcher.t) (l : Loop),
    run turns (RequestBatcher.init config)
      (scenario.gather start [Submit service_name operation d priority])
    = (true, b, l)
    /\ dispatched b = [[r]]
    /\ pending_requests b !! batch_key = Some []
    /\ batch_timers b !! batch_key = None
    /\ exists processed_at : Q,
         futures l !! 0%nat = Some (Returned (batch_result [r] r processed_at))
         /\ (processed_at == start + max_wait_time_seconds config + (1 # 10))%Q
         /\ (now l == processed_at)%Q.
Proof.
  intros Hsize Hslot Hwait Hturns key r.
  do 7 (destruct turns as [|turns]; [lia|]). clear Hturns.
  unfold scenario.gather. cbn [length seq combine].
  (* the request is queued and the timer created *)
  erewrite run_turn;
    [|unfold turn; simpl; rewrite add_request_first;
      rewrite young_queue_waits;
      [reflexivity|lia|exact Hsize|
       change (created_at _) with start; simpl; lra]].
  simpl. fold key r.
  (* the timer goes to sleep *)
  erewrite run_turn; [|unfold turn; simpl; reflexivity].
  change (RequestBatcher.config (scenario.batcher_at config key [r] (Some 1%nat) 0 []))
    with config.
  (* and wakes up *)
  erewrite run_turn; [|unfold turn; simpl; timer_q_cmp; reflexivity].
  (* it schedules the batch *)
  erewrite run_turn; [|unfold turn; simpl; rewrite timer_fired_at; reflexivity].
  simpl.
  (* the batch is taken off the queue *)
  erewrite run_turn;
    [|unfold turn; simpl; rewrite process_batch_begin_whole by (simpl; lia);
      reflexivity].
  simpl.
  (* the simulated call returns *)
  erewrite run_turn; [|unfold turn; simpl; timer_q_cmp; reflexivity].
  erewrite run_turn;
    [|unfold turn; simpl; rewrite process_batch_finally_empty; reflexivity].
  eexists _, _. split; [apply run_rest; reflexivity|].
  split; [reflexivity|]. split; [apply lookup_singleton_eq|].
  split; [apply lookup_empty|].
  exists (start + max_wait_time_seconds config + 0.1)%Q.
  split; [|split; reflexivity].
  unfold set_result. cbn [futures].
  change (future r) with 0%nat. apply lookup_insert_eq.
Qed.

Lemma lone_request_is_dispatched_by_the_timer_witness :
  2 <= max_batch_size scenario.batches_of_three
  /\ 1 <= max_concurrent_batches scenario.batches_of_three
  /\ (0 < max_wait_time_seconds scenario.batches_of_three)%Q
  /\ (7 <= 10)%nat
  /\ exists (b : RequestBatcher.t) (l : Loop),
       run 10 (RequestBatcher.init scenario.batches_of_three)
         (scenario.gather 0 [Submit "vertex_ai" "credit_scoring" "a" 0])
       = (true, b, l)
       /\ map (map data) (dispatched b) = [["a"%string]]
       /\ (now l == 21 # 10)%Q.
Proof.
  split; [cbn; lia|]. split; [cbn; lia|]. split; [reflexivity|]. split; [lia|].
  destruct (lone_request_is_dispatched_by_the_timer scenario.batches_of_three
              "vertex_ai" "credit_scoring" "a" 0 0 10)
    as (b & l & Hrun & Hlog & _ & _ & t & _ & Ht & Hnow).
  - cbn; lia.
  - cbn; lia.
  - reflexivity.
  - lia.
  - exists b, l. split; [exact Hrun|]. split; [now rewrite Hlog|].
    rewrite Hnow, Ht. reflexivity.
Defined.

(** X25: [max_concurrent_batches] holds back [add_request] and the [finally]
    block, which ask [_should_process_batch], but not the batch timer: when
    the timer fires on a queue that is not empty it schedules
    [_process_batch] without asking, and that takes a batch although the
    limit was reached, so that more batches are active than the limit
    allows. *)
Theorem batch_timer_ignores_the_concurrency_limit (b : RequestBatcher.t)
    (l l' : Loop) (task : nat) (batch_key : string) (r : BatchRequest)
    (q : list BatchRequest) (clock : Q) :
  pending_requests b !! batch_key = Some (r :: q) ->
  1 <= max_batch_size (config b) ->
  max_concurrent_batches (config b) <= default 0 (active_batches b !! batch_key) ->
  _should_process_batch b batch_key clock = false
  /\ ready (snd (timer_fired b l batch_key))
     = ready l ++ [(next_task l, ProcessBatch batch_key)]
  /\ let b' :=
       fst (process_batch_begin (fst (timer_fired b l batch_key)) l' task batch_key) in
     dispatched b' = dispatched b ++ [slice_to (max_batch_size (config b)) (r :: q)]
     /\ exists active : Z,
          active_batches b' !! batch_key = Some active
          /\ max_concurrent_batches (config b') < active.
Proof.
  intros Hq Hsize Hfull. split; [|split].
  - unfold _should_process_batch. rewrite Hq.
    now replace (max_concurrent_batches (config b)
                 <=? default 0 (active_batches b !! batch_key)) with true
      by (symmetry; apply Z.leb_le; lia).
  - unfold timer_fired. now rewrite Hq.
  - unfold timer_fired, process_batch_begin.
    cbn [fst pending_requests RequestBatcher.config active_batches dispatched].
    rewrite Hq.
    assert (Hslice : exists rest, slice_to (max_batch_size (config b)) (r :: q) = r :: rest).
    { unfold slice_to.
      replace (0 <=? max_batch_size (config b)) with true
        by (symmetry; apply Z.leb_le; lia).
      destruct (Z.to_nat (max_batch_size (config b))) as [|n] eqn:Hn; [lia|].
      simpl. eauto. }
    destruct Hslice as [rest Hslice]. rewrite Hslice.
    cbn [fst dispatched active_batches RequestBatcher.config].
    split; [reflexivity|].
    exists (default 0 (active_batches b !! batch_key) + 1).
    split; [apply lookup_insert_eq|lia].
Qed.

Lemma batch_timer_ignores_the_concurrency_limit_witness :
  let r := scenario.request_of "vertex_ai" "credit_scoring" 0 0 0 "a" in
  let b :=
    scenario.batcher_at scenario.batches_of_three "vertex_ai:credit_scoring" [r]
      (Some 7%nat) 5 [] in
  pending_requests b !! "vertex_ai:credit_scoring"%string = Some [r]
  /\ 1 <= max_batch_size (config b)
  /\ max_concurrent_batches (config b)
     <= default 0 (active_batches b !! "vertex_ai:credit_scoring"%string)
  /\ dispatched
       (fst (process_batch_begin (fst (timer_fired b (idle 2) "vertex_ai:credit_scoring"))
               (idle 2) 8 "vertex_ai:credit_scoring"))
     = [[r]].
Proof.
  intros r b.
  assert (Hq : pending_requests b !! "vertex_ai:credit_scoring"%string = Some [r])
    by (apply lookup_singleton_eq).
  assert (Hsize : 1 <= max_batch_size (config b)) by (unfold b, scenario.batcher_at; cbn; lia).
  assert (Hfull : max_concurrent_batches (config b)
                  <= default 0 (active_batches b !! "vertex_ai:credit_scoring"%string)).
  { unfold b, scenario.batcher_at. cbn [active_batches RequestBatcher.config].
    rewrite lookup_singleton_eq. cbn. lia. }
  split; [exact Hq|]. split; [exact Hsize|]. split; [exact Hfull|].
  destruct (batch_timer_ignores_the_concurrency_limit b (idle 2) (idle 2) 8
              "vertex_ai:credit_scoring" r [] 0 Hq Hsize Hfull) as (_ & _ & Hlog & _).
  rewrite Hlog. reflexivity.
Defined.

End BatchTimer.

(** ** Cached results at the gateway *)

Section GatewayMore.

Import error_handlers monitoring caching batching.
Import adk_service_manager adk_service_manager.ADKServiceManager.
Import invariants.

(** X26: on an instance that has a logger for the service, once
    [cache_result] has stored the result of an operation, a call of
    [_execute_with_batching_and_caching] for the same request returns that
    result for as long as the entry lives, provided the lookup is not
    skipped by the operation's cache probability. The call runs nothing:
    the operation is not invoked, nothing sleeps, and the error handler,
    the monitor, the batcher and the event loop are left as they were,
    whether batching is on or not. (For a service without a logger the
    call raises [AttributeError] before the cache is looked at.) *)
Theorem cached_result_is_served_without_a_call (codec : Codec)
    (m : ADKServiceManager.t) (l : Loop) (service_name operation : string)
    (data : Data) (result : Value) (ctx : option Data) (func : Operation)
    (enable_batching : bool) (priority : Z) (turns : nat)
    (mgr0 : SmartCacheManager.t) (w_stored w : World) :
  service_name ∈ service_loggers m ->
  result <> VNone ->
  SmartCacheManager.cache_result codec mgr0 service_name operation data result ctx
    w_stored = (true, cache_manager m) ->
  Py.Qltb
    (default 1%Q
       (SmartCacheManager.policy (cache_manager m) service_name operation
          ≫= SmartCacheManager.policy_cache_probability))
    (rng w (draws w)) = false ->
  (clock w - clock w_stored <= cached_for mgr0 service_name operation)%Q ->
  exists (m' : ADKServiceManager.t) (w' : World),
    _execute_with_batching_and_caching codec m l service_name operation data func
      enable_batching true priority ctx turns w
    = Some (Returned result, m', l, w')
    /\ invocations w' = invocations w
    /\ sleeps w' = sleeps w
    /\ clock w' = clock w
    /\ error_handler m' = error_handler m
    /\ monitor m' = monitor m
    /\ batcher m' = batcher m.
Proof.
  intros Hlog Hres Hstore Hdraw Hage.
  unfold SmartCacheManager.cache_result in Hstore.
  destruct (IntelligentCache.set codec (SmartCacheManager.cache mgr0) service_name
              operation data result _ ctx _ (clock w_stored)) as [ok c'] eqn:Hset.
  inversion Hstore as [[Hok Hmgr]]. subst ok.
  destruct (get_after_set _ _ _ _ _ _ _ _ _ _ _ (clock w) Hset Hage)
    as (c'' & Hget & _).
  unfold _execute_with_batching_and_caching, push_context,
    SmartCacheManager.get_cached_result.
  rewrite (bool_decide_eq_true_2 _ Hlog).
  cbn [SmartCacheManager.random_random]. rewrite Hdraw. cbn [clock].
  assert (Hc : SmartCacheManager.cache (cache_manager m) = c')
    by (now rewrite <- Hmgr).
  rewrite Hc, Hget.
  destruct result as [|text|rid at_ size text]; [contradiction| |];
    eexists _, _; (split; [reflexivity|]); repeat split.
Qed.

Lemma cached_result_is_served_without_a_call_witness :
  let mgr0 := SmartCacheManager.init _get_default_cache_config in
  let stored :=
    SmartCacheManager.cache_result scenario.codec mgr0 "vertex_ai" "credit_scoring"
      "{}" (VData "small") None scenario.world0 in
  let m := with_cache_manager scenario.manager_at_failure (snd stored) in
  let w := set_clock scenario.world0 100 in
  "vertex_ai"%string ∈ service_loggers m
  /\ VData "small" <> VNone
  /\ fst stored = true
  /\ (clock w - clock scenario.world0 <= cached_for mgr0 "vertex_ai" "credit_scoring")%Q
  /\ exists (m' : ADKServiceManager.t) (w' : World),
       _execute_with_batching_and_caching scenario.codec m (idle 100) "vertex_ai"
         "credit_scoring" "{}" (scenario.always (Raised scenario.unavailable))
         true true 0 None 0 w
       = Some (Returned (VData "small"), m', idle 100, w')
       /\ invocations w' = 0%nat.
Proof.
  intros mgr0 stored m w.
  assert (Hlog : "vertex_ai"%string ∈ service_loggers m)
    by (apply (bool_decide_unpack _); vm_compute; exact I).
  assert (Hres : VData "small" <> VNone) by discriminate.
  assert (Hstore : SmartCacheManager.cache_result scenario.codec mgr0 "vertex_ai"
                     "credit_scoring" "{}" (VData "small") None scenario.world0
                   = (true, cache_manager m)) by (vm_compute; reflexivity).
  assert (Hage : (clock w - clock scenario.world0
                  <= cached_for mgr0 "vertex_ai" "credit_scoring")%Q)
    by (vm_compute; discriminate).
  split; [exact Hlog|]. split; [exact Hres|]. split; [vm_compute; reflexivity|].
  split; [exact Hage|].
  destruct (cached_result_is_served_without_a_call scenario.codec m (idle 100)
              "vertex_ai" "credit_scoring" "{}" (VData "small") None
              (scenario.always (Raised scenario.unavailable)) true 0 0 mgr0
              scenario.world0 w Hlog Hres Hstore)
    as (m' & w' & Hcall & Hinv & _).
  - vm_compute. reflexivity.
  - exact Hage.
  - exists m', w'. split; [exact Hcall|]. rewrite Hinv. reflexivity.
Defined.

End GatewayMore.

(** ** The rate limiter *)

Section RateLimits.

Import adk_service_manager adk_service_manager.RateLimiter.

Lemma record_requests_counts (service : string) (times : list Q) :
  forall m : RateLimiter.t,
    let m' := fold_left (fun m t => _record_request m service t) times m in
    default [] (_request_counts m' !! service)
    = default [] (_request_counts m !! service) ++ times
    /\ rate_limit_status m' = rate_limit_status m
    /\ requests_per_minute m' = requests_per_minute m
    /\ (times <> [] -> is_Some (_request_counts m' !! service)).
Proof.
  induction times as [|t times IH]; intros m; cbn [fold_left].
  - rewrite app_nil_r. repeat split. congruence.
  - destruct (IH (_record_request m service t)) as (H1 & H2 & H3 & H4).
    cbv zeta. rewrite H1, H2, H3. cbn [_record_request _request_counts
      rate_limit_status requests_per_minute].
    rewrite lookup_insert_eq. cbn [default from_option id]. rewrite <- app_assoc.
    repeat split. intros _.
    destruct times as [|t' times]; [|apply H4; discriminate].
    cbn [fold_left _record_request _request_counts]. rewrite lookup_insert_eq. eauto.
Qed.

(** X27: [_check_rate_limit] counts the requests recorded in the last minute:
    for a service whose status is tracked, after any number of calls of
    [_record_request] it allows the next request exactly when fewer than
    [requests_per_minute] of the recorded times are less than sixty
    seconds old; it forgets the older times, and publishes the count, the
    requests remaining (never negative) and the limited flag. *)
Theorem rate_limit_counts_the_last_minute (m : RateLimiter.t) (service : string)
    (times : list Q) (now : Q) :
  is_Some (rate_limit_status m !! service) ->
  let m' := fold_left (fun m t => _record_request m service t) times m in
  let recent :=
    List.filter (fun t => Py.Qltb (now - 60) t)
      (default [] (_request_counts m !! service) ++ times) in
  let count := Z.of_nat (length recent) in
  let '(allowed, m'') := _check_rate_limit m' service now in
  allowed = Some (count <? requests_per_minute m)
  /\ _request_counts m'' !! service = Some recent
  /\ rate_limit_status m'' !! service
     = Some {| requests_made := count;
               requests_remaining := Z.max 0 (requests_per_minute m - count);
               is_limited := negb (count <? requests_per_minute m) |}
  /\ 0 <= Z.max 0 (requests_per_minute m - count).
Proof.
  intros Hstatus m' recent count.
  destruct (record_requests_counts service times m) as (Hcounts & Hst & Hlimit & _).
  fold m' in Hcounts, Hst, Hlimit.
  unfold _check_rate_limit.
  destruct (_request_counts m' !! service) as [old|] eqn:Hold.
  - rewrite Hst. destruct Hstatus as [st ->]. rewrite Hold, Hlimit.
    cbn [default from_option id] in Hcounts |- *. rewrite Hcounts. fold recent count.
    cbn [_request_counts rate_limit_status]. rewrite !lookup_insert_eq.
    rewrite Z.ltb_antisym, negb_involutive. repeat split; lia.
  - cbn [_request_counts rate_limit_status requests_per_minute].
    rewrite !lookup_insert_eq. cbn [default from_option id] in Hcounts |- *.
    assert (Hrecent : recent = []).
    { unfold recent. now rewrite <- Hcounts. }
    unfold count. rewrite Hrecent, Hlimit. cbn [List.filter length].
    cbn [_request_counts rate_limit_status Z.of_nat].
    rewrite !lookup_insert_eq.
    rewrite Z.ltb_antisym, negb_involutive. repeat split; lia.
Qed.

Lemma rate_limit_counts_the_last_minute_witness :
  let m := snd (_check_rate_limit (RateLimiter.init 2) "vertex_ai" 0) in
  is_Some (rate_limit_status m !! "vertex_ai"%string)
  /\ fst (_check_rate_limit
            (fold_left (fun m t => _record_request m "vertex_ai" t) [10; 65; 70]%Q m)
            "vertex_ai" 71)
     = Some false.
Proof.
  intros m.
  assert (Hstatus : is_Some (rate_limit_status m !! "vertex_ai"%string))
    by (vm_compute; eexists; reflexivity).
  split; [exact Hstatus|].
  pose proof (rate_limit_counts_the_last_minute m "vertex_ai" [10; 65; 70]%Q 71
                Hstatus) as H.
  cbv zeta in H.
  destruct (_check_rate_limit _ "vertex_ai" 71) as [allowed m''].
  destruct H as [-> _]. vm_compute. reflexivity.
Defined.

(** X28: [_record_request] starts the list of request times of a service it
    has not seen but not its rate-limit status, which only
    [_check_rate_limit] creates, and only together with the list: for a
    service that is recorded first, the check finds the list, skips the
    initialisation, and fails on the missing status with a [KeyError]. *)
Theorem record_before_check_raises_key_error (m : RateLimiter.t) (service : string)
    (recorded_at now : Q) :
  _request_counts m !! service = None ->
  rate_limit_status m !! service = None ->
  fst (_check_rate_limit (_record_request m service recorded_at) service now) = None.
Proof.
  intros Hcounts Hstatus. unfold _check_rate_limit, _record_request.
  cbn [_request_counts rate_limit_status]. rewrite lookup_insert_eq.
  cbn [rate_limit_status]. now rewrite Hstatus.
Qed.

Lemma record_before_check_raises_key_error_witness :
  _request_counts (RateLimiter.init 60) !! "vertex_ai"%string = None
  /\ rate_limit_status (RateLimiter.init 60) !! "vertex_ai"%string = None
  /\ fst (_check_rate_limit (_record_request (RateLimiter.init 60) "vertex_ai" 5)
            "vertex_ai" 6) = None.
Proof.
  assert (H1 : _request_counts (RateLimiter.init 60) !! "vertex_ai"%string = None)
    by apply lookup_empty.
  assert (H2 : rate_limit_status (RateLimiter.init 60) !! "vertex_ai"%string = None)
    by apply lookup_empty.
  split; [exact H1|]. split; [exact H2|].
  exact (record_before_check_raises_key_error _ "vertex_ai" 5 6 H1 H2).
Defined.

End RateLimits.

(** ** Room in the cache, and the rates of the monitor *)

Section CacheSpace.

Import caching caching.IntelligentCache.
Import invariants.



End CacheSpace.
